(** * portfolio-backend: the Express application over its Mongoose models

    A shallow embedding of the server script (the [auth] middleware, the
    eleven route handlers, [seedDatabase], [sendDiscordNotification]) and of
    the schemas under [models/], with the statements of the specification
    proved or refuted on it.

    What the embedding covers.
    - JavaScript values are the JSON fragment plus [undefined] and [Date];
      numbers are integers (ids and timestamps are), so a numeral with a
      fraction or an exponent is outside the model.
    - The two string parsers of the JavaScript engine, [Number(s)] and
      [new Date(s)], and the printing of a [Date], are parameters
      ([Runtime]): every general theorem holds for all of them.
    - Mongoose is modelled by its documented behaviour on the calls the
      script makes: the three schemas of the sources are strict (undeclared
      keys are dropped), values are cast to the declared type, unset paths
      get their defaults on creation and whenever a record is read,
      [required] is validated on [create] and not on updates, an upsert
      sets the defaults on insert and throws when it is given no update.
      The script hands [req.body] to [findOneAndUpdate] as it is: a body
      that is plain (no key that starts with [$], no [_id] or [__v], no
      dotted key) sets its declared fields; what Mongoose makes of any other
      body is a parameter of [Runtime], and so is whether it accepts a value
      for [_id]. The documents of the model do not carry [_id] and [__v]. A
      request body is a JSON object or is absent.
    - models/Contact.js is not among the sources: the Contact model follows
      the data model of the specification, an id, a date and whatever else
      is submitted.
    - The store is reached through an oracle that says, per operation,
      whether the database carries it out; [Date.now()] reads a clock
      oracle.
    - The middlewares installed before the routes (helmet, cors, the body
      size limit, the rate limiter) belong to the framework and are not
      modelled: [serve] starts where Express hands the request to a route. *)

From stdpp Require Import gmap strings list fin_maps pretty sorting.
From Stdlib Require Import ZArith Lia Ascii.

Local Open Scope Z_scope.
Local Set Warnings "-register-all".

(** ** JavaScript values *)

Inductive value :=
| VUndefined
| VNull
| VBool (b : bool)
| VNum (n : Z)
| VStr (s : string)
| VDate (ms : Z)
| VArr (xs : list value)
| VObj (o : gmap string value).

Abbreviation object := (gmap string value).

(** [process.env.X], a header, a route parameter: a string or [undefined]. *)
Definition of_env (x : option string) : value :=
  match x with
  | Some s => VStr s
  | None => VUndefined
  end.

(** Property read [o.k]. *)
Definition prop (o : object) (k : string) : value := default VUndefined (o !! k).

(** An object literal [{ k1: v1, ..., kn: vn }]. *)
Definition obj (kvs : list (string * value)) : object := list_to_map kvs.

(** [a === b] where one side is a primitive: two distinct arrays, objects or
    dates are never identical, and the script only compares against
    [process.env.ADMIN_PASSWORD]. *)
Definition strict_equals (a b : value) : bool :=
  match a, b with
  | VUndefined, VUndefined => true
  | VNull, VNull => true
  | VBool x, VBool y => bool_decide (x = y)
  | VNum x, VNum y => bool_decide (x = y)
  | VStr x, VStr y => bool_decide (x = y)
  | _, _ => false
  end.

(** JavaScript truthiness, as used by [if (!webhookUrl)]. *)
Definition truthy (v : value) : bool :=
  match v with
  | VUndefined | VNull => false
  | VBool b => b
  | VNum n => negb (bool_decide (n = 0))
  | VStr s => negb (bool_decide (s = ""))
  | VDate _ | VArr _ | VObj _ => true
  end.

(** ** The world a request runs in *)

Inductive error :=
| CastError
| ValidationError
| StoreError
| TypeError
| AxiosError.

Inductive line :=
| Log (msg : string)
| Err (msg : string) (e : error).

Record database := {
  settings : list object;
  projects : list object;
  blogs : list object;
  contacts : list object
}.

Record world := {
  db : database;
  clock : nat -> Z;        (* the successive readings of the system time *)
  ticks : nat;             (* how many readings were taken *)
  answers : nat -> bool;   (* whether the store carries out its n-th operation *)
  ops : nat;               (* how many store operations were issued *)
  console : list line;
  outbox : list (string * value)   (* webhook requests handed to axios *)
}.

Inductive outcome (A : Type) :=
| Ok (a : A)
| Throw (e : error).
Arguments Ok {A} a.
Arguments Throw {A} e.

(** A computation may read and change the world, and return or throw. *)
Definition M (A : Type) : Type := world -> outcome A * world.

#[export] Instance M_ret : MRet M := fun A a w => (Ok a, w).
#[export] Instance M_bind : MBind M := fun A B f m w =>
  match m w with
  | (Ok a, w1) => f a w1
  | (Throw e, w1) => (Throw e, w1)
  end.

Definition throw {A} (e : error) : M A := fun w => (Throw e, w).

(** [try { body } catch (err) { handler }] *)
Definition try_catch {A} (body : M A) (handler : error -> M A) : M A := fun w =>
  match body w with
  | (Ok a, w1) => (Ok a, w1)
  | (Throw e, w1) => handler e w1
  end.

(** The world after one reading of the clock. *)
Definition tick (w : world) : world :=
  {| db := db w; clock := clock w; ticks := S (ticks w); answers := answers w;
     ops := ops w; console := console w; outbox := outbox w |}.

(** [Date.now()] *)
Definition Date_now : M Z := fun w => (Ok (clock w (ticks w)), tick w).

Definition console_write (l : line) : M unit := fun w =>
  (Ok tt,
   {| db := db w; clock := clock w; ticks := ticks w; answers := answers w;
      ops := ops w; console := console w ++ [l]; outbox := outbox w |}).

Definition console_log (msg : string) : M unit := console_write (Log msg).
Definition console_error (msg : string) (e : error) : M unit := console_write (Err msg e).

(** One operation on the store: it throws when the store does not answer. *)
Definition store {A} (f : database -> A * database) : M A := fun w =>
  let w1 (d : database) :=
    {| db := d; clock := clock w; ticks := ticks w; answers := answers w;
       ops := S (ops w); console := console w; outbox := outbox w |} in
  if answers w (ops w)
  then let '(a, d) := f (db w) in (Ok a, w1 d)
  else (Throw StoreError, w1 (db w)).

(** One operation on the store that the store itself may refuse. *)
Definition store_try {A} (f : database -> option (A * database)) : M A := fun w =>
  let w1 (d : database) :=
    {| db := d; clock := clock w; ticks := ticks w; answers := answers w;
       ops := S (ops w); console := console w; outbox := outbox w |} in
  if answers w (ops w)
  then match f (db w) with
       | Some (a, d) => (Ok a, w1 d)
       | None => (Throw StoreError, w1 (db w))
       end
  else (Throw StoreError, w1 (db w)).

(** ** Schemas *)

Inductive schema_type := TString | TNumber | TDate | TStrings.

Inductive default_spec :=
| NoDefault
| DefaultValue (v : value)
| DefaultNow.

Record path_spec := {
  ptype : schema_type;
  required : bool;
  default_of : default_spec
}.

Definition schema := list (string * path_spec).

Definition path (t : schema_type) : path_spec :=
  {| ptype := t; required := false; default_of := NoDefault |}.
Definition path_required (t : schema_type) : path_spec :=
  {| ptype := t; required := true; default_of := NoDefault |}.
Definition path_default (t : schema_type) (d : default_spec) : path_spec :=
  {| ptype := t; required := false; default_of := d |}.

(** What the model takes from outside. The engine's own functions on
    strings and dates ([None] is [NaN]); whether Mongoose accepts a value as
    an [_id]; what a schema that is not strict stores, beside its declared
    paths, of an object that is not plain; and what Mongoose and the store
    make of an update that is not plain: whether it casts against the schema, and the document it gives,
    from the document it matched or, on an upsert that matched none, from
    nothing ([None] when the store refuses the update). *)
Class Runtime := {
  StringToNumber : string -> option Z;
  DateParse : string -> option Z;
  DateToString : Z -> string;
  castObjectId : value -> bool;
  looseFields : schema -> object -> object;
  castOperators : schema -> object -> bool;
  applyOperators : schema -> object -> option object -> option object
}.

(** The environment variables the script reads while serving. *)
Record env := {
  ADMIN_PASSWORD : option string;
  DISCORD_WEBHOOK_URL : option string
}.

Inductive method := GET | POST | PUT | DELETE.

Record request := {
  verb : method;
  url : list string;                (* the segments of the path *)
  headers : gmap string string;     (* by lower-case name *)
  body : option object              (* [req.body]: the parsed JSON object, if any *)
}.

Record response := {
  status : Z;
  json : value
}.

(** ** A runtime and a world to evaluate the model on

    The examples read decimal integers with [Number] and parse no date
    string; they use no other string, no [_id] and no body that is not
    plain. *)

Definition digit_of (a : Ascii.ascii) : option Z :=
  let n := Z.of_N (Ascii.N_of_ascii a) in
  if bool_decide (48 <= n <= 57) then Some (n - 48) else None.

Fixpoint digits (acc : Z) (s : string) : option Z :=
  match s with
  | EmptyString => Some acc
  | String a rest => d ← digit_of a; digits (10 * acc + d) rest
  end.

Definition decimal (s : string) : option Z :=
  match s with
  | EmptyString => Some 0
  | String a rest =>
      if bool_decide (rest = "") then digits 0 s
      else if bool_decide (a = "-"%char) then Z.opp <$> digits 0 rest
      else if bool_decide (a = "+"%char) then digits 0 rest
      else digits 0 s
  end.

Definition example_runtime : Runtime :=
  {| StringToNumber := decimal;
     DateParse := fun _ => None;
     DateToString := fun ms => pretty ms;
     castObjectId := fun _ => false;
     looseFields := fun _ _ => ∅;
     castOperators := fun _ _ => false;
     applyOperators := fun _ _ _ => None |}.

Definition empty_database : database :=
  {| settings := []; projects := []; blogs := []; contacts := [] |}.

(** A world over [base] whose store answers and whose clock reads
    [start], [start + step], [start + 2 step], ... *)
Definition world_of (base : database) (start step : Z) : world :=
  {| db := base; clock := fun n => start + step * Z.of_nat n; ticks := 0;
     answers := fun _ => true; ops := 0; console := []; outbox := [] |}.

(** The same world with the store out of reach. *)
Definition offline (w : world) : world :=
  {| db := db w; clock := clock w; ticks := ticks w; answers := fun _ => false;
     ops := ops w; console := console w; outbox := outbox w |}.

Definition example_env : env :=
  {| ADMIN_PASSWORD := Some "s3cret"; DISCORD_WEBHOOK_URL := None |}.

Definition unconfigured_env : env :=
  {| ADMIN_PASSWORD := None; DISCORD_WEBHOOK_URL := None |}.

Definition webhook_env : env :=
  {| ADMIN_PASSWORD := Some "s3cret";
     DISCORD_WEBHOOK_URL := Some "https://discord.example/api/webhooks/1" |}.

Definition request_of (v : method) (u : list string) (password : option string)
    (b : option object) : request :=
  {| verb := v; url := u;
     headers := from_option (fun p => {["password" := p]}) ∅ password;
     body := b |}.

(** The answer of a run that did not throw. *)
Definition answer_of (x : outcome response * world) : response :=
  match x.1 with
  | Ok r => r
  | Throw _ => {| status := 0; json := VUndefined |}
  end.

(** Field [k] of the [i]-th record of a collection. *)
Definition field (l : list object) (i : nat) (k : string) : option value :=
  d ← l !! i; d !! k.

(** Field [k] of the object a handler answered with. *)
Definition answer_field (r : response) (k : string) : option value :=
  match json r with
  | VObj o => o !! k
  | _ => None
  end.

Definition secret : option string := Some "s3cret".

(** A world whose clock started at [1700000000000] and advances by one. *)
Definition fresh_world : world := world_of empty_database 1700000000000 1.

(** A world whose clock stands still. *)
Definition frozen_world : world := world_of empty_database 1700000000000 0.

Definition post_project (b : list (string * value)) : request :=
  request_of POST ["api"; "projects"] secret (Some (obj b)).

Definition post_blog (b : list (string * value)) : request :=
  request_of POST ["api"; "blogs"] secret (Some (obj b)).

Definition post_contact (b : list (string * value)) : request :=
  request_of POST ["api"; "contact"] None (Some (obj b)).

Definition dated (title : string) (date : Z) : object :=
  obj [("id", VNum date); ("title", VStr title); ("content", VStr "text");
       ("tags", VArr []); ("date", VDate date)].

Definition three_blogs : database :=
  {| settings := []; projects := [];
     blogs := [dated "second" 2000; dated "third" 3000; dated "first" 1000];
     contacts := [] |}.

Definition seeded : database :=
  {| settings := [obj [("name", VStr "Vaibhav Kumar"); ("bio", VStr "old bio");
                       ("email", VStr "me@example.org")]];
     projects := []; blogs := []; contacts := [] |}.

Section WithRuntime.
Context {rt : Runtime}.

(** [String(v)]. *)
Fixpoint ToString (v : value) : string :=
  match v with
  | VUndefined => "undefined"
  | VNull => "null"
  | VBool true => "true"
  | VBool false => "false"
  | VNum n => pretty n
  | VStr s => s
  | VDate ms => DateToString ms
  | VArr xs =>
      String.concat ","
        (map (fun x => match x with
                       | VUndefined | VNull => ""
                       | _ => ToString x
                       end) xs)
  | VObj _ => "[object Object]"
  end.

(** ** The schemas of the models *)

(** models/Settings.js *)
Definition SettingsSchema : schema :=
  [ ("name", path_default TString (DefaultValue (VStr "Vaibhav Kumar")));
    ("bio", path TString);
    ("email", path TString);
    ("phone", path TString);
    ("address", path TString) ].

(** models/Project.js *)
Definition ProjectSchema : schema :=
  [ ("id", path_required TNumber);
    ("title", path_required TString);
    ("category", path_default TString (DefaultValue (VStr "web")));
    ("img", path TString);
    ("desc", path TString);
    ("link", path TString) ].

(** models/Blog.js *)
Definition BlogSchema : schema :=
  [ ("id", path_required TNumber);
    ("title", path_required TString);
    ("content", path_required TString);
    ("img", path TString);
    ("tags", path_default TStrings (DefaultValue (VArr [])));
    ("link", path TString);
    ("date", path_default TDate DefaultNow) ].

(** Modelled from the spec: models/Contact.js is not among the sources. The
    data model gives a Contact an integer id derived from the timestamp, an
    implicit date by which the messages are listed, and arbitrary submitted
    fields (name, email, message) that no schema enforces: the schema
    declares the id and the date only and is not strict, see [strict_of]. *)
Definition ContactSchema : schema :=
  [ ("id", path TNumber);
    ("date", path_default TDate DefaultNow) ].

(** ** Casting (mongoose/lib/cast) *)

Definition castNumber (v : value) : option value :=
  match v with
  | VUndefined | VNull => Some v
  | VStr s => if bool_decide (s = "") then Some VNull else VNum <$> StringToNumber s
  | VBool b => Some (VNum (if b then 1 else 0))
  | VNum n => Some (VNum n)
  | VDate ms => Some (VNum ms)
  | VArr _ | VObj _ => None
  end.

Definition castString (v : value) : option value :=
  match v with
  | VUndefined | VNull | VStr _ => Some v
  | VBool _ | VNum _ | VDate _ => Some (VStr (ToString v))
  | VArr _ => None
  | VObj o =>
      match o !! "_id" with
      | Some (VStr s) => if bool_decide (s = "") then None else Some (VStr s)
      | _ => None
      end
  end.

(** [new Date(n)] is a valid date within 8.64e15 ms of the epoch. *)
Definition valid_time (n : Z) : bool :=
  bool_decide (-8640000000000000 <= n <= 8640000000000000).

Definition new_Date (n : Z) : option value :=
  if valid_time n then Some (VDate n) else None.

Definition castDate (v : value) : option value :=
  match v with
  | VUndefined | VNull => Some VNull
  | VDate ms => Some (VDate ms)
  | VBool _ => None
  | VNum n => new_Date n
  | VStr s =>
      if bool_decide (s = "") then Some VNull
      else match StringToNumber s with
           | Some n =>
               if bool_decide (275761 <= n) || bool_decide (n < -271820)
               then new_Date n
               else DateParse s ≫= new_Date
           | None => DateParse s ≫= new_Date
           end
  | VArr _ | VObj _ => DateParse (ToString v) ≫= new_Date
  end.

Definition castStrings (v : value) : option value :=
  match v with
  | VUndefined | VNull => Some v
  | VArr xs => VArr <$> mapM castString xs
  | _ => VArr <$> mapM castString [v]
  end.

Definition cast (t : schema_type) (v : value) : option value :=
  match t with
  | TString => castString v
  | TNumber => castNumber v
  | TDate => castDate v
  | TStrings => castStrings v
  end.

(** [required: true]: a number for a Number path, a non-empty string for a
    String path, any value other than [null] otherwise. *)
Definition checkRequired (t : schema_type) (v : option value) : bool :=
  match t, v with
  | TNumber, Some (VNum _) => true
  | TString, Some (VStr s) => negb (bool_decide (s = ""))
  | TDate, Some (VDate _) => true
  | TStrings, Some (VArr xs) => negb (bool_decide (xs = []))
  | _, _ => false
  end.

(** ** Models *)

Inductive model := Settings | Project | Blog | Contact.

Definition schema_of (m : model) : schema :=
  match m with
  | Settings => SettingsSchema
  | Project => ProjectSchema
  | Blog => BlogSchema
  | Contact => ContactSchema
  end.

(** Modelled from the spec: the three schemas of the sources are strict, as
    Mongoose makes them; a Contact keeps the fields it is submitted with. *)
Definition strict_of (m : model) : bool :=
  match m with
  | Settings | Project | Blog => true
  | Contact => false
  end.

Definition collection (m : model) (d : database) : list object :=
  match m with
  | Settings => settings d
  | Project => projects d
  | Blog => blogs d
  | Contact => contacts d
  end.

Definition with_collection (m : model) (l : list object) (d : database) : database :=
  match m with
  | Settings => {| settings := l; projects := projects d; blogs := blogs d; contacts := contacts d |}
  | Project => {| settings := settings d; projects := l; blogs := blogs d; contacts := contacts d |}
  | Blog => {| settings := settings d; projects := projects d; blogs := l; contacts := contacts d |}
  | Contact => {| settings := settings d; projects := projects d; blogs := blogs d; contacts := l |}
  end.

(** A path is unset when the object does not give it a value. *)
Definition unset (raw : object) (p : string) : bool :=
  match raw !! p with
  | None | Some VUndefined => true
  | Some _ => false
  end.

(** The default of one path, when [raw] leaves it unset and the schema
    declares one; a [Date.now] default reads the clock. *)
Definition default_for (raw : object) (p : string) (s : path_spec) : M (option value) :=
  if unset raw p
  then match default_of s with
       | NoDefault => mret None
       | DefaultValue v => mret (Some v)
       | DefaultNow => t ← Date_now; mret (Some (VNum t))
       end
  else mret None.

(** The defaults of the paths that [raw] leaves unset, in schema order. *)
Fixpoint apply_defaults (raw : object) (sch : schema) : M object :=
  match sch with
  | [] => mret ∅
  | (p, s) :: rest =>
      d ← default_for raw p s;
      ds ← apply_defaults raw rest;
      mret (match d with
            | Some v => <[p := v]> ds
            | None => ds
            end)
  end.

(** Casting of a plain object against a schema: undeclared keys are left
    out, [undefined] is no value, every other value is cast to the type of
    its path. [None] when some value cannot be cast. *)
Fixpoint cast_doc (sch : schema) (raw : object) : option object :=
  match sch with
  | [] => Some ∅
  | (p, s) :: rest =>
      d ← cast_doc rest raw;
      match raw !! p with
      | None | Some VUndefined => Some d
      | Some v => v' ← cast (ptype s) v; Some (<[p := v']> d)
      end
  end.

Definition validate (sch : schema) (d : object) : bool :=
  forallb (fun ps => implb (required ps.2) (checkRequired (ptype ps.2) (d !! ps.1))) sch.

Definition is_undefined (v : value) : bool :=
  match v with
  | VUndefined => true
  | _ => false
  end.

(** The values an object gives to [_id] and [__v] must cast, to an ObjectId
    and to a number. *)
Definition bookkeeping_accepted (raw : object) : bool :=
  match raw !! "_id" with
  | None | Some VUndefined => true
  | Some v => castObjectId v
  end &&
  match raw !! "__v" with
  | None | Some VUndefined => true
  | Some v => match castNumber v with Some _ => true | None => false end
  end.

Fixpoint has_dot (s : string) : bool :=
  match s with
  | EmptyString => false
  | String a rest => bool_decide (a = "."%char) || has_dot rest
  end.

(** A plain key: the name of a field, neither an operator nor a bookkeeping
    path nor a path into a field. A plain object has plain keys only. *)
Definition plain_key (k : string) : bool :=
  negb (String.prefix "$" k) && negb (bool_decide (k = "_id")) &&
  negb (bool_decide (k = "__v")) && negb (has_dot k).

Definition plain (b : object) : bool := forallb plain_key (map_to_list b).*1.

(** What a schema that is not strict stores beside its declared paths: the
    other fields of a plain object, as they are; of any other object, what
    [looseFields] gives. *)
Definition undeclared (sch : schema) (raw : object) : object :=
  filter (fun kv => kv.1 ∉ sch.*1)
    (if plain raw
     then filter (fun kv => is_undefined kv.2 = false) raw
     else looseFields sch raw).

(** [Model.create(raw)]: build the document (defaults, casting), validate
    it, insert it, return it. *)
Definition Model_create (m : model) (raw : object) : M object :=
  dflt ← apply_defaults raw (schema_of m);
  match cast_doc (schema_of m) (dflt ∪ raw) with
  | None => throw ValidationError
  | Some d =>
      if validate (schema_of m) d && bookkeeping_accepted raw
      then let doc := if strict_of m then d else d ∪ undeclared (schema_of m) raw in
           store (fun base => (doc, with_collection m (collection m base ++ [doc]) base))
      else throw ValidationError
  end.

(** The casts of the values of an object, path by path; a value that does
    not cast is left out. *)
Fixpoint cast_each (sch : schema) (raw : object) : object :=
  match sch with
  | [] => ∅
  | (p, s) :: rest =>
      match raw !! p with
      | None | Some VUndefined => cast_each rest raw
      | Some v =>
          match cast (ptype s) v with
          | Some v' => <[p := v']> (cast_each rest raw)
          | None => cast_each rest raw
          end
      end
  end.

(** A stored record as Mongoose hands it out: the paths it leaves unset get
    their defaults, the rest is as stored. *)
Definition hydrate (m : model) (d : object) : M object :=
  dflt ← apply_defaults d (schema_of m);
  mret (cast_each (schema_of m) dflt ∪ d).

Fixpoint hydrate_all (m : model) (l : list object) : M (list object) :=
  match l with
  | [] => mret []
  | d :: rest =>
      d' ← hydrate m d;
      rest' ← hydrate_all m rest;
      mret (d' :: rest')
  end.

(** The result of a query for one record: the record, or [null]. *)
Definition hydrate_one (m : model) (o : option object) : M value :=
  match o with
  | Some d => d' ← hydrate m d; mret (VObj d')
  | None => mret VNull
  end.

(** [Model.find()] *)
Definition Model_find (m : model) : M (list object) :=
  l ← store (fun base => (collection m base, base));
  hydrate_all m l.

(** [Model.findOne()] *)
Definition Model_findOne (m : model) : M value :=
  o ← store (fun base => (head (collection m base), base));
  hydrate_one m o.

(** [Model.countDocuments()] *)
Definition Model_countDocuments (m : model) : M nat :=
  store (fun base => (length (collection m base), base)).

(** The [date] of a document, when it is a date: [null] and a missing
    field sort below every date. *)
Definition date_of (d : object) : option Z :=
  match d !! "date" with
  | Some (VDate ms) => Some ms
  | _ => None
  end.

Definition newer_eq (a b : object) : Prop :=
  match date_of a, date_of b with
  | _, None => True
  | None, Some _ => False
  | Some x, Some y => y <= x
  end.

#[export] Instance newer_eq_dec : RelDecision newer_eq.
Proof.
  intros a b. unfold newer_eq.
  destruct (date_of a), (date_of b); try (left; exact I); try (right; tauto).
  apply Z_le_dec.
Defined.

(** [Model.find().sort({ date: -1 })]: the store sorts what it holds, then
    the records are handed out. *)
Definition Model_find_sort_date_desc (m : model) : M (list object) :=
  l ← store (fun base => (merge_sort newer_eq (collection m base), base));
  hydrate_all m l.

(** The two filters of the script: [{}] and [{ id: v }]. *)
Inductive query :=
| Q_all
| Q_id (v : value).

Definition cast_query (m : model) (q : query) : option query :=
  match q with
  | Q_all => Some Q_all
  | Q_id v =>
      match list_find (fun ps => ps.1 = "id") (schema_of m) with
      | Some (_, (_, s)) => Q_id <$> cast (ptype s) v
      | None => Some (Q_id v)
      end
  end.

Definition matches (q : query) (d : object) : bool :=
  match q with
  | Q_all => true
  | Q_id v =>
      match v, d !! "id" with
      | VNum n, Some (VNum k) => bool_decide (n = k)
      | VNull, (None | Some VNull | Some VUndefined) => true
      | _, _ => false
      end
  end.

(** Replace the first document that matches; [None] when none does. *)
Fixpoint update_first (q : query) (f : object -> object) (l : list object)
  : option (object * object * list object) :=
  match l with
  | [] => None
  | d :: rest =>
      if matches q d then Some (d, f d, f d :: rest)
      else '(old, new, rest') ← update_first q f rest; Some (old, new, d :: rest')
  end.

(** Remove the first document that matches; [None] when none does. *)
Fixpoint delete_first (q : query) (l : list object) : option (object * list object) :=
  match l with
  | [] => None
  | d :: rest =>
      if matches q d then Some (d, rest)
      else '(old, rest') ← delete_first q rest; Some (old, d :: rest')
  end.

(** The list around the first document that matches. *)
Fixpoint split_first (q : query) (l : list object)
  : option (list object * object * list object) :=
  match l with
  | [] => None
  | d :: rest =>
      if matches q d then Some ([], d, rest)
      else '(l1, old, l2) ← split_first q rest; Some (d :: l1, old, l2)
  end.

Record update_options := { new : bool; upsert : bool }.

(** The query behind [findOneAndUpdate]. Filter and update are cast before
    the store is asked. Each declared key of a plain update is set; any
    other update is what [castOperators] and [applyOperators] make of it.
    The record that is returned is handed out as on a read. The script
    updates Settings and Projects, whose schemas are strict, and its one
    upsert has the empty filter. *)
Definition Query_findOneAndUpdate (m : model) (q : query) (u : object)
    (opts : update_options) : M value :=
  match cast_query m q with
  | None => throw CastError
  | Some q' =>
      if plain u
      then
        match cast_doc (schema_of m) u with
        | None => throw CastError
        | Some upd =>
            ins ← (if upsert opts
                   then dflt ← apply_defaults upd (schema_of m);
                        mret (upd ∪ cast_each (schema_of m) dflt)
                   else mret upd);
            o ← store (fun base =>
              match update_first q' (fun old => upd ∪ old) (collection m base) with
              | Some (old, new_doc, l) =>
                  (Some (if new opts then new_doc else old), with_collection m l base)
              | None =>
                  if upsert opts
                  then (if new opts then Some ins else None,
                        with_collection m (collection m base ++ [ins]) base)
                  else (None, base)
              end);
            hydrate_one m o
        end
      else if castOperators (schema_of m) u
      then
        o ← store_try (fun base =>
          match split_first q' (collection m base) with
          | Some (l1, old, l2) =>
              new_doc ← applyOperators (schema_of m) u (Some old);
              Some (Some (if new opts then new_doc else old),
                    with_collection m (l1 ++ new_doc :: l2) base)
          | None =>
              if upsert opts
              then ins ← applyOperators (schema_of m) u None;
                   Some (if new opts then Some ins else None,
                         with_collection m (collection m base ++ [ins]) base)
              else Some (None, base)
          end);
        hydrate_one m o
      else throw CastError
  end.

(** [Model.findOneAndUpdate(filter, update, options)]. An upsert writes the
    version key into the update it is given and throws when there is none;
    without an update, anything else runs with an empty one. *)
Definition Model_findOneAndUpdate (m : model) (q : query) (update : option object)
    (opts : update_options) : M value :=
  match update with
  | Some u => Query_findOneAndUpdate m q u opts
  | None => if upsert opts then throw TypeError else Query_findOneAndUpdate m q ∅ opts
  end.

(** [Model.findOneAndDelete(filter)] *)
Definition Model_findOneAndDelete (m : model) (q : query) : M value :=
  match cast_query m q with
  | Some q' =>
      o ← store (fun base =>
        match delete_first q' (collection m base) with
        | Some (old, l) => (Some old, with_collection m l base)
        | None => (None, base)
        end);
      hydrate_one m o
  | None => throw CastError
  end.

(** ** The application *)

(** [res.json(v)] and [res.status(s).json(v)] *)
Definition res_json (v : value) : response := {| status := 200; json := v |}.
Definition res_status_json (s : Z) (v : value) : response := {| status := s; json := v |}.

Definition message (msg : string) : value := VObj (obj [("message", VStr msg)]).
Definition documents (l : list object) : value := VArr (VObj <$> l).

(** [...req.body] inside an object literal: nothing when there is no body. *)
Definition spread (b : option object) : object := default ∅ b.

Variable process_env : env.

(** What a middleware does with a request: hand it on, or answer it. *)
Inductive verdict :=
| next
| respond (r : response).

Definition auth (req : request) : verdict :=
  let password := of_env (headers req !! "password") in
  if strict_equals password (of_env (ADMIN_PASSWORD process_env))
  then next
  else respond (res_status_json 401 (message "Unauthorized")).

Definition get_api_data (req : request) : M response :=
  try_catch
    (settings ← Model_findOne Settings;
     projects ← Model_find Project;
     blogs ← Model_find_sort_date_desc Blog;
     mret (res_json (VObj (obj [("settings", settings);
                                ("projects", documents projects);
                                ("blogs", documents blogs)]))))
    (fun err =>
       console_error "" err;;
       mret (res_status_json 500 (message "Server Error"))).

Definition put_api_settings (req : request) : M response :=
  try_catch
    (settings ← Model_findOneAndUpdate Settings Q_all (body req)
                  {| new := true; upsert := true |};
     mret (res_json (VObj (obj [("message", VStr "Settings updated");
                                ("settings", settings)]))))
    (fun err => mret (res_status_json 500 (message "Error updating settings"))).

Definition post_api_projects (req : request) : M response :=
  try_catch
    (now ← Date_now;
     newProject ← Model_create Project (spread (body req) ∪ {["id" := VNum now]});
     mret (res_json (VObj (obj [("message", VStr "Project added");
                                ("project", VObj newProject)]))))
    (fun err => mret (res_status_json 500 (message "Error adding project"))).

Definition put_api_projects_id (id : string) (req : request) : M response :=
  try_catch
    (Model_findOneAndUpdate Project (Q_id (VStr id)) (body req)
       {| new := false; upsert := false |};;
     mret (res_json (message "Project updated")))
    (fun err => mret (res_status_json 500 (message "Error updating project"))).

Definition delete_api_projects_id (id : string) (req : request) : M response :=
  try_catch
    (Model_findOneAndDelete Project (Q_id (VStr id));;
     mret (res_json (message "Project deleted")))
    (fun err => mret (res_status_json 500 (message "Error deleting project"))).

Definition get_api_blogs (req : request) : M response :=
  try_catch
    (blogs ← Model_find_sort_date_desc Blog;
     mret (res_json (documents blogs)))
    (fun err => mret (res_status_json 500 (message "Error fetching blogs"))).

Definition post_api_blogs (req : request) : M response :=
  try_catch
    (now ← Date_now;
     newBlog ← Model_create Blog (spread (body req) ∪ {["id" := VNum now]});
     mret (res_json (VObj (obj [("message", VStr "Blog posted");
                                ("blog", VObj newBlog)]))))
    (fun err => mret (res_status_json 500 (message "Error adding blog"))).

Definition delete_api_blogs_id (id : string) (req : request) : M response :=
  try_catch
    (Model_findOneAndDelete Blog (Q_id (VStr id));;
     mret (res_json (message "Blog deleted")))
    (fun err => mret (res_status_json 500 (message "Error deleting blog"))).

(** A promise that nobody awaits: settled already, or still pending. *)
Inductive promise := Settled | Pending.

Definition embed (data : object) (timestamp : Z) : value :=
  VObj (obj [("embeds", VArr [VObj (obj [
    ("title", VStr "🚀 New Signal Received");
    ("color", VNum 62463);
    ("fields", VArr [
       VObj (obj [("name", VStr "Name"); ("value", prop data "name"); ("inline", VBool true)]);
       VObj (obj [("name", VStr "Email"); ("value", prop data "email"); ("inline", VBool true)]);
       VObj (obj [("name", VStr "Message"); ("value", prop data "message")])]);
    ("footer", VObj (obj [("text", VStr "Portfolio System Notification")]));
    ("timestamp", VDate timestamp)])])]).

(** [axios.post(url, payload)] hands the request over; the answer comes later. *)
Definition axios_post (target : string) (payload : value) : M unit := fun w =>
  (Ok tt,
   {| db := db w; clock := clock w; ticks := ticks w; answers := answers w;
      ops := ops w; console := console w; outbox := outbox w ++ [(target, payload)] |}).

(** [sendDiscordNotification] up to its [await]. *)
Definition sendDiscordNotification (data : object) : M promise :=
  let webhookUrl := of_env (DISCORD_WEBHOOK_URL process_env) in
  if negb (truthy webhookUrl) then mret Settled
  else
    now ← Date_now;
    axios_post (ToString webhookUrl) (embed data now);;
    mret Pending.

(** How the webhook request ends: an HTTP status, or no answer at all. *)
Inductive delivery :=
| Answered (code : Z)
| NoAnswer.

(** axios rejects unless the status is 2xx. *)
Definition rejected (d : delivery) : bool :=
  match d with
  | Answered code => negb (bool_decide (200 <= code < 300))
  | NoAnswer => true
  end.

(** [sendDiscordNotification] after its [await]: the [catch] block. *)
Definition sendDiscordNotification_resume (d : delivery) : M unit :=
  if rejected d then console_error "Discord Webhook Error:" AxiosError else mret tt.

Definition post_api_contact (req : request) : M (response * promise) :=
  try_catch
    (now ← Date_now;
     newContact ← Model_create Contact (spread (body req) ∪ {["id" := VNum now]});
     notification ← sendDiscordNotification newContact;
     mret (res_json (VObj (obj [("message", VStr "Message sent successfully");
                                ("contact", VObj newContact)])),
           notification))
    (fun err => mret (res_status_json 500 (message "Error sending message"), Settled)).

Definition get_api_contact (req : request) : M response :=
  try_catch
    (messages ← Model_find_sort_date_desc Contact;
     mret (res_json (documents messages)))
    (fun err => mret (res_status_json 500 (message "Error fetching messages"))).

(** The login handler is synchronous and has no [try]: destructuring a
    missing body throws. *)
Definition post_api_login (req : request) : M response :=
  match body req with
  | None => throw TypeError
  | Some b =>
      let password := prop b "password" in
      if strict_equals password (of_env (ADMIN_PASSWORD process_env))
      then mret (res_json (VObj (obj [("success", VBool true);
                                      ("token", VStr "admin-token")])))
      else mret (res_status_json 401
                   (VObj (obj [("success", VBool false);
                               ("message", VStr "Invalid password")])))
  end.

(** The routes, as registered. *)
Inductive endpoint :=
| GET_api_data
| PUT_api_settings
| POST_api_projects
| PUT_api_projects_id (id : string)
| DELETE_api_projects_id (id : string)
| GET_api_blogs
| POST_api_blogs
| DELETE_api_blogs_id (id : string)
| POST_api_contact
| GET_api_contact
| POST_api_login.

(** A [:id] segment matches any non-empty segment. *)
Definition route (req : request) : option endpoint :=
  match verb req, url req with
  | GET, ["api"; "data"] => Some GET_api_data
  | PUT, ["api"; "settings"] => Some PUT_api_settings
  | POST, ["api"; "projects"] => Some POST_api_projects
  | PUT, ["api"; "projects"; id] =>
      if bool_decide (id = "") then None else Some (PUT_api_projects_id id)
  | DELETE, ["api"; "projects"; id] =>
      if bool_decide (id = "") then None else Some (DELETE_api_projects_id id)
  | GET, ["api"; "blogs"] => Some GET_api_blogs
  | POST, ["api"; "blogs"] => Some POST_api_blogs
  | DELETE, ["api"; "blogs"; id] =>
      if bool_decide (id = "") then None else Some (DELETE_api_blogs_id id)
  | POST, ["api"; "contact"] => Some POST_api_contact
  | GET, ["api"; "contact"] => Some GET_api_contact
  | POST, ["api"; "login"] => Some POST_api_login
  | _, _ => None
  end.

(** The routes registered with [auth] before their handler. *)
Definition protected (e : endpoint) : bool :=
  match e with
  | PUT_api_settings | POST_api_projects | PUT_api_projects_id _
  | DELETE_api_projects_id _ | POST_api_blogs | DELETE_api_blogs_id _
  | GET_api_contact => true
  | GET_api_data | GET_api_blogs | POST_api_contact | POST_api_login => false
  end.

Definition handler (e : endpoint) (req : request) : M response :=
  match e with
  | GET_api_data => get_api_data req
  | PUT_api_settings => put_api_settings req
  | POST_api_projects => post_api_projects req
  | PUT_api_projects_id id => put_api_projects_id id req
  | DELETE_api_projects_id id => delete_api_projects_id id req
  | GET_api_blogs => get_api_blogs req
  | POST_api_blogs => post_api_blogs req
  | DELETE_api_blogs_id id => delete_api_blogs_id id req
  | POST_api_contact => r ← post_api_contact req; mret r.1
  | GET_api_contact => get_api_contact req
  | POST_api_login => post_api_login req
  end.

(** One route: its middleware, then its handler. *)
Definition run (e : endpoint) (req : request) : M response :=
  if protected e
  then match auth req with
       | next => handler e req
       | respond r => mret r
       end
  else handler e req.

(** A request that matches no route gets the framework's 404. *)
Definition serve (req : request) : M response :=
  match route req with
  | Some e => run e req
  | None => mret (res_status_json 404 VUndefined)
  end.

(** A contact submission from the request to the end of its notification:
    the response is out before the webhook request settles. *)
Definition contact_submission (req : request) (d : delivery) : M response :=
  '(res, notification) ← post_api_contact req;
  match notification with
  | Pending => sendDiscordNotification_resume d
  | Settled => mret tt
  end;;
  mret res.

(** [seedDatabase], run once when the process starts. *)
Definition seedDatabase : M unit :=
  try_catch
    (count ← Model_countDocuments Settings;
     if bool_decide (count = 0%nat)
     then Model_create Settings
            (obj [("name", VStr "Vaibhav Kumar");
                  ("bio", VStr "Frontend Developer crafting high-performance, visually stunning web experiences.");
                  ("email", VStr "vaibhavsharma993@gmail.com");
                  ("address", VStr "Ghaziabad, India")]);;
          console_log "Database seeded with default settings"
     else mret tt)
    (fun err => console_error "Seeding Error:" err).

(** ** Vocabulary of the statements *)

(** [w'] is [w] after some readings of the clock and nothing else. *)
Definition only_ticks (w w' : world) : Prop :=
  db w' = db w /\ clock w' = clock w /\ answers w' = answers w /\ ops w' = ops w /\
  console w' = console w /\ outbox w' = outbox w /\ (ticks w <= ticks w')%nat.

(** [w'] is [w] after one read of the store and some readings of the clock. *)
Definition one_read (w w' : world) : Prop :=
  db w' = db w /\ clock w' = clock w /\ answers w' = answers w /\ ops w' = S (ops w) /\
  console w' = console w /\ outbox w' = outbox w /\ (ticks w <= ticks w')%nat.

(** The default that a path declares, as taken between [w] and [w']. *)
Definition default_given (w w' : world) (d : default_spec) (o : option value) : Prop :=
  match d with
  | NoDefault => o = None
  | DefaultValue v => o = Some v
  | DefaultNow => exists k, (ticks w <= k < ticks w')%nat /\ o = Some (VNum (clock w k))
  end.

(** The cast of a value that is set: [undefined] sets nothing. *)
Definition cast_set (t : schema_type) (v : value) : option value :=
  match v with
  | VUndefined => None
  | _ => cast t v
  end.

(** The routes that create a record: the model they insert into and the key
    of the record in their answer. *)
Definition creates (e : endpoint) : option (model * string) :=
  match e with
  | POST_api_projects => Some (Project, "project")
  | POST_api_blogs => Some (Blog, "blog")
  | POST_api_contact => Some (Contact, "contact")
  | _ => None
  end.

(** No record of [l] has the id [n]. *)
Definition absent (n : Z) (l : list object) : Prop :=
  forall d, d ∈ l -> d !! "id" <> Some (VNum n).

(** [listed] is [stored] put newest first. *)
Definition newest_first (stored listed : list object) : Prop :=
  listed ≡ₚ stored /\
  StronglySorted newer_eq listed /\
  forall a b c d1 d2 d3,
    date_of a = Some d1 -> date_of b = Some d2 -> date_of c = Some d3 ->
    d1 < d2 < d3 -> stored ≡ₚ [a; b; c] -> listed = [c; b; a].

(** The record that [seedDatabase] creates. *)
Definition seed_document : object :=
  obj [("name", VStr "Vaibhav Kumar");
       ("bio", VStr "Frontend Developer crafting high-performance, visually stunning web experiences.");
       ("email", VStr "vaibhavsharma993@gmail.com");
       ("address", VStr "Ghaziabad, India")].

(** The message of the [catch] block of each route that has one. *)
Definition failure_message (e : endpoint) : string :=
  match e with
  | GET_api_data => "Server Error"
  | PUT_api_settings => "Error updating settings"
  | POST_api_projects => "Error adding project"
  | PUT_api_projects_id _ => "Error updating project"
  | DELETE_api_projects_id _ => "Error deleting project"
  | GET_api_blogs => "Error fetching blogs"
  | POST_api_blogs => "Error adding blog"
  | DELETE_api_blogs_id _ => "Error deleting blog"
  | POST_api_contact => "Error sending message"
  | GET_api_contact => "Error fetching messages"
  | POST_api_login => ""
  end.

(** The same request sent with other headers. *)
Definition with_headers (h : gmap string string) (req : request) : request :=
  {| verb := verb req; url := url req; headers := h; body := body req |}.

(** The origins handed to [cors], given [process.env.FRONTEND_URL]:
    [[...].filter(Boolean)]. *)
Definition cors_origin (FRONTEND_URL : option string) : list value :=
  List.filter truthy
    [ VStr "http://localhost:5173";
      VStr "http://127.0.0.1:5173";
      VStr "https://portfolio-frontend-self-six.vercel.app";
      of_env FRONTEND_URL ].

(** A value as a path of type [t] stores it: of that type, or [null]. *)
Definition stored_as (t : schema_type) (v : value) : Prop :=
  match t, v with
  | _, VNull => True
  | TString, VStr _ => True
  | TNumber, VNum _ => True
  | TDate, VDate _ => True
  | TStrings, VArr _ => True
  | _, _ => False
  end.

(** A record conforms to its model when it has declared paths only, each
    holding a value of the declared type or [null]. *)
Definition conforms (m : model) (d : object) : Prop :=
  forall p v, d !! p = Some v -> exists s, (p, s) ∈ schema_of m /\ stored_as (ptype s) v.

(** Every record of the three collections whose schemas are in the sources
    conforms to its model. *)
Definition well_stored (base : database) : Prop :=
  forall m d, m <> Contact -> d ∈ collection m base -> conforms m d.

(** The routes that hand the body of the request to [findOneAndUpdate]. *)
Definition updating (e : endpoint) : bool :=
  match e with
  | PUT_api_settings | PUT_api_projects_id _ => true
  | _ => false
  end.

(** Whether Mongoose takes an update: each field of a plain one casts, any
    other passes [castOperators]. *)
Definition update_accepted (sch : schema) (u : object) : bool :=
  if plain u
  then match cast_doc sch u with Some _ => true | None => false end
  else castOperators sch u.

(** The default [v0] of a path of type [t], over what the record holds there. *)
Definition filled (t : schema_type) (v0 : value) (held : option value) : option value :=
  match cast_set t v0 with
  | Some v => Some v
  | None => held
  end.

(** [shown] is the record [stored] as a read between [w] and [w'] hands it
    out: as stored wherever it sets a path or the schema declares no
    default, and with the default, taken at the read, where it leaves a
    path that has one unset. *)
Definition handed_out (m : model) (w w' : world) (stored shown : object) : Prop :=
  (forall p, unset stored p = false -> shown !! p = stored !! p) /\
  (forall p, p ∉ (schema_of m).*1 -> shown !! p = stored !! p) /\
  (forall p s, (p, s) ∈ schema_of m -> unset stored p = true ->
     match default_of s with
     | NoDefault => shown !! p = stored !! p
     | DefaultValue v0 => shown !! p = filled (ptype s) v0 (stored !! p)
     | DefaultNow =>
         exists k, (ticks w <= k < ticks w')%nat /\
           shown !! p = filled (ptype s) (VNum (clock w k)) (stored !! p)
     end).

(** [shown] is what a listing of [stored], newest first, hands out. *)
Definition listed (m : model) (w w' : world) (stored shown : list object) : Prop :=
  exists l, newest_first stored l /\ Forall2 (handed_out m w w') l shown.

(** A record that sets every path for which its schema declares a default. *)
Definition complete (m : model) (d : object) : Prop :=
  forall p s, (p, s) ∈ schema_of m -> default_of s <> NoDefault -> unset d p = false.

(** Example data for the statements at concrete requests. *)
Definition project_of (id : Z) (title : string) : object :=
  obj [("id", VNum id); ("title", VStr title); ("category", VStr "web")].

Definition two_projects : database :=
  {| settings := [];
     projects := [project_of 11 "one"; project_of 12 "two"];
     blogs := []; contacts := [] |}.

Definition get_of (u : list string) : request := request_of GET u None None.

Definition delete_project (id : string) : request :=
  request_of DELETE ["api"; "projects"; id] secret None.

Definition put_project (id : string) (b : option object) : request :=
  request_of PUT ["api"; "projects"; id] secret b.

Definition put_settings (b : list (string * value)) : request :=
  request_of PUT ["api"; "settings"] secret (Some (obj b)).

(** * Properties *)

(** ** The authorization gate *)

Lemma strict_equals_of_env (a b : option string) :
  strict_equals (of_env a) (of_env b) = true <-> a = b.
Proof.
  destruct a as [x|], b as [y|]; simpl; try rewrite bool_decide_eq_true;
    split; intros H; try congruence; try discriminate.
Qed.

Lemma auth_next (req : request) :
  auth req = next <-> headers req !! "password" = ADMIN_PASSWORD process_env.
Proof.
  unfold auth. rewrite <- strict_equals_of_env.
  destruct (strict_equals _ _); split; intros H; congruence.
Qed.

Lemma auth_respond (req : request) :
  headers req !! "password" <> ADMIN_PASSWORD process_env ->
  auth req = respond (res_status_json 401 (message "Unauthorized")).
Proof.
  intros H. unfold auth.
  destruct (strict_equals _ _) eqn:E; [|reflexivity].
  apply strict_equals_of_env in E. contradiction.
Qed.

(** C1. On every protected route the gate hands the request to the handler
    exactly when the [password] header equals the configured secret;
    otherwise the answer is 401 with the message Unauthorized and the world,
    the store included, is left as it was. *)
Theorem auth_gate (e : endpoint) (req : request) (w : world) :
  route req = Some e ->
  protected e = true ->
  (auth req = next <-> headers req !! "password" = ADMIN_PASSWORD process_env) /\
  (headers req !! "password" = ADMIN_PASSWORD process_env ->
     serve req w = handler e req w) /\
  (headers req !! "password" <> ADMIN_PASSWORD process_env ->
     serve req w = (Ok (res_status_json 401 (message "Unauthorized")), w)).
Proof.
  intros Hroute Hprot. split; [apply auth_next|].
  unfold serve, run. rewrite Hroute, Hprot. split; intros H.
  - apply auth_next in H. rewrite H. reflexivity.
  - rewrite (auth_respond req H). reflexivity.
Qed.

(** C2. With no secret configured, a request without the [password] header
    passes the gate of every protected route, and a login whose body has no
    password succeeds. *)
Theorem unset_secret_admits (req : request) (w : world) :
  ADMIN_PASSWORD process_env = None ->
  (forall e, route req = Some e -> protected e = true ->
     headers req !! "password" = None ->
     auth req = next /\ serve req w = handler e req w) /\
  (forall b, route req = Some POST_api_login ->
     body req = Some b -> b !! "password" = None ->
     serve req w =
       (Ok (res_json (VObj (obj [("success", VBool true);
                                 ("token", VStr "admin-token")]))), w)).
Proof.
  intros Hunset. split.
  - intros e Hroute Hprot Hnone.
    assert (Hn : auth req = next) by (apply auth_next; congruence).
    split; [exact Hn|]. unfold serve, run. rewrite Hroute, Hprot, Hn. reflexivity.
  - intros b Hroute Hb Hpw. unfold serve, run. rewrite Hroute. simpl.
    unfold post_api_login, prop. rewrite Hb, Hpw, Hunset. reflexivity.
Qed.

(** ** Creating records *)

Lemma only_ticks_refl w : only_ticks w w.
Proof. unfold only_ticks. auto 10. Qed.

Lemma only_ticks_trans w1 w2 w3 : only_ticks w1 w2 -> only_ticks w2 w3 -> only_ticks w1 w3.
Proof. unfold only_ticks. intros (?&?&?&?&?&?&?) (?&?&?&?&?&?&?). repeat split; try congruence; lia. Qed.

Lemma default_given_l w1 w2 w3 d o :
  only_ticks w2 w3 -> default_given w1 w2 d o -> default_given w1 w3 d o.
Proof.
  unfold only_ticks. intros (?&?&?&?&?&?&?) Hg.
  destruct d; simpl in *; try assumption.
  destruct Hg as (k&Hk&->). exists k. split; [lia|reflexivity].
Qed.

Lemma default_given_r w1 w2 w3 d o :
  only_ticks w1 w2 -> default_given w2 w3 d o -> default_given w1 w3 d o.
Proof.
  unfold only_ticks. intros (?&Hc&?&?&?&?&?) Hg.
  destruct d; simpl in *; try assumption.
  destruct Hg as (k&Hk&->). exists k. split; [lia|congruence].
Qed.

Lemma default_for_run (raw : object) (p : string) (s : path_spec) (w : world) :
  exists o w', default_for raw p s w = (Ok o, w') /\ only_ticks w w' /\
    if unset raw p then default_given w w' (default_of s) o else o = None.
Proof.
  unfold default_for. destruct (unset raw p).
  - destruct (default_of s) as [|v|]; simpl.
    + exists None, w. split; [reflexivity|]. split; [apply only_ticks_refl|reflexivity].
    + exists (Some v), w. split; [reflexivity|]. split; [apply only_ticks_refl|reflexivity].
    + eexists _, _. split; [reflexivity|]. split.
      * unfold only_ticks; simpl. repeat split; lia.
      * exists (ticks w). simpl. split; [lia|reflexivity].
  - exists None, w. split; [reflexivity|]. split; [apply only_ticks_refl|reflexivity].
Qed.

Lemma apply_defaults_run (raw : object) (sch : schema) (w : world) :
  exists dflt w',
    apply_defaults raw sch w = (Ok dflt, w') /\ only_ticks w w' /\
    (forall p, p ∉ sch.*1 -> dflt !! p = None) /\
    (NoDup sch.*1 -> forall p s, (p, s) ∈ sch ->
       if unset raw p then default_given w w' (default_of s) (dflt !! p)
       else dflt !! p = None).
Proof.
  revert w. induction sch as [|[q t] rest IH]; intros w.
  - exists ∅, w. split; [reflexivity|]. split; [apply only_ticks_refl|].
    split; [intros; apply lookup_empty|]. intros _ p s H. inversion H.
  - destruct (default_for_run raw q t w) as (o & w1 & Hd & Ht1 & Ho).
    destruct (IH w1) as (ds & w2 & Hr & Ht2 & Hout & Hin).
    exists (match o with Some v => <[q := v]> ds | None => ds end), w2.
    split.
    { simpl. unfold mbind, M_bind. rewrite Hd, Hr. reflexivity. }
    split; [eapply only_ticks_trans; eassumption|].
    split.
    { intros p Hp. rewrite fmap_cons, not_elem_of_cons in Hp. destruct Hp as [Hne Hp].
      simpl in Hne. destruct o; [rewrite lookup_insert_ne by congruence|]; auto. }
    intros Hnd p s Hps. rewrite fmap_cons, NoDup_cons in Hnd. destruct Hnd as [Hq Hnd].
    simpl in Hq. apply elem_of_cons in Hps. destruct Hps as [Heq|Hps].
    + inversion Heq; subst p s. clear Heq.
      assert (Hl : (match o with Some v => <[q := v]> ds | None => ds end) !! q = o).
      { destruct o; [apply lookup_insert_eq|apply Hout, Hq]. }
      rewrite Hl. destruct (unset raw q); [|assumption].
      eapply default_given_l; eassumption.
    + assert (Hne : q <> p).
      { intros ->. apply Hq. apply (list_elem_of_fmap_2 fst) in Hps. exact Hps. }
      assert (Hl : (match o with Some v => <[q := v]> ds | None => ds end) !! p = ds !! p).
      { destruct o; [apply lookup_insert_ne; assumption|reflexivity]. }
      rewrite Hl. specialize (Hin Hnd p s Hps). destruct (unset raw p); [|assumption].
      eapply default_given_r; eassumption.
Qed.

Lemma cast_doc_lookup (sch : schema) (raw d : object) :
  cast_doc sch raw = Some d ->
  (forall p, p ∉ sch.*1 -> d !! p = None) /\
  (NoDup sch.*1 -> forall p s, (p, s) ∈ sch ->
     if unset raw p then d !! p = None
     else exists v v', raw !! p = Some v /\ cast (ptype s) v = Some v' /\ d !! p = Some v').
Proof.
  revert d. induction sch as [|[q t] rest IH]; intros d H.
  - simpl in H. inversion H; subst. split; [intros; apply lookup_empty|].
    intros _ p s Hin. inversion Hin.
  - simpl in H. destruct (cast_doc rest raw) as [d0|] eqn:Hrest; [|discriminate].
    simpl in H. destruct (IH d0 eq_refl) as [Hout Hin].
    assert (Hq : forall p, unset raw p = match raw !! p with None | Some VUndefined => true | _ => false end) by reflexivity.
    split.
    + intros p Hp. rewrite fmap_cons, not_elem_of_cons in Hp. destruct Hp as [Hne Hp]. simpl in Hne.
      destruct (raw !! q) as [v|] eqn:Hv.
      * destruct v; try (destruct (cast (ptype t) _); [|discriminate]; simpl in H;
          inversion H; subst; rewrite lookup_insert_ne by congruence; auto).
        inversion H; subst; auto.
      * inversion H; subst; auto.
    + intros Hnd p s Hps. rewrite fmap_cons, NoDup_cons in Hnd. destruct Hnd as [Hnq Hnd].
      simpl in Hnq. apply elem_of_cons in Hps. destruct Hps as [Heq|Hps].
      * inversion Heq; subst p s. clear Heq. rewrite Hq.
        destruct (raw !! q) as [v|] eqn:Hv.
        -- destruct v; try (destruct (cast (ptype t) _) as [v'|] eqn:Hc; [|discriminate]; simpl in H;
             inversion H; subst; eexists _, v'; split; [reflexivity|]; split; [exact Hc|];
             apply lookup_insert_eq).
           inversion H; subst. apply Hout, Hnq.
        -- inversion H; subst. apply Hout, Hnq.
      * assert (Hne : q <> p).
        { intros ->. apply Hnq. apply (list_elem_of_fmap_2 fst) in Hps. exact Hps. }
        specialize (Hin Hnd p s Hps).
        assert (Hl : d !! p = d0 !! p).
        { destruct (raw !! q) as [v|]; [|inversion H; subst; reflexivity].
          destruct v; try (destruct (cast (ptype t) _); [|discriminate]; simpl in H;
            inversion H; subst; apply lookup_insert_ne; assumption).
          inversion H; subst; reflexivity. }
        rewrite Hl. exact Hin.
Qed.

Lemma NoDup_schema (m : model) : NoDup (schema_of m).*1.
Proof. destruct m; compute_done. Qed.

Lemma unset_union_l (dflt raw : object) (p : string) :
  dflt !! p = None -> unset (dflt ∪ raw) p = unset raw p.
Proof. intros H. unfold unset. rewrite lookup_union_r by exact H. reflexivity. Qed.

Lemma new_Date_stored (n : Z) (v : value) : new_Date n = Some v -> stored_as TDate v.
Proof. unfold new_Date. destruct (valid_time n); intros H; inversion H; exact I. Qed.

Lemma parsed_date_stored (o : option Z) (v : value) :
  o ≫= new_Date = Some v -> stored_as TDate v.
Proof. destruct o as [n|]; simpl; [apply new_Date_stored|discriminate]. Qed.

Lemma cast_stored (t : schema_type) (v v' : value) :
  v <> VUndefined -> cast t v = Some v' -> stored_as (ptype (path t)) v'.
Proof.
  intros Hnu H. simpl. destruct t; simpl in H.
  - unfold castString in H. destruct v; try contradiction; try discriminate;
      try (inversion H; subst; exact I).
    destruct (o !! "_id") as [[]|]; try discriminate.
    destruct (bool_decide _); inversion H; exact I.
  - unfold castNumber in H. destruct v; try contradiction; try discriminate;
      try (inversion H; subst; exact I).
    destruct (bool_decide _); [inversion H; exact I|].
    destruct (StringToNumber s); inversion H; exact I.
  - unfold castDate in H. destruct v; try contradiction; try discriminate;
      try (inversion H; subst; exact I);
      try (eapply new_Date_stored; eassumption);
      try (eapply parsed_date_stored; eassumption).
    destruct (bool_decide _); [inversion H; exact I|].
    destruct (StringToNumber s) as [n|];
      [destruct (_ || _)|];
      try (eapply new_Date_stored; eassumption);
      try (eapply parsed_date_stored; eassumption).
  - unfold castStrings in H. destruct v; try contradiction;
      try (inversion H; subst; exact I);
      match type of H with
      | _ <$> ?x = _ => destruct x; inversion H; exact I
      end.
Qed.

Lemma validate_required (sch : schema) (d : object) (p : string) (s : path_spec) :
  validate sch d = true -> (p, s) ∈ sch -> required s = true ->
  checkRequired (ptype s) (d !! p) = true.
Proof.
  unfold validate. intros Hv Hps Hr. rewrite forallb_forall in Hv.
  apply list_elem_of_In in Hps. specialize (Hv _ Hps). simpl in Hv.
  rewrite Hr in Hv. exact Hv.
Qed.

Lemma default_defined (m : model) (p : string) (s : path_spec) (v0 : value) :
  (p, s) ∈ schema_of m -> default_of s = DefaultValue v0 -> v0 <> VUndefined.
Proof.
  intros Hps Hd.
  destruct m; simpl in Hps;
    repeat (apply elem_of_cons in Hps; destruct Hps as [Hps|Hps];
            [inversion Hps; subst; simpl in Hd; try discriminate;
             inversion Hd; subst; discriminate|]);
    apply elem_of_nil in Hps; contradiction.
Qed.

Lemma plain_spec (b : object) :
  plain b = true <-> forall k v, b !! k = Some v -> plain_key k = true.
Proof.
  unfold plain. rewrite forallb_forall. split.
  - intros H k v Hk. apply H. apply list_elem_of_In.
    apply list_elem_of_fmap. exists (k, v). split; [reflexivity|].
    apply elem_of_map_to_list. exact Hk.
  - intros H k Hk. apply list_elem_of_In in Hk.
    apply list_elem_of_fmap in Hk. destruct Hk as ([k' v] & -> & Hkv).
    apply elem_of_map_to_list in Hkv. exact (H k' v Hkv).
Qed.

Lemma plain_with_id (b : object) (v : value) :
  plain b = true -> plain (b ∪ {["id" := v]}) = true.
Proof.
  rewrite !plain_spec. intros H k x Hk. apply lookup_union_Some_raw in Hk.
  destruct Hk as [Hk|[_ Hk]]; [exact (H k x Hk)|].
  apply lookup_singleton_Some in Hk. destruct Hk as [<- _]. reflexivity.
Qed.

Lemma undeclared_lookup (sch : schema) (raw : object) (p : string) (v : value) :
  plain raw = true ->
  (undeclared sch raw !! p = Some v <->
   raw !! p = Some v /\ (p ∉ sch.*1) /\ v <> VUndefined).
Proof.
  intros Hp. unfold undeclared. rewrite Hp. rewrite !map_lookup_filter_Some. simpl.
  assert (Hu : is_undefined v = false <-> v <> VUndefined)
    by (destruct v; simpl; split; congruence).
  rewrite Hu. tauto.
Qed.

Lemma undeclared_declared (sch : schema) (raw : object) (p : string) :
  p ∈ sch.*1 -> undeclared sch raw !! p = None.
Proof.
  intros Hp. destruct (undeclared sch raw !! p) as [v|] eqn:Hv; [|reflexivity].
  unfold undeclared in Hv. apply map_lookup_filter_Some in Hv. simpl in Hv.
  destruct Hv as [_ Hv]. contradiction.
Qed.

Lemma Model_create_Ok (m : model) (raw d : object) (w w' : world) :
  Model_create m raw w = (Ok d, w') ->
  db w' = with_collection m (collection m (db w) ++ [d]) (db w) /\
  clock w' = clock w /\ (ticks w <= ticks w')%nat /\
  console w' = console w /\ outbox w' = outbox w /\
  answers w (ops w) = true /\
  (forall p s, (p, s) ∈ schema_of m -> required s = true ->
     checkRequired (ptype s) (d !! p) = true) /\
  (forall p, p ∉ (schema_of m).*1 ->
     d !! p = if strict_of m then None else undeclared (schema_of m) raw !! p) /\
  (forall p s, (p, s) ∈ schema_of m ->
     if unset raw p
     then exists o, default_given w w' (default_of s) o /\ d !! p = o ≫= cast_set (ptype s)
     else exists v v', raw !! p = Some v /\ cast (ptype s) v = Some v' /\ d !! p = Some v') /\
  complete m d.
Proof.
  unfold Model_create. intros H.
  destruct (apply_defaults_run raw (schema_of m) w) as (dflt & w1 & Hd & Ht & Hout & Hin).
  unfold mbind, M_bind in H. rewrite Hd in H.
  destruct (cast_doc (schema_of m) (dflt ∪ raw)) as [d0|] eqn:Hc; [|discriminate].
  destruct (validate (schema_of m) d0) eqn:Hv; [|discriminate].
  destruct (bookkeeping_accepted raw); [|discriminate].
  cbn [andb] in H. cbv zeta in H.
  assert (Hdecl : forall p, p ∈ (schema_of m).*1 ->
            (if strict_of m then d0 else d0 ∪ undeclared (schema_of m) raw) !! p = d0 !! p).
  { intros p Hp. destruct (strict_of m); [reflexivity|].
    destruct (d0 !! p) as [v|] eqn:Hv0.
    - apply lookup_union_Some_l. exact Hv0.
    - rewrite lookup_union_r by exact Hv0. apply undeclared_declared, Hp. }
  destruct (cast_doc_lookup _ _ _ Hc) as [Hcout Hcin].
  assert (Hundecl : forall p, p ∉ (schema_of m).*1 ->
            (if strict_of m then d0 else d0 ∪ undeclared (schema_of m) raw) !! p =
            if strict_of m then None else undeclared (schema_of m) raw !! p).
  { intros p Hp. specialize (Hcout p Hp). destruct (strict_of m); [exact Hcout|].
    apply lookup_union_r. exact Hcout. }
  revert H Hdecl Hundecl.
  generalize (if strict_of m then d0 else d0 ∪ undeclared (schema_of m) raw).
  intros doc H Hdecl Hundecl.
  unfold store in H. destruct (answers w1 (ops w1)) eqn:Ha; [|discriminate].
  inversion H; subst doc w'; clear H. simpl.
  destruct Ht as (Hdb & Hcl & Han & Hops & Hco & Hob & Hti).
  rewrite Hdb, Hcl, Hco, Hob. rewrite Han, Hops in Ha.
  do 6 (split; [auto|]).
  assert (Hmem : forall p s, (p, s) ∈ schema_of m -> p ∈ (schema_of m).*1).
  { intros p s Hps. apply (list_elem_of_fmap_2 fst) in Hps. exact Hps. }
  split; [|split; [exact Hundecl|split]].
  - intros p s Hps Hreq. rewrite (Hdecl p (Hmem p s Hps)).
    eapply validate_required; eassumption.
  - intros p s Hps. rewrite (Hdecl p (Hmem p s Hps)).
    specialize (Hin (NoDup_schema m) p s Hps).
    specialize (Hcin (NoDup_schema m) p s Hps).
    destruct (unset raw p) eqn:Hu.
    + exists (dflt !! p). split.
      { destruct (default_of s); simpl in *; try assumption. }
      destruct (dflt !! p) as [v0|] eqn:Hv0.
      * assert (Hl : (dflt ∪ raw) !! p = Some v0) by (apply lookup_union_Some_l; exact Hv0).
        unfold unset in Hcin. rewrite Hl in Hcin. simpl.
        destruct v0; simpl; try (destruct Hcin as (v & v' & Hv1 & Hv2 & Hv3);
          inversion Hv1; subst v; rewrite Hv3; symmetry; exact Hv2).
        exact Hcin.
      * rewrite (unset_union_l _ _ _ Hv0), Hu in Hcin. exact Hcin.
    + rewrite (unset_union_l _ _ _ Hin), Hu in Hcin.
      destruct Hcin as (v & v' & Hv1 & Hv2 & Hv3).
      rewrite lookup_union_r in Hv1 by exact Hin. eauto.
  - intros p s Hps Hdef. unfold unset. rewrite (Hdecl p (Hmem p s Hps)).
    specialize (Hin (NoDup_schema m) p s Hps).
    specialize (Hcin (NoDup_schema m) p s Hps).
    assert (Hset : unset (dflt ∪ raw) p = false).
    { destruct (unset raw p) eqn:Hu.
      - assert (Ho : exists v0, dflt !! p = Some v0 /\ v0 <> VUndefined).
        { destruct (default_of s) as [|v0|] eqn:Hds; simpl in Hin.
          - contradiction.
          - exists v0. split; [exact Hin|]. eapply default_defined; eassumption.
          - destruct Hin as (k & _ & Hk). eexists. split; [exact Hk|discriminate]. }
        destruct Ho as (v0 & Hv0 & Hnu). unfold unset.
        rewrite (lookup_union_Some_l _ _ _ _ Hv0). destruct v0; try reflexivity.
        contradiction.
      - rewrite (unset_union_l _ _ _ Hin). exact Hu. }
    rewrite Hset in Hcin. destruct Hcin as (v & v' & Hv1 & Hv2 & Hv3). rewrite Hv3.
    assert (Hnu : v <> VUndefined).
    { intros ->. unfold unset in Hset. rewrite Hv1 in Hset. discriminate. }
    pose proof (cast_stored _ _ _ Hnu Hv2) as Hs. simpl in Hs.
    destruct v'; try reflexivity. destruct (ptype s); contradiction.
Qed.

Lemma sendDiscordNotification_frame (data : object) (w : world) :
  exists p w', sendDiscordNotification data w = (Ok p, w') /\
    db w' = db w /\ clock w' = clock w /\ (ticks w <= ticks w')%nat /\
    console w' = console w /\ answers w' = answers w /\ ops w' = ops w.
Proof.
  unfold sendDiscordNotification.
  destruct (negb (truthy _)).
  - exists Settled, w. simpl. repeat split; auto.
  - eexists _, _. split; [reflexivity|]. simpl. repeat split; auto.
Qed.

Lemma create_handler_Ok (e : endpoint) (m : model) (key : string) (req : request)
    (w w' : world) (r : response) :
  creates e = Some (m, key) ->
  handler e req w = (Ok r, w') -> status r = 200 ->
  exists d w0,
    Model_create m (spread (body req) ∪ {["id" := VNum (clock w (ticks w))]}) (tick w)
      = (Ok d, w0) /\
    db w' = db w0 /\ clock w' = clock w0 /\ (ticks w0 <= ticks w')%nat /\
    (exists o, json r = VObj o /\ o !! key = Some (VObj d)).
Proof.
  intros He H Hs.
  destruct e; try discriminate; inversion He; subst m key; clear He;
    unfold handler, post_api_projects, post_api_blogs, post_api_contact,
      try_catch, mbind, M_bind, Date_now in H;
    match type of H with
    | context [Model_create ?k ?raw (tick w)] =>
        destruct (Model_create k raw (tick w)) as [[d|err] w0] eqn:Hc
    end.
  - inversion H; subst. exists d, w'. repeat split; auto. eexists; split; reflexivity.
  - inversion H; subst. discriminate.
  - inversion H; subst. exists d, w'. repeat split; auto. eexists; split; reflexivity.
  - inversion H; subst. discriminate.
  - destruct (sendDiscordNotification_frame d w0) as (p & w1 & Hn & Hdb & Hcl & Hti & _).
    rewrite Hn in H. inversion H; subst. exists d, w0. repeat split; auto.
    eexists; split; reflexivity.
  - inversion H; subst. discriminate.
Qed.

Lemma serve_200 (e : endpoint) (req : request) (w w' : world) (r : response) :
  route req = Some e -> serve req w = (Ok r, w') -> status r = 200 ->
  handler e req w = (Ok r, w').
Proof.
  unfold serve, run. intros -> H Hs.
  destruct (protected e); [|exact H].
  destruct (auth req) eqn:Ha; [exact H|].
  unfold auth in Ha. destruct (strict_equals _ _); [discriminate|].
  inversion Ha; subst. inversion H; subst. discriminate.
Qed.

Lemma collection_with_collection (m : model) (l : list object) (base : database) :
  collection m (with_collection m l base) = l.
Proof. destruct m; reflexivity. Qed.

Lemma spread_id_lookup (b : object) (now : Z) (p : string) :
  p <> "id" -> (b ∪ {["id" := VNum now]}) !! p = b !! p.
Proof.
  intros Hne. destruct (b !! p) as [v|] eqn:Hb.
  - apply lookup_union_Some_l. exact Hb.
  - rewrite lookup_union_r by exact Hb. apply lookup_singleton_ne. congruence.
Qed.

Lemma created_id_path (e : endpoint) (m : model) (key : string) :
  creates e = Some (m, key) -> exists s, ("id", s) ∈ schema_of m /\ ptype s = TNumber.
Proof.
  intros H. destruct e; try discriminate; inversion H; subst;
    eexists; (split; [apply list_elem_of_here|reflexivity]).
Qed.

(** What a successful create stored: the record, the world after the
    handler, and the value of every path. *)
Lemma created_record (e : endpoint) (m : model) (key : string) (req : request)
    (w w' : world) (r : response) :
  creates e = Some (m, key) ->
  handler e req w = (Ok r, w') -> status r = 200 ->
  exists d : object,
    (exists o, json r = VObj o /\ o !! key = Some (VObj d)) /\
    db w' = with_collection m (collection m (db w) ++ [d]) (db w) /\
    clock w' = clock w /\ (ticks w < ticks w')%nat /\
    (spread (body req) !! "id" = None -> d !! "id" = Some (VNum (clock w (ticks w)))) /\
    (forall p s v, (p, s) ∈ schema_of m -> spread (body req) !! p = Some v ->
       v <> VUndefined -> exists v', cast (ptype s) v = Some v' /\ d !! p = Some v') /\
    (forall p s, (p, s) ∈ schema_of m -> p <> "id" ->
       unset (spread (body req)) p = true ->
       match default_of s with
       | NoDefault => d !! p = None
       | DefaultValue v0 => d !! p = cast_set (ptype s) v0
       | DefaultNow =>
           exists k, (ticks w < k < ticks w')%nat /\
             d !! p = cast_set (ptype s) (VNum (clock w k))
       end) /\
    (forall p, p ∉ (schema_of m).*1 ->
       d !! p = if strict_of m then None
                else undeclared (schema_of m)
                       (spread (body req) ∪ {["id" := VNum (clock w (ticks w))]}) !! p) /\
    complete m d.
Proof.
  intros He H Hs.
  destruct (create_handler_Ok e m key req w w' r He H Hs)
    as (d & w0 & Hc & Hdb & Hcl & Hti & Hr).
  apply Model_create_Ok in Hc.
  destruct Hc as (Hdb0 & Hcl0 & Hti0 & _ & _ & _ & _ & Hout & Hin & Hcomplete).
  simpl in Hdb0, Hcl0, Hti0.
  exists d. split; [exact Hr|]. split; [congruence|]. split; [congruence|].
  split; [lia|]. split; [|split; [|split; [|split; [|exact Hcomplete]]]].
  - intros Hnone. destruct (created_id_path e m key He) as (s & Hs1 & Hs2).
    specialize (Hin "id" s Hs1).
    assert (Hl : (spread (body req) ∪ {["id" := VNum (clock w (ticks w))]}) !! "id"
                 = Some (VNum (clock w (ticks w)))).
    { rewrite lookup_union_r by exact Hnone. apply lookup_singleton_eq. }
    unfold unset in Hin. rewrite Hl in Hin.
    destruct Hin as (v & v' & Hv & Hcast & Hd). rewrite Hs2 in Hcast.
    inversion Hv; subst v. simpl in Hcast. congruence.
  - intros p s v Hps Hv Hnu. specialize (Hin p s Hps).
    assert (Hl : (spread (body req) ∪ {["id" := VNum (clock w (ticks w))]}) !! p = Some v)
      by (apply lookup_union_Some_l; exact Hv).
    unfold unset in Hin. rewrite Hl in Hin.
    destruct v; try (destruct Hin as (v1 & v' & Hv1 & Hcast & Hd);
      inversion Hv1; subst v1; eauto).
    contradiction.
  - intros p s Hps Hne Hu. specialize (Hin p s Hps).
    unfold unset in Hin, Hu. rewrite (spread_id_lookup _ _ _ Hne) in Hin.
    destruct (spread (body req) !! p) as [[]|]; try discriminate;
      destruct Hin as (o & Hg & Hd); destruct (default_of s); simpl in Hg;
      try (subst o; exact Hd);
      destruct Hg as (k & Hk & ->); exists k; (split; [lia|exact Hd]).
  - exact Hout.
Qed.

(** C3, amended. After every create that succeeds on a Project, Blog or Contact
    route, the answer carries the record that was appended to the
    collection; its id is the time read at creation when the body names no
    id; every declared path that the body sets holds the cast of the
    supplied value (a supplied id included); every other declared path holds
    the cast of its default, if it has one; of the keys that the schema does
    not declare, a Project and a Blog store none, and a Contact stores each
    key of a plain body with the value the body gives it. *)
Theorem create_assigns (e : endpoint) (m : model) (key : string) (req : request)
    (w w' : world) (r : response) :
  route req = Some e -> creates e = Some (m, key) ->
  serve req w = (Ok r, w') -> status r = 200 ->
  exists d : object,
    (exists o, json r = VObj o /\ o !! key = Some (VObj d)) /\
    collection m (db w') = collection m (db w) ++ [d] /\
    (spread (body req) !! "id" = None -> d !! "id" = Some (VNum (clock w (ticks w)))) /\
    (forall p s v, (p, s) ∈ schema_of m -> spread (body req) !! p = Some v ->
       v <> VUndefined -> exists v', cast (ptype s) v = Some v' /\ d !! p = Some v') /\
    (forall p s, (p, s) ∈ schema_of m -> p <> "id" ->
       unset (spread (body req)) p = true ->
       match default_of s with
       | NoDefault => d !! p = None
       | DefaultValue v0 => d !! p = cast_set (ptype s) v0
       | DefaultNow =>
           exists k, (ticks w < k < ticks w')%nat /\
             d !! p = cast_set (ptype s) (VNum (clock w k))
       end) /\
    (m <> Contact -> forall p, p ∉ (schema_of m).*1 -> d !! p = None) /\
    (m = Contact -> plain (spread (body req)) = true ->
     forall p v, p ∉ (schema_of m).*1 -> v <> VUndefined ->
       (d !! p = Some v <-> spread (body req) !! p = Some v)).
Proof.
  intros Hroute He H Hs. apply (serve_200 e) in H; [|assumption..].
  destruct (created_record e m key req w w' r He H Hs)
    as (d & Hr & Hdb & _ & _ & Hid & Hset & Hdef & Hout & _).
  exists d. rewrite Hdb, collection_with_collection.
  split; [exact Hr|]. split; [reflexivity|]. split; [exact Hid|].
  split; [exact Hset|]. split; [exact Hdef|]. split.
  - intros Hm p Hp. rewrite (Hout p Hp). destruct m; try reflexivity. contradiction.
  - intros -> Hplain p v Hp Hnu. rewrite (Hout p Hp). simpl strict_of. cbv iota.
    rewrite undeclared_lookup by (apply plain_with_id; exact Hplain).
    assert (Hne : p <> "id") by (intros ->; apply Hp; left).
    rewrite (spread_id_lookup _ _ _ Hne). tauto.
Qed.

(** C4, amended. Two consecutive successful creates on the same route whose
    bodies name no id store records with distinct ids whenever the clock
    reads differently at the two creations. *)
Theorem distinct_ids (e : endpoint) (m : model) (key : string) (req1 req2 : request)
    (w w1 w2 : world) (r1 r2 : response) :
  route req1 = Some e -> route req2 = Some e -> creates e = Some (m, key) ->
  serve req1 w = (Ok r1, w1) -> status r1 = 200 ->
  serve req2 w1 = (Ok r2, w2) -> status r2 = 200 ->
  spread (body req1) !! "id" = None -> spread (body req2) !! "id" = None ->
  clock w (ticks w) <> clock w (ticks w1) ->
  exists d1 d2 : object,
    collection m (db w2) = collection m (db w) ++ [d1; d2] /\
    d1 !! "id" = Some (VNum (clock w (ticks w))) /\
    d2 !! "id" = Some (VNum (clock w (ticks w1))) /\
    d1 !! "id" <> d2 !! "id".
Proof.
  intros Hr1 Hr2 He H1 Hs1 H2 Hs2 Hb1 Hb2 Hclock.
  apply (serve_200 e) in H1; [|assumption..].
  apply (serve_200 e) in H2; [|assumption..].
  destruct (created_record e m key req1 w w1 r1 He H1 Hs1)
    as (d1 & _ & Hdb1 & Hcl1 & _ & Hid1 & _).
  destruct (created_record e m key req2 w1 w2 r2 He H2 Hs2)
    as (d2 & _ & Hdb2 & _ & _ & Hid2 & _).
  specialize (Hid1 Hb1). specialize (Hid2 Hb2). rewrite Hcl1 in Hid2.
  exists d1, d2. rewrite Hdb2, collection_with_collection, Hdb1, collection_with_collection.
  rewrite <- app_assoc. simpl. repeat split; try assumption.
  rewrite Hid1, Hid2. congruence.
Qed.

(** ** Records as they are handed out *)

Lemma cast_each_lookup (sch : schema) (raw : object) :
  (forall p, p ∉ sch.*1 -> cast_each sch raw !! p = None) /\
  (NoDup sch.*1 -> forall p s, (p, s) ∈ sch ->
     cast_each sch raw !! p = raw !! p ≫= cast_set (ptype s)).
Proof.
  induction sch as [|[q t] rest [IHout IHin]].
  - split; [intros; apply lookup_empty|]. intros _ p s H. inversion H.
  - assert (Hstep : forall p, p <> q -> cast_each ((q, t) :: rest) raw !! p = cast_each rest raw !! p).
    { intros p Hne. cbn [cast_each]. destruct (raw !! q) as [v|]; [|reflexivity].
      destruct v; try reflexivity;
        (destruct (cast (ptype t) _); [apply lookup_insert_ne; congruence|reflexivity]). }
    split.
    + intros p Hp. rewrite fmap_cons, not_elem_of_cons in Hp. destruct Hp as [Hne Hp].
      simpl in Hne. rewrite (Hstep p Hne). apply IHout, Hp.
    + intros Hnd p s Hps. rewrite fmap_cons, NoDup_cons in Hnd. destruct Hnd as [Hq Hnd].
      simpl in Hq. apply elem_of_cons in Hps. destruct Hps as [Heq|Hps].
      * inversion Heq; subst p s. clear Heq. cbn [cast_each].
        destruct (raw !! q) as [v|]; simpl; [|apply IHout, Hq].
        destruct v; simpl; try (apply IHout, Hq);
          (destruct (cast (ptype t) _); [apply lookup_insert_eq|apply IHout, Hq]).
      * assert (Hne : p <> q).
        { intros ->. apply Hq. apply (list_elem_of_fmap_2 fst) in Hps. exact Hps. }
        rewrite (Hstep p Hne). apply IHin; assumption.
Qed.

Lemma handed_out_mono (m : model) (w1 w2 w w' : world) (d shown : object) :
  clock w1 = clock w -> (ticks w <= ticks w1)%nat -> (ticks w2 <= ticks w')%nat ->
  handed_out m w1 w2 d shown -> handed_out m w w' d shown.
Proof.
  intros Hcl Ht1 Ht2 (H1 & H2 & H3).
  split; [exact H1|]. split; [exact H2|]. intros p s Hps Hu. specialize (H3 p s Hps Hu).
  destruct (default_of s); try exact H3.
  destruct H3 as (k & Hk & Hl). exists k. split; [lia|]. rewrite <- Hcl. exact Hl.
Qed.

Lemma hydrate_run (m : model) (d : object) (w : world) :
  exists shown w', hydrate m d w = (Ok shown, w') /\ only_ticks w w' /\
    handed_out m w w' d shown.
Proof.
  unfold hydrate.
  destruct (apply_defaults_run d (schema_of m) w) as (dflt & w' & Hd & Ht & Hout & Hin).
  unfold mbind, M_bind. rewrite Hd. eexists _, w'. split; [reflexivity|].
  split; [exact Ht|].
  destruct (cast_each_lookup (schema_of m) dflt) as [Hcout Hcin].
  split; [|split].
  - intros p Hu. apply lookup_union_r.
    destruct (decide (p ∈ (schema_of m).*1)) as [Hel|Hnel]; [|apply Hcout, Hnel].
    apply list_elem_of_fmap in Hel. destruct Hel as ([p' s] & Heq & Hps).
    simpl in Heq. subst p'. rewrite (Hcin (NoDup_schema m) p s Hps).
    specialize (Hin (NoDup_schema m) p s Hps). rewrite Hu in Hin. rewrite Hin. reflexivity.
  - intros p Hp. apply lookup_union_r. apply Hcout, Hp.
  - intros p s Hps Hu. specialize (Hin (NoDup_schema m) p s Hps). rewrite Hu in Hin.
    pose proof (Hcin (NoDup_schema m) p s Hps) as Hl.
    assert (Hfill : forall v0, dflt !! p = Some v0 ->
              (cast_each (schema_of m) dflt ∪ d) !! p = filled (ptype s) v0 (d !! p)).
    { intros v0 Hv0. rewrite Hv0 in Hl. simpl in Hl. unfold filled.
      destruct (cast_set (ptype s) v0) as [v|].
      - apply lookup_union_Some_l. exact Hl.
      - apply lookup_union_r. exact Hl. }
    destruct (default_of s) as [|v0|]; simpl in Hin.
    + apply lookup_union_r. rewrite Hl, Hin. reflexivity.
    + apply Hfill, Hin.
    + destruct Hin as (k & Hk & Hv). exists k. split; [exact Hk|]. apply Hfill, Hv.
Qed.

Lemma hydrate_all_run (m : model) (l : list object) (w : world) :
  exists shown w', hydrate_all m l w = (Ok shown, w') /\ only_ticks w w' /\
    Forall2 (handed_out m w w') l shown.
Proof.
  revert w. induction l as [|d l IH]; intros w.
  - exists [], w. split; [reflexivity|]. split; [apply only_ticks_refl|constructor].
  - destruct (hydrate_run m d w) as (d' & w1 & Hd & Ht1 & Hh).
    destruct (IH w1) as (l' & w2 & Hl & Ht2 & Hf).
    exists (d' :: l'), w2. split.
    { cbn [hydrate_all]. unfold mbind, M_bind. rewrite Hd, Hl. reflexivity. }
    split; [eapply only_ticks_trans; eassumption|].
    constructor.
    + eapply handed_out_mono; [reflexivity|lia|apply Ht2|exact Hh].
    + eapply Forall2_impl; [exact Hf|].
      intros x y Hxy.
      eapply handed_out_mono; [apply Ht1|apply Ht1|apply Nat.le_refl|exact Hxy].
Qed.

Lemma hydrate_one_run (m : model) (o : option object) (w : world) :
  exists v w', hydrate_one m o w = (Ok v, w') /\ only_ticks w w' /\
    match o with
    | Some d => exists shown, v = VObj shown /\ handed_out m w w' d shown
    | None => v = VNull
    end.
Proof.
  destruct o as [d|]; simpl.
  - destruct (hydrate_run m d w) as (d' & w1 & Hd & Ht & Hh).
    unfold mbind, M_bind. rewrite Hd. eexists _, w1. split; [reflexivity|]. eauto.
  - exists VNull, w. split; [reflexivity|]. split; [apply only_ticks_refl|reflexivity].
Qed.

Lemma handed_out_complete (m : model) (w w' : world) (d shown : object) :
  complete m d -> handed_out m w w' d shown -> shown = d.
Proof.
  intros Hc (H1 & H2 & H3). apply map_eq. intros p.
  destruct (unset d p) eqn:Hu; [|apply H1, Hu].
  destruct (decide (p ∈ (schema_of m).*1)) as [Hel|Hnel]; [|apply H2, Hnel].
  apply list_elem_of_fmap in Hel. destruct Hel as ([p' s] & Heq & Hps).
  simpl in Heq. subst p'. specialize (H3 p s Hps Hu). specialize (Hc p s Hps).
  destruct (default_of s); [exact H3| |]; rewrite Hc in Hu; discriminate.
Qed.

Lemma handed_out_date (m : model) (w w' : world) (d shown : object) (ms : Z) :
  handed_out m w w' d shown -> date_of d = Some ms -> date_of shown = Some ms.
Proof.
  intros (H1 & _) Hd. unfold date_of in *.
  destruct (d !! "date") as [v|] eqn:Hv; [|discriminate].
  destruct v; try discriminate.
  rewrite (H1 "date"); [rewrite Hv; exact Hd|]. unfold unset. rewrite Hv. reflexivity.
Qed.

(** A read of the store followed by the handing out of what was read. *)
Lemma store_then (A B : Type) (f : database -> A * database) (k : A -> M B) (w : world) :
  answers w (ops w) = true ->
  (store f ≫= k) w =
    k (f (db w)).1
      {| db := (f (db w)).2; clock := clock w; ticks := ticks w; answers := answers w;
         ops := S (ops w); console := console w; outbox := outbox w |}.
Proof.
  intros Ha. unfold mbind, M_bind, store. rewrite Ha. destruct (f (db w)). reflexivity.
Qed.

Lemma store_fails (A B : Type) (f : database -> A * database) (k : A -> M B) (w : world) :
  answers w (ops w) = false ->
  (store f ≫= k) w =
    (Throw StoreError,
     {| db := db w; clock := clock w; ticks := ticks w; answers := answers w;
        ops := S (ops w); console := console w; outbox := outbox w |}).
Proof. intros Ha. unfold mbind, M_bind, store. rewrite Ha. reflexivity. Qed.

Lemma store_try_then (A B : Type) (f : database -> option (A * database)) (k : A -> M B)
    (w : world) :
  answers w (ops w) = true ->
  (store_try f ≫= k) w =
    match f (db w) with
    | Some (a, d) =>
        k a {| db := d; clock := clock w; ticks := ticks w; answers := answers w;
               ops := S (ops w); console := console w; outbox := outbox w |}
    | None =>
        (Throw StoreError,
         {| db := db w; clock := clock w; ticks := ticks w; answers := answers w;
            ops := S (ops w); console := console w; outbox := outbox w |})
    end.
Proof.
  intros Ha. unfold mbind, M_bind, store_try. rewrite Ha.
  destruct (f (db w)) as [[a d]|]; reflexivity.
Qed.

(** ** Targets that do not exist *)

Lemma serve_handler (e : endpoint) (req : request) (w : world) :
  route req = Some e ->
  (protected e = true -> headers req !! "password" = ADMIN_PASSWORD process_env) ->
  serve req w = handler e req w.
Proof.
  intros Hroute Hpw. unfold serve, run. rewrite Hroute.
  destruct (protected e); [|reflexivity].
  rewrite (proj2 (auth_next req) (Hpw eq_refl)). reflexivity.
Qed.

Lemma serve_authorized (e : endpoint) (req : request) (w : world) :
  route req = Some e ->
  headers req !! "password" = ADMIN_PASSWORD process_env ->
  serve req w = handler e req w.
Proof.
  intros Hroute Hpw. unfold serve, run. rewrite Hroute.
  apply auth_next in Hpw. rewrite Hpw. destruct (protected e); reflexivity.
Qed.

Lemma cast_query_id (m : model) (id : string) (n : Z) :
  m = Project \/ m = Blog -> id <> "" -> StringToNumber id = Some n ->
  cast_query m (Q_id (VStr id)) = Some (Q_id (VNum n)).
Proof.
  intros Hm Hne Hn.
  assert (Hfind : cast_query m (Q_id (VStr id)) = Q_id <$> castNumber (VStr id))
    by (destruct Hm; subst m; reflexivity).
  rewrite Hfind. unfold castNumber.
  rewrite bool_decide_eq_false_2 by exact Hne. rewrite Hn. reflexivity.
Qed.

Lemma matches_id (n : Z) (d : object) :
  matches (Q_id (VNum n)) d = true <-> d !! "id" = Some (VNum n).
Proof.
  unfold matches. destruct (d !! "id") as [[]|]; try (split; [discriminate|congruence]).
  rewrite bool_decide_eq_true. split; congruence.
Qed.

Lemma delete_first_absent (n : Z) (l : list object) :
  absent n l -> delete_first (Q_id (VNum n)) l = None.
Proof.
  induction l as [|d l IH]; intros H; [reflexivity|].
  cbn [delete_first]. destruct (matches (Q_id (VNum n)) d) eqn:Hm.
  - apply matches_id in Hm. exfalso. apply (H d); [left|exact Hm].
  - rewrite IH; [reflexivity|]. intros d' Hd'. apply H. right. exact Hd'.
Qed.

Lemma update_first_absent (n : Z) (f : object -> object) (l : list object) :
  absent n l -> update_first (Q_id (VNum n)) f l = None.
Proof.
  induction l as [|d l IH]; intros H; [reflexivity|].
  cbn [update_first]. destruct (matches (Q_id (VNum n)) d) eqn:Hm.
  - apply matches_id in Hm. exfalso. apply (H d); [left|exact Hm].
  - rewrite IH; [reflexivity|]. intros d' Hd'. apply H. right. exact Hd'.
Qed.

Lemma delete_first_found (n : Z) (l1 l2 : list object) (d : object) :
  absent n l1 -> d !! "id" = Some (VNum n) ->
  delete_first (Q_id (VNum n)) (l1 ++ d :: l2) = Some (d, l1 ++ l2).
Proof.
  intros Habs Hd. induction l1 as [|x l1 IH]; cbn [app delete_first].
  - apply matches_id in Hd. rewrite Hd. reflexivity.
  - destruct (matches (Q_id (VNum n)) x) eqn:Hm.
    + apply matches_id in Hm. exfalso. apply (Habs x); [left|exact Hm].
    + rewrite IH; [reflexivity|]. intros y Hy. apply Habs. right. exact Hy.
Qed.

Lemma update_first_found (n : Z) (f : object -> object) (l1 l2 : list object) (d : object) :
  absent n l1 -> d !! "id" = Some (VNum n) ->
  update_first (Q_id (VNum n)) f (l1 ++ d :: l2) = Some (d, f d, l1 ++ f d :: l2).
Proof.
  intros Habs Hd. induction l1 as [|x l1 IH]; cbn [app update_first].
  - apply matches_id in Hd. rewrite Hd. reflexivity.
  - destruct (matches (Q_id (VNum n)) x) eqn:Hm.
    + apply matches_id in Hm. exfalso. apply (Habs x); [left|exact Hm].
    + rewrite IH; [reflexivity|]. intros y Hy. apply Habs. right. exact Hy.
Qed.

Lemma split_first_absent (n : Z) (l : list object) :
  absent n l -> split_first (Q_id (VNum n)) l = None.
Proof.
  induction l as [|d l IH]; intros H; [reflexivity|].
  cbn [split_first]. destruct (matches (Q_id (VNum n)) d) eqn:Hm.
  - apply matches_id in Hm. exfalso. apply (H d); [left|exact Hm].
  - rewrite IH; [reflexivity|]. intros d' Hd'. apply H. right. exact Hd'.
Qed.

Lemma cast_query_id_fails (m : model) (id : string) :
  m = Project \/ m = Blog -> id <> "" -> StringToNumber id = None ->
  cast_query m (Q_id (VStr id)) = None.
Proof.
  intros Hm Hne Hn.
  assert (Hfind : cast_query m (Q_id (VStr id)) = Q_id <$> castNumber (VStr id))
    by (destruct Hm; subst m; reflexivity).
  rewrite Hfind. unfold castNumber.
  rewrite bool_decide_eq_false_2 by exact Hne. rewrite Hn. reflexivity.
Qed.

Lemma Model_findOneAndUpdate_spread (m : model) (q : query) (update : option object)
    (opts : update_options) :
  upsert opts = false ->
  Model_findOneAndUpdate m q update opts = Query_findOneAndUpdate m q (spread update) opts.
Proof. intros Hu. unfold Model_findOneAndUpdate. rewrite Hu. destruct update; reflexivity. Qed.

(** What a plain update that casts does to the store. *)
Lemma Query_plain_run (m : model) (q q' : query) (u upd : object) (opts : update_options)
    (w : world) :
  cast_query m q = Some q' -> plain u = true -> cast_doc (schema_of m) u = Some upd ->
  answers w (ops w) = true ->
  exists (ins : object) (o : option object) (w0 w1 : world) (v : value) (w' : world),
    (if upsert opts
     then exists dflt, apply_defaults upd (schema_of m) w = (Ok dflt, w0) /\
            ins = upd ∪ cast_each (schema_of m) dflt
     else w0 = w /\ ins = upd) /\
    only_ticks w w0 /\
    (match update_first q' (fun old => upd ∪ old) (collection m (db w)) with
     | Some (old, new_doc, l) =>
         o = Some (if new opts then new_doc else old) /\
         db w1 = with_collection m l (db w)
     | None =>
         if upsert opts
         then o = (if new opts then Some ins else None) /\
              db w1 = with_collection m (collection m (db w) ++ [ins]) (db w)
         else o = None /\ db w1 = db w
     end) /\
    ticks w1 = ticks w0 /\ clock w1 = clock w /\ console w1 = console w /\
    outbox w1 = outbox w /\ answers w1 = answers w /\ ops w1 = S (ops w) /\
    hydrate_one m o w1 = (Ok v, w') /\
    Query_findOneAndUpdate m q u opts w = (Ok v, w') /\
    only_ticks w1 w' /\
    match o with
    | Some d => exists shown, v = VObj shown /\ handed_out m w1 w' d shown
    | None => v = VNull
    end.
Proof.
  intros Hq Hp Hc Ha. unfold Query_findOneAndUpdate. rewrite Hq, Hp, Hc.
  assert (Hins : exists ins w0,
            (if upsert opts
             then dflt ← apply_defaults upd (schema_of m);
                  mret (upd ∪ cast_each (schema_of m) dflt)
             else mret upd) w = (Ok ins, w0) /\ only_ticks w w0 /\
            (if upsert opts
             then exists dflt, apply_defaults upd (schema_of m) w = (Ok dflt, w0) /\
                    ins = upd ∪ cast_each (schema_of m) dflt
             else w0 = w /\ ins = upd)).
  { destruct (upsert opts).
    - destruct (apply_defaults_run upd (schema_of m) w) as (dflt & w0 & Hd & Ht & _).
      unfold mbind, M_bind. rewrite Hd. eexists _, w0. split; [reflexivity|].
      split; [exact Ht|]. eauto.
    - exists upd, w. split; [reflexivity|]. split; [apply only_ticks_refl|]. auto. }
  destruct Hins as (ins & w0 & Hrun & Ht & Hins).
  pose proof Ht as (Hdb & Hcl & Han & Hops & Hco & Hob & Hti).
  unfold mbind at 1, M_bind at 1. rewrite Hrun.
  rewrite store_then by (rewrite Han, Hops; exact Ha). rewrite Hdb.
  assert (Hfin : forall (o : option object) (base : database),
    exists (w1 : world) (v : value) (w' : world),
      db w1 = base /\ ticks w1 = ticks w0 /\ clock w1 = clock w /\ console w1 = console w /\
      outbox w1 = outbox w /\ answers w1 = answers w /\ ops w1 = S (ops w) /\
      hydrate_one m o w1 = (Ok v, w') /\
      hydrate_one m o
        {| db := base; clock := clock w0; ticks := ticks w0; answers := answers w0;
           ops := S (ops w0); console := console w0; outbox := outbox w0 |} = (Ok v, w') /\
      only_ticks w1 w' /\
      match o with
      | Some d => exists shown, v = VObj shown /\ handed_out m w1 w' d shown
      | None => v = VNull
      end).
  { intros o base.
    destruct (hydrate_one_run m o
                {| db := base; clock := clock w0; ticks := ticks w0; answers := answers w0;
                   ops := S (ops w0); console := console w0; outbox := outbox w0 |})
      as (v & w' & Hh & Ht' & Hv).
    exists {| db := base; clock := clock w0; ticks := ticks w0; answers := answers w0;
              ops := S (ops w0); console := console w0; outbox := outbox w0 |}, v, w'.
    simpl. split_and!; try reflexivity; try assumption; congruence. }
  destruct (update_first q' _ (collection m (db w))) as [[[old nw] l]|]; simpl.
  - destruct (Hfin (Some (if new opts then nw else old)) (with_collection m l (db w)))
      as (w1 & v & w' & H1 & H2 & H3 & H4 & H5 & H6 & H7 & H8 & H9 & H10 & H11).
    exists ins, (Some (if new opts then nw else old)), w0, w1, v, w'.
    split_and!; try assumption; try reflexivity.
  - destruct (upsert opts); simpl.
    + destruct (Hfin (if new opts then Some ins else None)
                  (with_collection m (collection m (db w) ++ [ins]) (db w)))
        as (w1 & v & w' & H1 & H2 & H3 & H4 & H5 & H6 & H7 & H8 & H9 & H10 & H11).
      exists ins, (if new opts then Some ins else None), w0, w1, v, w'.
      split_and!; try assumption; try reflexivity.
    + destruct (Hfin None (db w))
        as (w1 & v & w' & H1 & H2 & H3 & H4 & H5 & H6 & H7 & H8 & H9 & H10 & H11).
      exists ins, None, w0, w1, v, w'.
      split_and!; try assumption; try reflexivity; apply Hins.
Qed.

Lemma Query_findOneAndUpdate_rejects (m : model) (q : query) (u : object)
    (opts : update_options) (w : world) :
  cast_query m q = None \/ update_accepted (schema_of m) u = false ->
  Query_findOneAndUpdate m q u opts w = (Throw CastError, w).
Proof.
  unfold Query_findOneAndUpdate, update_accepted. intros [Hq|Hu].
  - rewrite Hq. reflexivity.
  - destruct (cast_query m q); [|reflexivity].
    destruct (plain u).
    + destruct (cast_doc (schema_of m) u); [discriminate|reflexivity].
    + rewrite Hu. reflexivity.
Qed.

Lemma delete_handler (m : model) (id : string) (n : Z) (w : world) :
  m = Project \/ m = Blog -> id <> "" -> StringToNumber id = Some n ->
  answers w (ops w) = true ->
  exists v w', Model_findOneAndDelete m (Q_id (VStr id)) w = (Ok v, w') /\
    db w' =
      match delete_first (Q_id (VNum n)) (collection m (db w)) with
      | Some (_, l) => with_collection m l (db w)
      | None => db w
      end.
Proof.
  intros Hm Hne Hn Ha. unfold Model_findOneAndDelete.
  rewrite (cast_query_id m id n Hm Hne Hn). rewrite store_then by exact Ha.
  match goal with
  | |- context [hydrate_one m ?o ?w1] =>
      destruct (hydrate_one_run m o w1) as (v & w' & Hh & (Hdb & _) & _)
  end.
  exists v, w'. split; [exact Hh|]. rewrite Hdb.
  destruct (delete_first _ _) as [[old l]|]; reflexivity.
Qed.

(** An update of a Project past the gate, when the id reads as a number and
    the store answers. *)
Lemma update_handler (id : string) (n : Z) (req : request) (w : world) :
  id <> "" -> StringToNumber id = Some n -> answers w (ops w) = true ->
  (forall upd, plain (spread (body req)) = true ->
     cast_doc ProjectSchema (spread (body req)) = Some upd ->
     exists w', put_api_projects_id id req w =
                  (Ok (res_json (message "Project updated")), w') /\
       db w' =
         match update_first (Q_id (VNum n)) (fun old => upd ∪ old) (projects (db w)) with
         | Some (_, _, l) => with_collection Project l (db w)
         | None => db w
         end) /\
  (update_accepted ProjectSchema (spread (body req)) = true ->
   absent n (projects (db w)) ->
     exists w', put_api_projects_id id req w =
                  (Ok (res_json (message "Project updated")), w') /\
       db w' = db w).
Proof.
  intros Hne Hn Ha.
  pose proof (cast_query_id Project id n (or_introl eq_refl) Hne Hn) as Hq.
  assert (Hplain : forall upd, plain (spread (body req)) = true ->
     cast_doc ProjectSchema (spread (body req)) = Some upd ->
     exists w', put_api_projects_id id req w =
                  (Ok (res_json (message "Project updated")), w') /\
       db w' =
         match update_first (Q_id (VNum n)) (fun old => upd ∪ old) (projects (db w)) with
         | Some (_, _, l) => with_collection Project l (db w)
         | None => db w
         end).
  { intros upd Hp Hc.
    destruct (Query_plain_run Project _ _ _ upd {| new := false; upsert := false |} w
                Hq Hp Hc Ha)
      as (ins & o & w0 & w1 & v & w' & _ & _ & Hst & _ & _ & _ & _ & _ & _ & _ & Hrun &
          (Hdb & _) & _).
    exists w'. unfold put_api_projects_id, try_catch, mbind, M_bind.
    rewrite Model_findOneAndUpdate_spread by reflexivity. rewrite Hrun.
    split; [reflexivity|]. rewrite Hdb. cbn [collection upsert] in Hst.
    destruct (update_first _ _ (projects (db w))) as [[[old nw] l]|]; tauto. }
  split; [exact Hplain|].
  intros Hacc Habs. unfold update_accepted in Hacc.
  destruct (plain (spread (body req))) eqn:Hp.
  - destruct (cast_doc ProjectSchema (spread (body req))) as [upd|] eqn:Hc; [|discriminate].
    destruct (Hplain upd eq_refl eq_refl) as (w' & Hrun & Hdb).
    exists w'. split; [exact Hrun|]. rewrite Hdb.
    rewrite (update_first_absent n _ _ Habs). reflexivity.
  - assert (Hrun : exists v w',
              Query_findOneAndUpdate Project (Q_id (VStr id)) (spread (body req))
                {| new := false; upsert := false |} w = (Ok v, w') /\ db w' = db w).
    { unfold Query_findOneAndUpdate. rewrite Hq, Hp.
      change (schema_of Project) with ProjectSchema. rewrite Hacc.
      rewrite store_try_then by exact Ha.
      cbn [collection upsert]. rewrite (split_first_absent n _ Habs).
      match goal with
      | |- context [hydrate_one Project ?o ?w1] =>
          destruct (hydrate_one_run Project o w1) as (v & w' & Hh & (Hdb & _) & _)
      end.
      exists v, w'. split; [exact Hh|exact Hdb]. }
    destruct Hrun as (v & w' & Hrun & Hdb).
    exists w'. unfold put_api_projects_id, try_catch, mbind, M_bind.
    rewrite Model_findOneAndUpdate_spread by reflexivity. rewrite Hrun.
    split; [reflexivity|exact Hdb].
Qed.

(** C5, amended. When the store answers and the id in the path reads as a
    number, deleting a Project or a Blog answers with the same success
    message whether or not a record has that id, and leaves the store as it
    was when none has; so does updating a Project with a plain body whose
    fields cast against the schema, and any update that Mongoose accepts
    leaves the store as it was when no record has the id. An id that does
    not read as a number, and an update that Mongoose does not accept, are
    answered 500 with the message of the route, the world left as it was. *)
Theorem missing_target_succeeds (id : string) (req : request) (w : world) :
  id <> "" ->
  headers req !! "password" = ADMIN_PASSWORD process_env ->
  answers w (ops w) = true ->
  (forall n, StringToNumber id = Some n ->
     (route req = Some (DELETE_api_projects_id id) ->
        exists w', serve req w = (Ok (res_json (message "Project deleted")), w') /\
          (absent n (projects (db w)) -> db w' = db w)) /\
     (route req = Some (DELETE_api_blogs_id id) ->
        exists w', serve req w = (Ok (res_json (message "Blog deleted")), w') /\
          (absent n (blogs (db w)) -> db w' = db w)) /\
     (route req = Some (PUT_api_projects_id id) ->
        (plain (spread (body req)) = true ->
         forall upd, cast_doc ProjectSchema (spread (body req)) = Some upd ->
           exists w', serve req w = (Ok (res_json (message "Project updated")), w') /\
             (absent n (projects (db w)) -> db w' = db w)) /\
        (update_accepted ProjectSchema (spread (body req)) = true ->
         absent n (projects (db w)) ->
           exists w', serve req w = (Ok (res_json (message "Project updated")), w') /\
             db w' = db w))) /\
  (StringToNumber id = None ->
     forall e, route req = Some e ->
       e = DELETE_api_projects_id id \/ e = DELETE_api_blogs_id id \/
       e = PUT_api_projects_id id ->
       serve req w = (Ok (res_status_json 500 (message (failure_message e))), w)) /\
  (route req = Some (PUT_api_projects_id id) ->
     update_accepted ProjectSchema (spread (body req)) = false ->
     serve req w = (Ok (res_status_json 500 (message "Error updating project")), w)).
Proof.
  intros Hne Hpw Ha. split; [|split].
  - intros n Hn. split; [|split].
    + intros Hroute. rewrite (serve_authorized _ req w Hroute Hpw). simpl.
      destruct (delete_handler Project id n w (or_introl eq_refl) Hne Hn Ha)
        as (v & w' & Hd & Hdb).
      exists w'. unfold delete_api_projects_id, try_catch, mbind, M_bind.
      rewrite Hd. split; [reflexivity|]. intros Habs. rewrite Hdb.
      cbn [collection]. rewrite (delete_first_absent n _ Habs). reflexivity.
    + intros Hroute. rewrite (serve_authorized _ req w Hroute Hpw). simpl.
      destruct (delete_handler Blog id n w (or_intror eq_refl) Hne Hn Ha)
        as (v & w' & Hd & Hdb).
      exists w'. unfold delete_api_blogs_id, try_catch, mbind, M_bind.
      rewrite Hd. split; [reflexivity|]. intros Habs. rewrite Hdb.
      cbn [collection]. rewrite (delete_first_absent n _ Habs). reflexivity.
    + intros Hroute. rewrite (serve_authorized _ req w Hroute Hpw). simpl.
      destruct (update_handler id n req w Hne Hn Ha) as [Hplain Hany].
      split; [|exact Hany].
      intros Hp upd Hc. destruct (Hplain upd Hp Hc) as (w' & Hrun & Hdb).
      exists w'. split; [exact Hrun|]. intros Habs. rewrite Hdb.
      rewrite (update_first_absent n _ _ Habs). reflexivity.
  - intros Hn e Hroute He. rewrite (serve_authorized _ req w Hroute Hpw).
    destruct He as [->| [->| ->]]; simpl.
    + unfold delete_api_projects_id, try_catch, mbind, M_bind, Model_findOneAndDelete.
      rewrite (cast_query_id_fails Project id (or_introl eq_refl) Hne Hn). reflexivity.
    + unfold delete_api_blogs_id, try_catch, mbind, M_bind, Model_findOneAndDelete.
      rewrite (cast_query_id_fails Blog id (or_intror eq_refl) Hne Hn). reflexivity.
    + unfold put_api_projects_id, try_catch, mbind, M_bind.
      rewrite Model_findOneAndUpdate_spread by reflexivity.
      rewrite Query_findOneAndUpdate_rejects; [reflexivity|]. left.
      apply (cast_query_id_fails Project id (or_introl eq_refl) Hne Hn).
  - intros Hroute Hrej. rewrite (serve_authorized _ req w Hroute Hpw). simpl.
    unfold put_api_projects_id, try_catch, mbind, M_bind.
    rewrite Model_findOneAndUpdate_spread by reflexivity.
    rewrite Query_findOneAndUpdate_rejects; [reflexivity|]. right. exact Hrej.
Qed.

(** ** Listing by date *)

#[local] Instance newer_eq_total : Total newer_eq.
Proof.
  intros a b. unfold newer_eq.
  destruct (date_of a), (date_of b); auto. lia.
Qed.

#[local] Instance newer_eq_trans : Transitive newer_eq.
Proof.
  intros a b c. unfold newer_eq.
  destruct (date_of a), (date_of b), (date_of c); auto; try tauto. lia.
Qed.

Lemma sort_newest_first (stored : list object) :
  newest_first stored (merge_sort newer_eq stored).
Proof.
  split; [apply merge_sort_Permutation|].
  split; [apply StronglySorted_merge_sort; apply _|].
  intros a b c d1 d2 d3 Ha Hb Hc Hlt Hperm.
  apply (StronglySorted_unique_strong newer_eq).
  - intros x y Hx Hy Hxy Hyx.
    rewrite merge_sort_Permutation, Hperm in Hx.
    unfold newer_eq in Hxy, Hyx.
    repeat match goal with
           | H : _ ∈ _ :: _ |- _ => apply elem_of_cons in H; destruct H as [->|H]
           | H : _ ∈ [] |- _ => apply elem_of_nil in H; contradiction
           end; try reflexivity;
      rewrite ?Ha, ?Hb, ?Hc in Hxy, Hyx; lia.
  - apply StronglySorted_merge_sort; apply _.
  - repeat constructor; unfold newer_eq; rewrite ?Ha, ?Hb, ?Hc; lia.
  - rewrite merge_sort_Permutation, Hperm. exact (Permutation_rev [a; b; c]).
Qed.

Lemma dates_sorted (l l' : list object) :
  date_of <$> l = date_of <$> l' ->
  StronglySorted newer_eq l -> StronglySorted newer_eq l'.
Proof.
  revert l'. induction l as [|a l IH]; intros [|a' l'] Heq Hs; try discriminate;
    [constructor|].
  rewrite !fmap_cons in Heq. inversion Heq as [[Ha Hl]].
  apply StronglySorted_inv in Hs. destruct Hs as [Hs Hall].
  constructor; [apply IH; assumption|].
  clear IH Hs Heq. revert l' Hl. induction Hall as [|b l Hb Hall IH]; intros [|b' l'] Hl;
    try discriminate; [constructor|].
  rewrite !fmap_cons in Hl. inversion Hl as [[Hb' Hl']].
  constructor; [|apply IH, Hl'].
  unfold newer_eq in *. rewrite <- Ha, <- Hb'. exact Hb.
Qed.

Lemma handed_out_dates (m : model) (w w' : world) (l shown : list object) :
  Forall2 (handed_out m w w') l shown ->
  Forall (fun d => is_Some (date_of d)) l ->
  date_of <$> shown = date_of <$> l.
Proof.
  induction 1 as [|d d' l l' Hd Hl IH]; intros Hall; [reflexivity|].
  apply Forall_cons in Hall. destruct Hall as [[ms Hms] Hall].
  rewrite !fmap_cons. rewrite (IH Hall).
  rewrite (handed_out_date _ _ _ _ _ _ Hd Hms), Hms. reflexivity.
Qed.

(** The three reads of the script: what they give when the store answers,
    and that they change nothing when it does not. *)
Lemma read_run (A B : Type) (f : database -> A) (k : A -> M B) (w : world) :
  answers w (ops w) = true ->
  (forall a w1, exists b w2, k a w1 = (Ok b, w2) /\ only_ticks w1 w2) ->
  exists b w1 w',
    one_read w w1 /\ ticks w1 = ticks w /\ k (f (db w)) w1 = (Ok b, w') /\
    only_ticks w1 w' /\
    (store (fun base => (f base, base)) ≫= k) w = (Ok b, w') /\ one_read w w'.
Proof.
  intros Ha Hk. rewrite store_then by exact Ha. cbn [fst snd].
  match goal with
  | |- context [k ?a ?w1] => destruct (Hk a w1) as (b & w' & Hrun & Ht); exists b, w1, w'
  end.
  pose proof Ht as (Hdb & Hcl & Han & Hops & Hco & Hob & Hti). cbn in *.
  unfold one_read. cbn. split_and!; try reflexivity; try assumption; lia.
Qed.

Lemma read_fails (A B : Type) (f : database -> A * database) (k : A -> M B) (w : world) :
  answers w (ops w) = false ->
  exists w', (store f ≫= k) w = (Throw StoreError, w') /\ one_read w w'.
Proof.
  intros Ha. rewrite store_fails by exact Ha. eexists. split; [reflexivity|].
  unfold one_read. cbn. split_and!; reflexivity || lia.
Qed.

Lemma hydrate_all_ticks (m : model) (l : list object) (w : world) :
  exists b w', hydrate_all m l w = (Ok b, w') /\ only_ticks w w'.
Proof. destruct (hydrate_all_run m l w) as (b & w' & H & Ht & _). eauto. Qed.

Lemma hydrate_one_ticks (m : model) (o : option object) (w : world) :
  exists b w', hydrate_one m o w = (Ok b, w') /\ only_ticks w w'.
Proof. destruct (hydrate_one_run m o w) as (b & w' & H & Ht & _). eauto. Qed.

Lemma listing_run (m : model) (w : world) :
  answers w (ops w) = true ->
  exists shown w',
    Model_find_sort_date_desc m w = (Ok shown, w') /\ one_read w w' /\
    listed m w w' (collection m (db w)) shown.
Proof.
  intros Ha. unfold Model_find_sort_date_desc.
  destruct (read_run _ _ (fun base => merge_sort newer_eq (collection m base))
              (hydrate_all m) w Ha (hydrate_all_ticks m))
    as (shown & w1 & w' & H1 & Hti & Hk & Ht & Hrun & Hr).
  exists shown, w'. split; [exact Hrun|]. split; [exact Hr|].
  exists (merge_sort newer_eq (collection m (db w))). split; [apply sort_newest_first|].
  destruct (hydrate_all_run m (merge_sort newer_eq (collection m (db w))) w1)
    as (shown' & w'' & Hk' & _ & Hf).
  rewrite Hk in Hk'. inversion Hk'; subst shown' w''. clear Hk'.
  eapply Forall2_impl; [exact Hf|]. intros x y Hxy.
  eapply handed_out_mono; [apply H1|lia|apply Nat.le_refl|exact Hxy].
Qed.

Lemma find_run (m : model) (w : world) :
  answers w (ops w) = true ->
  exists shown w',
    Model_find m w = (Ok shown, w') /\ one_read w w' /\
    Forall2 (handed_out m w w') (collection m (db w)) shown.
Proof.
  intros Ha. unfold Model_find.
  destruct (read_run _ _ (collection m) (hydrate_all m) w Ha (hydrate_all_ticks m))
    as (shown & w1 & w' & H1 & Hti & Hk & Ht & Hrun & Hr).
  exists shown, w'. split; [exact Hrun|]. split; [exact Hr|].
  destruct (hydrate_all_run m (collection m (db w)) w1) as (shown' & w'' & Hk' & _ & Hf).
  rewrite Hk in Hk'. inversion Hk'; subst shown' w''. clear Hk'.
  eapply Forall2_impl; [exact Hf|]. intros x y Hxy.
  eapply handed_out_mono; [apply H1|lia|apply Nat.le_refl|exact Hxy].
Qed.

Lemma findOne_run (m : model) (w : world) :
  answers w (ops w) = true ->
  exists v w',
    Model_findOne m w = (Ok v, w') /\ one_read w w' /\
    (exists w1, one_read w w1 /\ hydrate_one m (head (collection m (db w))) w1 = (Ok v, w')) /\
    match head (collection m (db w)) with
    | Some d => exists shown, v = VObj shown /\ handed_out m w w' d shown
    | None => v = VNull
    end.
Proof.
  intros Ha. unfold Model_findOne.
  destruct (read_run _ _ (fun base => head (collection m base)) (hydrate_one m) w Ha
              (hydrate_one_ticks m))
    as (v & w1 & w' & H1 & Hti & Hk & Ht & Hrun & Hr).
  exists v, w'. split; [exact Hrun|]. split; [exact Hr|]. split; [eauto|].
  destruct (hydrate_one_run m (head (collection m (db w))) w1) as (v' & w'' & Hk' & _ & Hv).
  rewrite Hk in Hk'. inversion Hk'; subst v' w''. clear Hk'.
  destruct (head (collection m (db w))); [|exact Hv].
  destruct Hv as (shown & -> & Hh). exists shown. split; [reflexivity|].
  eapply handed_out_mono; [apply H1|lia|apply Nat.le_refl|exact Hh].
Qed.

(** The dates of a listing. *)
Lemma listed_dates (m : model) (w w' : world) (stored shown : list object) :
  listed m w w' stored shown ->
  (Forall (fun d => is_Some (date_of d)) stored -> StronglySorted newer_eq shown) /\
  (forall a b c d1 d2 d3,
     date_of a = Some d1 -> date_of b = Some d2 -> date_of c = Some d3 ->
     d1 < d2 < d3 -> stored ≡ₚ [a; b; c] ->
     date_of <$> shown = [Some d3; Some d2; Some d1]).
Proof.
  intros (l & (Hperm & Hsorted & Hthree) & Hf). split.
  - intros Hall. rewrite <- Hperm in Hall.
    apply (dates_sorted l); [|exact Hsorted].
    symmetry. eapply handed_out_dates; eassumption.
  - intros a b c d1 d2 d3 Ha Hb Hc Hlt Hst.
    specialize (Hthree a b c d1 d2 d3 Ha Hb Hc Hlt Hst). subst l.
    rewrite (handed_out_dates _ _ _ _ _ Hf).
    + simpl. rewrite Ha, Hb, Hc. reflexivity.
    + repeat constructor; eauto.
Qed.

(** C6. When the store answers, GET /api/blogs and GET /api/contact (past
    the gate) answer with all the stored records of their kind, newest
    first, each as a read hands it out: the list is a rearrangement of the
    collection sorted by date descending; three records with dates
    D1 < D2 < D3 stored in any order are listed D3, D2, D1; and when every
    stored record has a date, the dates of the answer are in descending
    order. The store is left as it was. *)
Theorem lists_newest_first (req : request) (w : world) :
  answers w (ops w) = true ->
  (route req = Some GET_api_blogs ->
     exists shown w', serve req w = (Ok (res_json (documents shown)), w') /\
       db w' = db w /\ listed Blog w w' (blogs (db w)) shown /\
       (Forall (fun d => is_Some (date_of d)) (blogs (db w)) ->
          StronglySorted newer_eq shown) /\
       (forall a b c d1 d2 d3,
          date_of a = Some d1 -> date_of b = Some d2 -> date_of c = Some d3 ->
          d1 < d2 < d3 -> blogs (db w) ≡ₚ [a; b; c] ->
          date_of <$> shown = [Some d3; Some d2; Some d1])) /\
  (route req = Some GET_api_contact ->
     headers req !! "password" = ADMIN_PASSWORD process_env ->
     exists shown w', serve req w = (Ok (res_json (documents shown)), w') /\
       db w' = db w /\ listed Contact w w' (contacts (db w)) shown /\
       (Forall (fun d => is_Some (date_of d)) (contacts (db w)) ->
          StronglySorted newer_eq shown) /\
       (forall a b c d1 d2 d3,
          date_of a = Some d1 -> date_of b = Some d2 -> date_of c = Some d3 ->
          d1 < d2 < d3 -> contacts (db w) ≡ₚ [a; b; c] ->
          date_of <$> shown = [Some d3; Some d2; Some d1])).
Proof.
  intros Ha. split.
  - intros Hroute. unfold serve, run. rewrite Hroute. simpl.
    destruct (listing_run Blog w Ha) as (shown & w' & Hrun & (Hdb & _) & Hl).
    exists shown, w'. unfold get_api_blogs, try_catch, mbind, M_bind. rewrite Hrun.
    split; [reflexivity|]. split; [exact Hdb|]. split; [exact Hl|].
    exact (listed_dates _ _ _ _ _ Hl).
  - intros Hroute Hpw. rewrite (serve_authorized _ req w Hroute Hpw). simpl.
    destruct (listing_run Contact w Ha) as (shown & w' & Hrun & (Hdb & _) & Hl).
    exists shown, w'. unfold get_api_contact, try_catch, mbind, M_bind. rewrite Hrun.
    split; [reflexivity|]. split; [exact Hdb|]. split; [exact Hl|].
    exact (listed_dates _ _ _ _ _ Hl).
Qed.

(** ** The settings singleton *)

Lemma cast_doc_unset (sch : schema) (raw d : object) (p : string) :
  cast_doc sch raw = Some d -> unset raw p = true -> d !! p = None.
Proof.
  intros Hc Hu. destruct (cast_doc_lookup sch raw d Hc) as [Hout _].
  revert d Hc Hout. induction sch as [|[q t] rest IH]; intros d Hc Hout.
  - apply Hout. apply not_elem_of_nil.
  - simpl in Hc. destruct (cast_doc rest raw) as [d0|] eqn:Hrest; [|discriminate].
    simpl in Hc. destruct (cast_doc_lookup rest raw d0 Hrest) as [Hout0 _].
    specialize (IH d0 eq_refl Hout0).
    destruct (decide (q = p)) as [->|Hne].
    + unfold unset in Hu. destruct (raw !! p) as [[]|]; try discriminate;
        inversion Hc; subst; exact IH.
    + destruct (raw !! q) as [v|]; [|inversion Hc; subst; exact IH].
      destruct v; try (destruct (cast (ptype t) _); [|discriminate]; simpl in Hc;
        inversion Hc; subst; rewrite lookup_insert_ne by exact Hne; exact IH).
      inversion Hc; subst; exact IH.
Qed.

Lemma cast_doc_set (m : model) (raw d : object) (p : string) (s : path_spec) (v : value) :
  cast_doc (schema_of m) raw = Some d -> (p, s) ∈ schema_of m ->
  raw !! p = Some v -> v <> VUndefined ->
  exists v', cast (ptype s) v = Some v' /\ d !! p = Some v'.
Proof.
  intros Hc Hps Hv Hnu. destruct (cast_doc_lookup _ _ _ Hc) as [_ Hin].
  specialize (Hin (NoDup_schema m) p s Hps). unfold unset in Hin. rewrite Hv in Hin.
  destruct v; try (destruct Hin as (v1 & v' & Hv1 & Hcast & Hd);
    inversion Hv1; subst v1; eauto).
  contradiction.
Qed.

Lemma settings_defaults (upd dflt : object) (w w0 : world) (p : string) :
  apply_defaults upd SettingsSchema w = (Ok dflt, w0) -> unset upd p = true ->
  cast_each SettingsSchema dflt !! p =
    if bool_decide (p = "name") then Some (VStr "Vaibhav Kumar") else None.
Proof.
  intros Hd Hu.
  destruct (apply_defaults_run upd SettingsSchema w) as (dflt' & w0' & Hd' & _ & _ & Hin).
  rewrite Hd in Hd'. inversion Hd'; subst dflt' w0'. clear Hd'.
  destruct (cast_each_lookup SettingsSchema dflt) as [Hcout Hcin].
  destruct (decide (p ∈ SettingsSchema.*1)) as [Hel|Hnel].
  - apply list_elem_of_fmap in Hel. destruct Hel as ([p' s] & Heq & Hps).
    simpl in Heq. subst p'.
    rewrite (Hcin (NoDup_schema Settings) p s Hps).
    specialize (Hin (NoDup_schema Settings) p s Hps). rewrite Hu in Hin.
    repeat (apply elem_of_cons in Hps; destruct Hps as [Hps|Hps];
            [inversion Hps; subst; simpl in Hin; rewrite Hin; reflexivity|]).
    apply elem_of_nil in Hps. contradiction.
  - rewrite (Hcout p Hnel). rewrite bool_decide_eq_false_2; [reflexivity|].
    intros ->. apply Hnel. left.
Qed.

(** C7. PUT /api/settings past the gate, with a plain body whose fields
    cast and a store that answers, is answered 200 with the resulting
    record as a read hands it out. If a Settings record existed, the first
    one is replaced by the result and every field the body does not name
    keeps its stored value; if none existed, the result is created as the
    one record, with the default name where the body names none and nothing
    else beside the fields of the body. In both cases every declared field
    the body names holds the cast of the supplied value, and the other
    collections are untouched. *)
Theorem settings_upsert_merges (req : request) (b upd : object) (w : world) :
  route req = Some PUT_api_settings ->
  headers req !! "password" = ADMIN_PASSWORD process_env ->
  body req = Some b -> plain b = true -> cast_doc SettingsSchema b = Some upd ->
  answers w (ops w) = true ->
  exists (d shown : object) (w' : world),
    serve req w =
      (Ok (res_json (VObj (obj [("message", VStr "Settings updated");
                                ("settings", VObj shown)]))), w') /\
    handed_out Settings w w' d shown /\
    match settings (db w) with
    | old :: rest =>
        settings (db w') = d :: rest /\
        forall p, unset b p = true -> d !! p = old !! p
    | [] =>
        settings (db w') = [d] /\
        forall p, unset b p = true ->
          d !! p = if bool_decide (p = "name") then Some (VStr "Vaibhav Kumar") else None
    end /\
    (forall p s v, (p, s) ∈ SettingsSchema -> b !! p = Some v ->
       v <> VUndefined -> exists v', cast (ptype s) v = Some v' /\ d !! p = Some v') /\
    projects (db w') = projects (db w) /\
    blogs (db w') = blogs (db w) /\
    contacts (db w') = contacts (db w).
Proof.
  intros Hroute Hpw Hb Hp Hupd Ha.
  rewrite (serve_authorized _ req w Hroute Hpw). cbn [handler].
  destruct (Query_plain_run Settings Q_all Q_all b upd {| new := true; upsert := true |} w
              eq_refl Hp Hupd Ha)
    as (ins & o & w0 & w1 & v & w' & Hins & Ht0 & Hst & Hti & Hcl & _ & _ & _ & _ & _ &
        Hrun & Ht1 & Hv).
  cbn [upsert new collection] in Hins, Hst.
  destruct Hins as (dflt & Hd & ->).
  assert (Hset : forall d : object, (forall p, upd !! p = None \/ d !! p = upd !! p) ->
            forall p s v, (p, s) ∈ SettingsSchema -> b !! p = Some v ->
              v <> VUndefined -> exists v', cast (ptype s) v = Some v' /\ d !! p = Some v').
  { intros d Hdl p s x Hps Hv0 Hnu.
    destruct (cast_doc_set Settings _ _ p s x Hupd Hps Hv0 Hnu) as (v' & Hc & Hl).
    exists v'. split; [exact Hc|]. destruct (Hdl p) as [Hx|Hx]; congruence. }
  assert (Hleft : forall x p, upd !! p = None \/ (upd ∪ x) !! p = upd !! p).
  { intros x p. destruct (upd !! p) eqn:Hl; [right|left; reflexivity].
    apply lookup_union_Some_l. exact Hl. }
  assert (Hserve : put_api_settings req w =
            (Ok (res_json (VObj (obj [("message", VStr "Settings updated");
                                      ("settings", v)]))), w')).
  { unfold put_api_settings, try_catch, mbind, M_bind, Model_findOneAndUpdate.
    rewrite Hb, Hrun. reflexivity. }
  destruct Ht1 as (Hdb1 & _ & _ & _ & _ & _ & Hti1).
  destruct Ht0 as (_ & _ & _ & _ & _ & _ & Hti0).
  assert (Hmono : forall d shown, handed_out Settings w1 w' d shown ->
                    handed_out Settings w w' d shown).
  { intros d shown. apply handed_out_mono; [exact Hcl|lia|lia]. }
  destruct (settings (db w)) as [|old rest] eqn:Hold; cbn [update_first matches] in Hst;
    destruct Hst as [-> Hdbw]; destruct Hv as (shown & -> & Hh).
  - exists (upd ∪ cast_each SettingsSchema dflt), shown, w'.
    split; [exact Hserve|]. split; [apply Hmono, Hh|].
    rewrite Hdb1, Hdbw. cbn [settings projects blogs contacts with_collection collection app].
    split; [|split; [|auto]].
    + split; [reflexivity|]. intros p Hu.
      rewrite lookup_union_r by (eapply cast_doc_unset; eassumption).
      apply (settings_defaults upd dflt w w0 p Hd).
      unfold unset. rewrite (cast_doc_unset _ _ _ p Hupd Hu). reflexivity.
    + apply Hset, Hleft.
  - exists (upd ∪ old), shown, w'.
    split; [exact Hserve|]. split; [apply Hmono, Hh|].
    rewrite Hdb1, Hdbw. cbn [settings projects blogs contacts with_collection collection app].
    split; [|split; [|auto]].
    + split; [reflexivity|]. intros p Hu.
      apply lookup_union_r. eapply cast_doc_unset; eassumption.
    + apply Hset, Hleft.
Qed.

(** ** The notification *)

Lemma post_api_contact_run (req : request) (w : world) :
  (exists d w0 p w1,
     Model_create Contact (spread (body req) ∪ {["id" := VNum (clock w (ticks w))]}) (tick w)
       = (Ok d, w0) /\
     sendDiscordNotification d w0 = (Ok p, w1) /\
     post_api_contact req w =
       (Ok (res_json (VObj (obj [("message", VStr "Message sent successfully");
                                 ("contact", VObj d)])), p), w1)) \/
  (exists err w0,
     Model_create Contact (spread (body req) ∪ {["id" := VNum (clock w (ticks w))]}) (tick w)
       = (Throw err, w0) /\
     post_api_contact req w =
       (Ok (res_status_json 500 (message "Error sending message"), Settled), w0)).
Proof.
  unfold post_api_contact, try_catch, mbind, M_bind, Date_now.
  destruct (Model_create Contact _ (tick w)) as [[d|err] w0] eqn:Hc.
  - left. destruct (sendDiscordNotification_frame d w0) as (p & w1 & Hn & _).
    exists d, w0, p, w1. rewrite Hn. auto.
  - right. exists err, w0. auto.
Qed.

(** C8. With no webhook URL configured (unset or empty), the dispatcher
    returns at once and touches nothing, and a contact submission whose
    record is created answers with the success message and that record; the
    world is the one the creation left. *)
Theorem unconfigured_webhook_is_silent (req : request) (w : world) :
  DISCORD_WEBHOOK_URL process_env = None \/ DISCORD_WEBHOOK_URL process_env = Some "" ->
  (forall data w0, sendDiscordNotification data w0 = (Ok Settled, w0)) /\
  (route req = Some POST_api_contact ->
   forall d w0,
     Model_create Contact (spread (body req) ∪ {["id" := VNum (clock w (ticks w))]}) (tick w)
       = (Ok d, w0) ->
     serve req w =
       (Ok (res_json (VObj (obj [("message", VStr "Message sent successfully");
                                 ("contact", VObj d)]))), w0) /\
     forall dlv, contact_submission req dlv w = serve req w).
Proof.
  intros Hurl.
  assert (Hsilent : forall data w0, sendDiscordNotification data w0 = (Ok Settled, w0)).
  { intros data w0. unfold sendDiscordNotification.
    destruct Hurl as [-> | ->]; reflexivity. }
  split; [exact Hsilent|].
  intros Hroute d w0 Hc.
  assert (Hpost : post_api_contact req w =
            (Ok (res_json (VObj (obj [("message", VStr "Message sent successfully");
                                      ("contact", VObj d)])), Settled), w0)).
  { destruct (post_api_contact_run req w) as [(d' & w0' & p & w1 & Hc' & Hn & Hp)
                                              | (err & w0' & Hc' & _)];
      rewrite Hc in Hc'; [|discriminate].
    inversion Hc'; subst d' w0'. rewrite Hsilent in Hn. inversion Hn; subst p w1.
    exact Hp. }
  assert (Hserve : serve req w =
            (Ok (res_json (VObj (obj [("message", VStr "Message sent successfully");
                                      ("contact", VObj d)]))), w0)).
  { unfold serve, run. rewrite Hroute. simpl. unfold mbind, M_bind. rewrite Hpost.
    reflexivity. }
  split; [exact Hserve|].
  intros dlv. rewrite Hserve. unfold contact_submission, mbind, M_bind.
  rewrite Hpost. reflexivity.
Qed.

Lemma sendDiscordNotification_posts (u : string) (data : object) (w : world) :
  DISCORD_WEBHOOK_URL process_env = Some u -> u <> "" ->
  exists w', sendDiscordNotification data w = (Ok Pending, w') /\
    outbox w' = outbox w ++ [(u, embed data (clock w (ticks w)))] /\
    db w' = db w /\ console w' = console w.
Proof.
  intros Hu Hne. unfold sendDiscordNotification. rewrite Hu. simpl.
  rewrite bool_decide_eq_false_2 by exact Hne. simpl.
  eexists. split; [reflexivity|]. simpl. auto.
Qed.

(** C9. However the webhook request ends, a contact submission never throws
    and answers with what the handler had already answered (the success
    message and the created record whenever the record was created). With a
    webhook URL configured and the record created, the notification is on
    its way when the answer is out, and a delivery that fails (no answer, or
    a status outside 2xx) adds the one error line to the console; whatever
    the delivery, it changes neither the store nor anything else. *)
Theorem delivery_failure_is_swallowed (req : request) (dlv : delivery) (w : world) :
  exists r p w1 w2,
    post_api_contact req w = (Ok (r, p), w1) /\
    contact_submission req dlv w = (Ok r, w2) /\
    db w2 = db w1 /\ outbox w2 = outbox w1 /\ ticks w2 = ticks w1 /\ ops w2 = ops w1 /\
    console w2 =
      console w1 ++
        match p with
        | Pending => if rejected dlv then [Err "Discord Webhook Error:" AxiosError] else []
        | Settled => []
        end /\
    (forall d w0,
       Model_create Contact (spread (body req) ∪ {["id" := VNum (clock w (ticks w))]})
         (tick w) = (Ok d, w0) ->
       r = res_json (VObj (obj [("message", VStr "Message sent successfully");
                                ("contact", VObj d)])) /\
       forall u, DISCORD_WEBHOOK_URL process_env = Some u -> u <> "" ->
         p = Pending /\
         outbox w1 = outbox w ++ [(u, embed d (clock w0 (ticks w0)))] /\
         (rejected dlv = true ->
            console w2 = console w ++ [Err "Discord Webhook Error:" AxiosError]) /\
         (rejected dlv = false -> console w2 = console w)).
Proof.
  destruct (post_api_contact_run req w) as [(d & w0 & p & w1 & Hc & Hn & Hp)
                                            | (err & w0 & Hc & Hp)].
  - assert (Hsub : exists w2, contact_submission req dlv w =
                     (Ok (res_json (VObj (obj [("message", VStr "Message sent successfully");
                                               ("contact", VObj d)]))), w2) /\
              db w2 = db w1 /\ outbox w2 = outbox w1 /\ ticks w2 = ticks w1 /\
              ops w2 = ops w1 /\
              console w2 =
                console w1 ++
                  match p with
                  | Pending =>
                      if rejected dlv then [Err "Discord Webhook Error:" AxiosError] else []
                  | Settled => []
                  end).
    { unfold contact_submission, sendDiscordNotification_resume, mbind, M_bind.
      rewrite Hp. destruct p; [|destruct (rejected dlv)]; eexists;
        (split; [reflexivity|]); cbn [db outbox ticks ops console];
        split_and!; try reflexivity; rewrite app_nil_r; reflexivity. }
    destruct Hsub as (w2 & Hsub & Hdb & Hob & Hti & Hops & Hco).
    eexists _, p, w1, w2. split; [exact Hp|]. split; [exact Hsub|].
    split_and!; try assumption.
    intros d' w0' Hc'. rewrite Hc in Hc'. inversion Hc'; subst d' w0'. clear Hc'.
    split; [reflexivity|]. intros u Hu Hne.
    destruct (sendDiscordNotification_posts u d w0 Hu Hne) as (w1' & Hn' & Hob' & _ & Hco').
    rewrite Hn in Hn'. inversion Hn'; subst p w1'. clear Hn'.
    apply Model_create_Ok in Hc.
    destruct Hc as (_ & _ & _ & Hco0 & Hob0 & _). cbn [tick console outbox] in Hco0, Hob0.
    split; [reflexivity|]. split; [rewrite Hob', Hob0; reflexivity|].
    rewrite Hco, Hco', Hco0. split; intros ->; [reflexivity|apply app_nil_r].
  - eexists _, Settled, w0, _. split; [exact Hp|].
    unfold contact_submission, mbind, M_bind. rewrite Hp. cbn [db outbox ticks ops console].
    split_and!; try reflexivity; try (rewrite app_nil_r; reflexivity).
    intros d' w0' Hc'. rewrite Hc in Hc'. discriminate.
Qed.

(** ** Seeding *)

Lemma create_seed_document (w : world) :
  Model_create Settings seed_document w =
    store (fun base => (seed_document,
                        with_collection Settings (collection Settings base ++ [seed_document]) base)) w.
Proof. unfold Model_create, store. vm_compute. reflexivity. Qed.

Ltac seed_case :=
  repeat match goal with
         | H : _ /\ _ |- _ => destruct H
         | H : _ \/ _ |- _ => destruct H
         end;
  try discriminate; try contradiction; try congruence;
  split_and?; try reflexivity; try congruence.

(** C10. Seeding never throws. On a store that answers and holds no Settings
    record it creates exactly one, with the name Vaibhav Kumar and the fixed
    bio, email and address; on a store that holds one it changes nothing; when
    the store fails it changes nothing and writes one error line. *)
Theorem seeding (w : world) :
  exists w', seedDatabase w = (Ok tt, w') /\
    projects (db w') = projects (db w) /\ blogs (db w') = blogs (db w) /\
    contacts (db w') = contacts (db w) /\
    (answers w (ops w) = true -> settings (db w) = [] ->
     answers w (S (ops w)) = true ->
       settings (db w') = [seed_document] /\
       seed_document !! "name" = Some (VStr "Vaibhav Kumar") /\
       console w' = console w ++ [Log "Database seeded with default settings"]) /\
    (answers w (ops w) = true -> settings (db w) <> [] ->
       db w' = db w /\ console w' = console w) /\
    (answers w (ops w) = false \/
     (settings (db w) = [] /\ answers w (S (ops w)) = false) ->
       db w' = db w /\ console w' = console w ++ [Err "Seeding Error:" StoreError]).
Proof.
  unfold seedDatabase, try_catch, mbind, M_bind, Model_countDocuments.
  fold seed_document. unfold store at 1.
  destruct (answers w (ops w)) eqn:Ha0; cbn [collection db].
  - destruct (settings (db w)) as [|old rest] eqn:Hs; cbn [length].
    + rewrite bool_decide_eq_true_2 by reflexivity.
      rewrite create_seed_document. unfold store. cbn [answers ops db].
      destruct (answers w (S (ops w))) eqn:Ha1;
        (eexists; split; [reflexivity|]); simpl; rewrite ?Hs;
        split_and!; try reflexivity; intros; seed_case.
    + rewrite bool_decide_eq_false_2 by discriminate.
      eexists; split; [reflexivity|]; simpl; split_and!; try reflexivity;
        intros; seed_case.
  - eexists; split; [reflexivity|]; simpl; split_and!; try reflexivity;
      intros; seed_case.
Qed.

(** * Further properties of the handlers *)

(** ** What a failed operation leaves behind *)

Lemma Model_create_Throw (m : model) (raw : object) (w w' : world) (e : error) :
  Model_create m raw w = (Throw e, w') ->
  db w' = db w /\ console w' = console w /\ outbox w' = outbox w.
Proof.
  unfold Model_create. intros H.
  destruct (apply_defaults_run raw (schema_of m) w)
    as (dflt & w1 & Hd & (Hdb & _ & _ & _ & Hco & Hob & _) & _).
  unfold mbind, M_bind in H. rewrite Hd in H.
  destruct (cast_doc (schema_of m) (dflt ∪ raw)) as [d|];
    [|inversion H; subst; auto].
  destruct (validate (schema_of m) d && bookkeeping_accepted raw);
    [|inversion H; subst; auto].
  cbv zeta in H.
  unfold store in H. destruct (answers w1 (ops w1)); inversion H; subst. cbn. auto.
Qed.

Lemma store_try_fails (A B : Type) (f : database -> option (A * database)) (k : A -> M B)
    (w : world) :
  answers w (ops w) = false ->
  (store_try f ≫= k) w =
    (Throw StoreError,
     {| db := db w; clock := clock w; ticks := ticks w; answers := answers w;
        ops := S (ops w); console := console w; outbox := outbox w |}).
Proof. intros Ha. unfold mbind, M_bind, store_try. rewrite Ha. reflexivity. Qed.

(** An update that throws leaves the store, the console and the outbox as
    they were; and it throws whenever the store does not answer. *)
Lemma Query_findOneAndUpdate_Throw (m : model) (q : query) (u : object)
    (opts : update_options) (w : world) :
  exists o w', Query_findOneAndUpdate m q u opts w = (o, w') /\
    (forall e, o = Throw e ->
       db w' = db w /\ console w' = console w /\ outbox w' = outbox w) /\
    (answers w (ops w) = false -> exists e, o = Throw e).
Proof.
  unfold Query_findOneAndUpdate.
  destruct (cast_query m q) as [q'|]; [|eexists _, _; split; [reflexivity|]; eauto].
  destruct (plain u).
  - destruct (cast_doc (schema_of m) u) as [upd|];
      [|eexists _, _; split; [reflexivity|]; eauto].
    assert (Hins : exists ins w0,
              (if upsert opts
               then dflt ← apply_defaults upd (schema_of m);
                    mret (upd ∪ cast_each (schema_of m) dflt)
               else mret upd) w = (Ok ins, w0) /\ only_ticks w w0).
    { destruct (upsert opts).
      - destruct (apply_defaults_run upd (schema_of m) w) as (dflt & w0 & Hd & Ht & _).
        unfold mbind, M_bind. rewrite Hd. eexists _, w0. split; [reflexivity|exact Ht].
      - exists upd, w. split; [reflexivity|apply only_ticks_refl]. }
    destruct Hins as (ins & w0 & Hrun & (Hdb & _ & Han & Hops & Hco & Hob & _)).
    unfold mbind at 1, M_bind at 1. rewrite Hrun.
    destruct (answers w (ops w)) eqn:Ha.
    + rewrite store_then by (rewrite Han, Hops; exact Ha).
      match goal with
      | |- context [hydrate_one m ?o ?w1] =>
          destruct (hydrate_one_ticks m o w1) as (v & w2 & Hh & _)
      end.
      exists (Ok v), w2. split; [exact Hh|]. split; [discriminate|discriminate].
    + rewrite store_fails by (rewrite Han, Hops; exact Ha).
      eexists _, _. split; [reflexivity|]. cbn. eauto.
  - destruct (castOperators (schema_of m) u);
      [|eexists _, _; split; [reflexivity|]; eauto].
    destruct (answers w (ops w)) eqn:Ha.
    + rewrite store_try_then by exact Ha.
      match goal with
      | |- context [match ?x with _ => _ end] => destruct x as [[o base]|]
      end.
      * match goal with
        | |- context [hydrate_one m ?o ?w1] =>
            destruct (hydrate_one_ticks m o w1) as (v & w2 & Hh & _)
        end.
        exists (Ok v), w2. split; [exact Hh|]. split; [discriminate|discriminate].
      * eexists _, _. split; [reflexivity|]. cbn. split; [auto|discriminate].
    + rewrite store_try_fails by exact Ha.
      eexists _, _. split; [reflexivity|]. cbn. eauto.
Qed.

Lemma Model_findOneAndUpdate_Throw (m : model) (q : query) (update : option object)
    (opts : update_options) (w w' : world) (e : error) :
  Model_findOneAndUpdate m q update opts w = (Throw e, w') ->
  db w' = db w /\ console w' = console w /\ outbox w' = outbox w.
Proof.
  unfold Model_findOneAndUpdate. intros H.
  assert (Hq : forall u, Query_findOneAndUpdate m q u opts w = (Throw e, w') ->
                 db w' = db w /\ console w' = console w /\ outbox w' = outbox w).
  { intros u Hu. destruct (Query_findOneAndUpdate_Throw m q u opts w)
      as (o & w2 & Hrun & Hf & _).
    rewrite Hrun in Hu. inversion Hu; subst. eapply Hf. reflexivity. }
  destruct update as [u|]; [eapply Hq; eassumption|].
  destruct (upsert opts); [inversion H; subst; auto|eapply Hq; eassumption].
Qed.

Lemma Model_findOneAndUpdate_down (m : model) (q : query) (update : option object)
    (opts : update_options) (w : world) :
  answers w (ops w) = false ->
  exists w' e, Model_findOneAndUpdate m q update opts w = (Throw e, w').
Proof.
  intros Ha. unfold Model_findOneAndUpdate.
  assert (Hq : forall u, exists w' e, Query_findOneAndUpdate m q u opts w = (Throw e, w')).
  { intros u. destruct (Query_findOneAndUpdate_Throw m q u opts w)
      as (o & w2 & Hrun & _ & Hd).
    destruct (Hd Ha) as (e & ->). eauto. }
  destruct update as [u|]; [apply Hq|].
  destruct (upsert opts); [eexists _, _; reflexivity|apply Hq].
Qed.

Lemma Model_findOneAndDelete_Throw (m : model) (q : query) (w : world) :
  exists o w', Model_findOneAndDelete m q w = (o, w') /\
    (forall e, o = Throw e ->
       db w' = db w /\ console w' = console w /\ outbox w' = outbox w) /\
    (answers w (ops w) = false -> exists e, o = Throw e).
Proof.
  unfold Model_findOneAndDelete.
  destruct (cast_query m q) as [q'|]; [|eexists _, _; split; [reflexivity|]; eauto].
  destruct (answers w (ops w)) eqn:Ha.
  - rewrite store_then by exact Ha.
    match goal with
    | |- context [hydrate_one m ?o ?w1] =>
        destruct (hydrate_one_ticks m o w1) as (v & w2 & Hh & _)
    end.
    exists (Ok v), w2. split; [exact Hh|]. split; [discriminate|discriminate].
  - rewrite store_fails by exact Ha.
    eexists _, _. split; [reflexivity|]. cbn. eauto.
Qed.

Lemma Model_findOneAndDelete_frame (m : model) (q : query) (w w' : world) (e : error) :
  Model_findOneAndDelete m q w = (Throw e, w') ->
  db w' = db w /\ console w' = console w /\ outbox w' = outbox w.
Proof.
  intros H. destruct (Model_findOneAndDelete_Throw m q w) as (o & w2 & Hrun & Hf & _).
  rewrite Hrun in H. inversion H; subst. eapply Hf. reflexivity.
Qed.

(** A read leaves the store as it was, whether or not the store answers. *)
Lemma read_db (A B : Type) (f : database -> A) (k : A -> M B) (w : world) :
  (forall a w1, exists b w2, k a w1 = (Ok b, w2) /\ only_ticks w1 w2) ->
  exists o w', (store (fun base => (f base, base)) ≫= k) w = (o, w') /\ one_read w w' /\
    (answers w (ops w) = true -> exists b, o = Ok b) /\
    (answers w (ops w) = false -> o = Throw StoreError).
Proof.
  intros Hk. destruct (answers w (ops w)) eqn:Ha.
  - destruct (read_run _ _ f k w Ha Hk) as (b & w1 & w' & _ & _ & _ & _ & Hrun & Hr).
    exists (Ok b), w'. split; [exact Hrun|]. split; [exact Hr|].
    split; [eauto|discriminate].
  - destruct (read_fails _ _ (fun base => (f base, base)) k w Ha) as (w' & Hrun & Hr).
    exists (Throw StoreError), w'. split; [exact Hrun|]. split; [exact Hr|].
    split; [discriminate|reflexivity].
Qed.

Lemma sorted_listing_db (m : model) (w : world) :
  db (Model_find_sort_date_desc m w).2 = db w.
Proof.
  destruct (read_db _ _ (fun base => merge_sort newer_eq (collection m base))
              (hydrate_all m) w (hydrate_all_ticks m)) as (o & w' & Hrun & (Hdb & _) & _).
  change (Model_find_sort_date_desc m w = (o, w')) in Hrun. rewrite Hrun. exact Hdb.
Qed.

Lemma get_api_data_db (req : request) (w : world) :
  db (get_api_data req w).2 = db w /\ exists r, (get_api_data req w).1 = Ok r.
Proof.
  assert (H : exists r w', get_api_data req w = (Ok r, w') /\ db w' = db w).
  { unfold get_api_data, try_catch.
    destruct (read_db _ _ (fun base => head (collection Settings base))
                (hydrate_one Settings) w (hydrate_one_ticks Settings))
      as (o1 & w1 & Hrun1 & (Hdb1 & _) & _).
    change (Model_findOne Settings w = (o1, w1)) in Hrun1.
    unfold mbind at 1, M_bind at 1. rewrite Hrun1.
    destruct o1 as [v1|e1];
      [|unfold console_error, console_write, mbind, M_bind, mret, M_ret;
        eexists _, _; split; [reflexivity|exact Hdb1]].
    destruct (read_db _ _ (collection Project)
                (hydrate_all Project) w1 (hydrate_all_ticks Project))
      as (o2 & w2 & Hrun2 & (Hdb2 & _) & _).
    change (Model_find Project w1 = (o2, w2)) in Hrun2.
    unfold mbind at 1, M_bind at 1. rewrite Hrun2.
    destruct o2 as [v2|e2];
      [|unfold console_error, console_write, mbind, M_bind, mret, M_ret;
        eexists _, _; split; [reflexivity|cbn [db]; congruence]].
    destruct (read_db _ _ (fun base => merge_sort newer_eq (collection Blog base))
                (hydrate_all Blog) w2 (hydrate_all_ticks Blog))
      as (o3 & w3 & Hrun3 & (Hdb3 & _) & _).
    change (Model_find_sort_date_desc Blog w2 = (o3, w3)) in Hrun3.
    unfold mbind at 1, M_bind at 1. rewrite Hrun3.
    destruct o3 as [v3|e3];
      unfold console_error, console_write, mbind, M_bind, mret, M_ret;
      eexists _, _; (split; [reflexivity|cbn [db]; congruence]). }
  destruct H as (r & w' & -> & Hdb). split; [exact Hdb|]. exists r. reflexivity.
Qed.

(** X1. A request that is not answered with status 200 leaves every
    collection as it was: a refused, failed or unrouted request has no
    effect on the store. *)
Theorem failure_changes_nothing (req : request) (w w' : world) (r : response) :
  serve req w = (Ok r, w') -> status r <> 200 -> db w' = db w.
Proof.
  unfold serve, run. intros H Hs.
  destruct (route req) as [e|]; [|inversion H; subst; reflexivity].
  assert (Hh : handler e req w = (Ok r, w') -> db w' = db w).
  { clear H. intros H. destruct e; simpl in H.
    - pose proof (get_api_data_db req w) as [Hdb _]. rewrite H in Hdb. exact Hdb.
    - unfold put_api_settings, try_catch, mbind, M_bind in H.
      destruct (Model_findOneAndUpdate _ _ _ _ w) as [[v|err] w1] eqn:Hu.
      + inversion H; subst. contradiction Hs. reflexivity.
      + inversion H; subst. eapply Model_findOneAndUpdate_Throw; eassumption.
    - unfold post_api_projects, try_catch, mbind, M_bind, Date_now in H.
      destruct (Model_create _ _ (tick w)) as [[v|err] w1] eqn:Hu.
      + inversion H; subst. contradiction Hs. reflexivity.
      + inversion H; subst. apply Model_create_Throw in Hu. tauto.
    - unfold put_api_projects_id, try_catch, mbind, M_bind in H.
      destruct (Model_findOneAndUpdate _ _ _ _ w) as [[v|err] w1] eqn:Hu.
      + inversion H; subst. contradiction Hs. reflexivity.
      + inversion H; subst. eapply Model_findOneAndUpdate_Throw; eassumption.
    - unfold delete_api_projects_id, try_catch, mbind, M_bind in H.
      destruct (Model_findOneAndDelete _ _ w) as [[v|err] w1] eqn:Hu.
      + inversion H; subst. contradiction Hs. reflexivity.
      + inversion H; subst. eapply Model_findOneAndDelete_frame; eassumption.
    - pose proof (sorted_listing_db Blog w) as Hdb.
      unfold get_api_blogs, try_catch, mbind, M_bind in H.
      destruct (Model_find_sort_date_desc Blog w) as [[v|err] w1];
        inversion H; subst; exact Hdb.
    - unfold post_api_blogs, try_catch, mbind, M_bind, Date_now in H.
      destruct (Model_create _ _ (tick w)) as [[v|err] w1] eqn:Hu.
      + inversion H; subst. contradiction Hs. reflexivity.
      + inversion H; subst. apply Model_create_Throw in Hu. tauto.
    - unfold delete_api_blogs_id, try_catch, mbind, M_bind in H.
      destruct (Model_findOneAndDelete _ _ w) as [[v|err] w1] eqn:Hu.
      + inversion H; subst. contradiction Hs. reflexivity.
      + inversion H; subst. eapply Model_findOneAndDelete_frame; eassumption.
    - destruct (post_api_contact_run req w) as [(d & w0 & p & w1 & Hc & Hn & Hp)
                                                | (err & w0 & Hc & Hp)];
        unfold mbind, M_bind in H; rewrite Hp in H; inversion H; subst.
      + contradiction Hs. reflexivity.
      + apply Model_create_Throw in Hc. tauto.
    - pose proof (sorted_listing_db Contact w) as Hdb.
      unfold get_api_contact, try_catch, mbind, M_bind in H.
      destruct (Model_find_sort_date_desc Contact w) as [[v|err] w1];
        inversion H; subst; exact Hdb.
    - unfold post_api_login in H. destruct (body req); [|discriminate].
      destruct (strict_equals _ _); inversion H; subst; reflexivity. }
  destruct (protected e); [|auto].
  destruct (auth req); [auto|]. inversion H; subst. reflexivity.
Qed.

(** ** Throwing and failing *)

Lemma handler_answers (e : endpoint) (req : request) (w : world) :
  e <> POST_api_login -> exists r w', handler e req w = (Ok r, w').
Proof.
  intros Hne. destruct e; try contradiction; simpl.
  - destruct (get_api_data_db req w) as [_ [r Hr]].
    destruct (get_api_data req w) as [o w']. simpl in Hr. subst o. eauto.
  - unfold put_api_settings, try_catch, mbind, M_bind.
    destruct (Model_findOneAndUpdate _ _ _ _ w) as [[v|err] w1]; eauto.
  - unfold post_api_projects, try_catch, mbind, M_bind, Date_now.
    destruct (Model_create _ _ (tick w)) as [[v|err] w1]; eauto.
  - unfold put_api_projects_id, try_catch, mbind, M_bind.
    destruct (Model_findOneAndUpdate _ _ _ _ w) as [[v|err] w1]; eauto.
  - unfold delete_api_projects_id, try_catch, mbind, M_bind.
    destruct (Model_findOneAndDelete _ _ w) as [[v|err] w1]; eauto.
  - unfold get_api_blogs, try_catch, mbind, M_bind.
    destruct (Model_find_sort_date_desc Blog w) as [[v|err] w1]; eauto.
  - unfold post_api_blogs, try_catch, mbind, M_bind, Date_now.
    destruct (Model_create _ _ (tick w)) as [[v|err] w1]; eauto.
  - unfold delete_api_blogs_id, try_catch, mbind, M_bind.
    destruct (Model_findOneAndDelete _ _ w) as [[v|err] w1]; eauto.
  - unfold mbind, M_bind.
    destruct (post_api_contact_run req w) as [(d & w0 & p & w1 & _ & _ & Hp)
                                              | (err & w0 & _ & Hp)];
      rewrite Hp; eauto.
  - unfold get_api_contact, try_catch, mbind, M_bind.
    destruct (Model_find_sort_date_desc Contact w) as [[v|err] w1]; eauto.
Qed.

(** X2. The only request that throws out of its handler is a login without
    a body: destructuring the missing body is a TypeError, raised before
    anything is read or written. Every other request is answered. *)
Theorem only_login_throws (req : request) (w w' : world) (err : error) :
  serve req w = (Throw err, w') ->
  route req = Some POST_api_login /\ body req = None /\ err = TypeError /\ w' = w.
Proof.
  unfold serve, run. intros H.
  destruct (route req) as [e|]; [|discriminate].
  assert (Hh : handler e req w = (Throw err, w') ->
               e = POST_api_login /\ body req = None /\ err = TypeError /\ w' = w).
  { clear H. intros H.
    assert (He : e = POST_api_login \/ e <> POST_api_login)
      by (destruct e; (left; reflexivity) || (right; discriminate)).
    destruct He as [->|Hne].
    - simpl in H. unfold post_api_login in H. destruct (body req).
      + destruct (strict_equals _ _); discriminate.
      + inversion H; subst. auto.
    - destruct (handler_answers e req w Hne) as (r & w1 & Hr). congruence. }
  destruct (protected e) eqn:Hp.
  - destruct (auth req); [|discriminate].
    destruct (Hh H) as (-> & _). discriminate.
  - destruct (Hh H) as (-> & ? & ? & ?). auto.
Qed.

(** X3. While the store does not answer, every route but the login answers
    500 with the fixed message of its [catch] block (a protected route once
    past the gate, a public one whatever the request carries), and the store
    is left as it was. *)
Theorem store_down_answers_500 (e : endpoint) (req : request) (w : world) :
  answers w (ops w) = false ->
  route req = Some e -> e <> POST_api_login ->
  (protected e = true -> headers req !! "password" = ADMIN_PASSWORD process_env) ->
  exists w', serve req w = (Ok (res_status_json 500 (message (failure_message e))), w') /\
    db w' = db w.
Proof.
  intros Ha Hroute Hne Hpw. rewrite (serve_handler e req w Hroute Hpw).
  assert (Hread : forall (A B : Type) (f : database -> A * database) (k : A -> M B)
                    (h : error -> M response) (g : B -> response) (r : response),
            (forall err w0, h err w0 = (Ok r, w0)) ->
            exists w', try_catch (x ← (store f ≫= k); mret (g x)) h w = (Ok r, w') /\
              db w' = db w).
  { intros A B f k h g r Hh. destruct (read_fails _ _ f k w Ha) as (w' & Hrun & (Hdb & _)).
    exists w'. unfold try_catch. unfold mbind at 1, M_bind at 1. rewrite Hrun.
    split; [apply Hh|exact Hdb]. }
  assert (Hupd : forall m q opts (g : value -> response) h r,
            (forall err w0, h err w0 = (Ok r, w0)) ->
            exists w', try_catch (x ← Model_findOneAndUpdate m q (body req) opts; mret (g x))
                         h w = (Ok r, w') /\ db w' = db w).
  { intros m q opts g h r Hh.
    destruct (Model_findOneAndUpdate_down m q (body req) opts w Ha) as (w' & err & Hrun).
    exists w'. unfold try_catch, mbind, M_bind. rewrite Hrun.
    split; [apply Hh|]. eapply Model_findOneAndUpdate_Throw; eassumption. }
  assert (Hdel : forall m q (g : value -> response) h r,
            (forall err w0, h err w0 = (Ok r, w0)) ->
            exists w', try_catch (x ← Model_findOneAndDelete m q; mret (g x))
                         h w = (Ok r, w') /\ db w' = db w).
  { intros m q g h r Hh.
    destruct (Model_findOneAndDelete_Throw m q w) as (o & w' & Hrun & Hf & Hd).
    destruct (Hd Ha) as (err & ->).
    exists w'. unfold try_catch, mbind, M_bind. rewrite Hrun.
    split; [apply Hh|]. eapply Hf; reflexivity. }
  assert (Hcreate : forall m raw, exists err w',
            Model_create m raw (tick w) = (Throw err, w') /\ db w' = db w).
  { intros m raw. destruct (Model_create m raw (tick w)) as [[d|err] w'] eqn:Hc.
    - apply Model_create_Ok in Hc. cbn [tick answers ops] in Hc.
      destruct Hc as (_ & _ & _ & _ & _ & Hb & _). congruence.
    - exists err, w'. split; [reflexivity|]. apply Model_create_Throw in Hc. apply Hc. }
  destruct e; try contradiction; cbn [handler failure_message].
  - unfold get_api_data, try_catch.
    destruct (read_fails _ _ (fun base => (head (collection Settings base), base))
                (hydrate_one Settings) w Ha) as (w' & Hrun & (Hdb & _)).
    change (Model_findOne Settings w = (Throw StoreError, w')) in Hrun.
    unfold mbind at 1, M_bind at 1. rewrite Hrun.
    eexists. split; [reflexivity|exact Hdb].
  - apply (Hupd Settings Q_all {| new := true; upsert := true |}
             (fun settings => res_json (VObj (obj [("message", VStr "Settings updated");
                                                   ("settings", settings)])))).
    reflexivity.
  - unfold post_api_projects, try_catch, mbind, M_bind, Date_now.
    destruct (Hcreate Project (spread (body req) ∪ {["id" := VNum (clock w (ticks w))]}))
      as (err & w' & Hc & Hdb).
    rewrite Hc. eexists. split; [reflexivity|exact Hdb].
  - apply (Hupd Project (Q_id (VStr id)) {| new := false; upsert := false |}
             (fun _ => res_json (message "Project updated"))).
    reflexivity.
  - apply (Hdel Project (Q_id (VStr id)) (fun _ => res_json (message "Project deleted"))).
    reflexivity.
  - apply (Hread _ _ (fun base => (merge_sort newer_eq (collection Blog base), base))
             (hydrate_all Blog) _ (fun blogs => res_json (documents blogs))).
    reflexivity.
  - unfold post_api_blogs, try_catch, mbind, M_bind, Date_now.
    destruct (Hcreate Blog (spread (body req) ∪ {["id" := VNum (clock w (ticks w))]}))
      as (err & w' & Hc & Hdb).
    rewrite Hc. eexists. split; [reflexivity|exact Hdb].
  - apply (Hdel Blog (Q_id (VStr id)) (fun _ => res_json (message "Blog deleted"))).
    reflexivity.
  - unfold mbind, M_bind.
    destruct (post_api_contact_run req w) as [(d & w0 & p & w1 & Hc & _ & _)
                                              | (err & w0 & Hc & Hp)].
    + destruct (Hcreate Contact (spread (body req) ∪ {["id" := VNum (clock w (ticks w))]}))
        as (err & w' & Hc' & _).
      rewrite Hc in Hc'. discriminate.
    + rewrite Hp. eexists. split; [reflexivity|]. apply Model_create_Throw in Hc. apply Hc.
  - apply (Hread _ _ (fun base => (merge_sort newer_eq (collection Contact base), base))
             (hydrate_all Contact) _ (fun messages => res_json (documents messages))).
    reflexivity.
Qed.

(** ** Logging in *)

(** X4. A login with a body never touches the world. With a secret
    configured it answers the token exactly when the body's password is
    that very string, and otherwise 401 with the message Invalid password:
    a missing password, or one that is not a string, is refused. *)
Theorem login_checks_password (req : request) (b : object) (s : string) (w : world) :
  route req = Some POST_api_login -> body req = Some b ->
  ADMIN_PASSWORD process_env = Some s ->
  (b !! "password" = Some (VStr s) ->
     serve req w = (Ok (res_json (VObj (obj [("success", VBool true);
                                             ("token", VStr "admin-token")]))), w)) /\
  (b !! "password" <> Some (VStr s) ->
     serve req w = (Ok (res_status_json 401
                          (VObj (obj [("success", VBool false);
                                      ("message", VStr "Invalid password")]))), w)).
Proof.
  intros Hroute Hb Hs. unfold serve, run. rewrite Hroute. simpl.
  unfold post_api_login, prop. rewrite Hb, Hs. split; intros Hpw.
  - rewrite Hpw. simpl. rewrite bool_decide_eq_true_2 by reflexivity. reflexivity.
  - assert (Hf : strict_equals (default VUndefined (b !! "password")) (VStr s) = false).
    { destruct (b !! "password") as [[]|]; simpl; try reflexivity.
      apply bool_decide_eq_false_2. congruence. }
    simpl. rewrite Hf. reflexivity.
Qed.

(** ** Reading *)

Lemma route_GET (req : request) (e : endpoint) :
  verb req = GET -> route req = Some e ->
  e = GET_api_data \/ e = GET_api_blogs \/ e = GET_api_contact.
Proof.
  unfold route. intros -> H.
  repeat case_match; simplify_eq; auto.
Qed.

(** X5. A GET request never changes the store, whatever it is answered. *)
Theorem get_reads_only (req : request) (w : world) :
  verb req = GET -> db (serve req w).2 = db w.
Proof.
  intros Hv. unfold serve, run.
  destruct (route req) as [e|] eqn:Hroute; [|reflexivity].
  assert (Hh : db (handler e req w).2 = db w).
  { destruct (route_GET req e Hv Hroute) as [-> | [-> | ->]]; simpl.
    - apply get_api_data_db.
    - pose proof (sorted_listing_db Blog w) as Hdb.
      unfold get_api_blogs, try_catch, mbind, M_bind.
      destruct (Model_find_sort_date_desc Blog w) as [[v|err] w1]; exact Hdb.
    - pose proof (sorted_listing_db Contact w) as Hdb.
      unfold get_api_contact, try_catch, mbind, M_bind.
      destruct (Model_find_sort_date_desc Contact w) as [[v|err] w1]; exact Hdb. }
  destruct (protected e); [|exact Hh].
  destruct (auth req); [exact Hh|reflexivity].
Qed.

(** X6. A route registered without [auth] answers the same whatever headers
    the request carries: no handler reads a credential itself. *)
Theorem public_routes_ignore_headers (e : endpoint) (h : gmap string string)
    (req : request) (w : world) :
  route req = Some e -> protected e = false ->
  serve (with_headers h req) w = serve req w.
Proof.
  intros Hroute Hp. unfold serve, run.
  change (route (with_headers h req)) with (route req).
  rewrite Hroute, Hp. destruct e; try discriminate; reflexivity.
Qed.

(** ** Deleting and updating a record that exists *)

Lemma delete_found (m : model) (id : string) (n : Z) (w : world)
    (l1 l2 : list object) (d : object) :
  m = Project \/ m = Blog -> id <> "" -> StringToNumber id = Some n ->
  answers w (ops w) = true ->
  collection m (db w) = l1 ++ d :: l2 -> absent n l1 -> d !! "id" = Some (VNum n) ->
  exists v w', Model_findOneAndDelete m (Q_id (VStr id)) w = (Ok v, w') /\
    db w' = with_collection m (l1 ++ l2) (db w).
Proof.
  intros Hm Hne Hn Ha Hl Habs Hd.
  destruct (delete_handler m id n w Hm Hne Hn Ha) as (v & w' & Hrun & Hdb).
  exists v, w'. split; [exact Hrun|]. rewrite Hdb, Hl.
  rewrite (delete_first_found n l1 l2 d Habs Hd). reflexivity.
Qed.

(** X7. Deleting a Project or a Blog by an id that records have removes the
    first record with that id and nothing else: the records before and
    after it stay, in order, and the other collections are untouched. The
    answer is the fixed message, without the record. *)
Theorem delete_removes_first (id : string) (n : Z) (req : request) (w : world)
    (l1 l2 : list object) (d : object) :
  id <> "" -> StringToNumber id = Some n ->
  headers req !! "password" = ADMIN_PASSWORD process_env ->
  answers w (ops w) = true ->
  absent n l1 -> d !! "id" = Some (VNum n) ->
  (route req = Some (DELETE_api_projects_id id) -> projects (db w) = l1 ++ d :: l2 ->
     exists w', serve req w = (Ok (res_json (message "Project deleted")), w') /\
       projects (db w') = l1 ++ l2 /\ settings (db w') = settings (db w) /\
       blogs (db w') = blogs (db w) /\ contacts (db w') = contacts (db w)) /\
  (route req = Some (DELETE_api_blogs_id id) -> blogs (db w) = l1 ++ d :: l2 ->
     exists w', serve req w = (Ok (res_json (message "Blog deleted")), w') /\
       blogs (db w') = l1 ++ l2 /\ settings (db w') = settings (db w) /\
       projects (db w') = projects (db w) /\ contacts (db w') = contacts (db w)).
Proof.
  intros Hne Hn Hpw Ha Habs Hd. split; intros Hroute Hl;
    rewrite (serve_authorized _ req w Hroute Hpw); simpl.
  - destruct (delete_found Project id n w l1 l2 d (or_introl eq_refl) Hne Hn Ha Hl Habs Hd)
      as (v & w' & Hrun & Hdb).
    exists w'. unfold delete_api_projects_id, try_catch, mbind, M_bind. rewrite Hrun.
    split; [reflexivity|]. rewrite Hdb. cbn [with_collection projects blogs settings contacts]. auto.
  - destruct (delete_found Blog id n w l1 l2 d (or_intror eq_refl) Hne Hn Ha Hl Habs Hd)
      as (v & w' & Hrun & Hdb).
    exists w'. unfold delete_api_blogs_id, try_catch, mbind, M_bind. rewrite Hrun.
    split; [reflexivity|]. rewrite Hdb. cbn [with_collection projects blogs settings contacts]. auto.
Qed.

(** X8. Updating a Project by an id that records have, with a plain body
    whose fields cast, rewrites the first record with that id and nothing
    else: it holds the cast fields of the body and keeps every field the
    body does not name. The answer is the fixed message, without the
    record. *)
Theorem update_rewrites_first (id : string) (n : Z) (req : request) (w : world)
    (l1 l2 : list object) (d upd : object) :
  id <> "" -> StringToNumber id = Some n ->
  headers req !! "password" = ADMIN_PASSWORD process_env ->
  answers w (ops w) = true ->
  route req = Some (PUT_api_projects_id id) ->
  plain (spread (body req)) = true ->
  cast_doc ProjectSchema (spread (body req)) = Some upd ->
  projects (db w) = l1 ++ d :: l2 -> absent n l1 -> d !! "id" = Some (VNum n) ->
  exists w', serve req w = (Ok (res_json (message "Project updated")), w') /\
    projects (db w') = l1 ++ (upd ∪ d) :: l2 /\
    (forall p, unset (spread (body req)) p = true -> (upd ∪ d) !! p = d !! p) /\
    (forall p v, upd !! p = Some v -> (upd ∪ d) !! p = Some v) /\
    settings (db w') = settings (db w) /\
    blogs (db w') = blogs (db w) /\ contacts (db w') = contacts (db w).
Proof.
  intros Hne Hn Hpw Ha Hroute Hplain Hupd Hl Habs Hd.
  rewrite (serve_authorized _ req w Hroute Hpw). cbn [handler].
  destruct (proj1 (update_handler id n req w Hne Hn Ha) upd Hplain Hupd)
    as (w' & Hrun & Hdb).
  exists w'. split; [exact Hrun|]. rewrite Hdb, Hl.
  rewrite (update_first_found n _ l1 l2 d Habs Hd).
  cbn [with_collection projects blogs settings contacts].
  split; [reflexivity|]. split; [|split; [|auto]].
  - intros p Hu. apply lookup_union_r. eapply cast_doc_unset; eassumption.
  - intros p v Hp. apply lookup_union_Some_l. exact Hp.
Qed.

(** ** Creating without a required field *)

(** X9. A create whose body leaves unset a path that the schema requires
    (the title of a Project, the title or the content of a Blog) is
    answered 500 with the message of the route, and stores nothing. *)
Theorem create_needs_required (e : endpoint) (m : model) (key p : string)
    (s : path_spec) (req : request) (w : world) :
  route req = Some e -> creates e = Some (m, key) ->
  headers req !! "password" = ADMIN_PASSWORD process_env ->
  (p, s) ∈ schema_of m -> required s = true -> p <> "id" ->
  unset (spread (body req)) p = true ->
  exists w', serve req w = (Ok (res_status_json 500 (message (failure_message e))), w') /\
    db w' = db w.
Proof.
  intros Hroute He Hpw Hps Hreq Hne Hu.
  assert (Hno : forall d w0,
            Model_create m (spread (body req) ∪ {["id" := VNum (clock w (ticks w))]}) (tick w)
              <> (Ok d, w0)).
  { intros d w0 Hc. apply Model_create_Ok in Hc.
    destruct Hc as (_ & _ & _ & _ & _ & _ & Hv & _ & Hin & _).
    pose proof (Hv p s Hps Hreq) as Hck.
    specialize (Hin p s Hps). unfold unset in Hin, Hu.
    rewrite (spread_id_lookup _ _ _ Hne) in Hin.
    assert (Hdef : default_of s = NoDefault).
    { destruct e; try discriminate; inversion He; subst m key;
        repeat (apply elem_of_cons in Hps; destruct Hps as [Hps|Hps];
                [inversion Hps; subst; try discriminate; try reflexivity|]);
        try (apply elem_of_nil in Hps; contradiction). }
    destruct (spread (body req) !! p) as [[]|]; try discriminate;
      destruct Hin as (o & Hg & Hd); rewrite Hdef in Hg; simpl in Hg; subst o;
      simpl in Hd; rewrite Hd in Hck; destruct (ptype s); discriminate. }
  rewrite (serve_authorized _ req w Hroute Hpw).
  destruct e; try discriminate; inversion He; subst m key; simpl.
  - unfold post_api_projects, try_catch, mbind, M_bind, Date_now.
    destruct (Model_create _ _ (tick w)) as [[v|err] w1] eqn:Hc;
      [exfalso; eapply Hno; reflexivity|].
    eexists. split; [reflexivity|]. apply Model_create_Throw in Hc. tauto.
  - unfold post_api_blogs, try_catch, mbind, M_bind, Date_now.
    destruct (Model_create _ _ (tick w)) as [[v|err] w1] eqn:Hc;
      [exfalso; eapply Hno; reflexivity|].
    eexists. split; [reflexivity|]. apply Model_create_Throw in Hc. tauto.
  - unfold mbind, M_bind.
    destruct (post_api_contact_run req w) as [(d & w0 & q & w1 & Hc & _ & _)
                                              | (err & w0 & Hc & Hp)];
      [exfalso; eapply Hno; exact Hc|].
    rewrite Hp. eexists. split; [reflexivity|]. apply Model_create_Throw in Hc. tauto.
Qed.

(** ** The notification that is sent *)

(** X10. With a webhook URL configured, a contact submission that is
    answered 200 hands exactly one request to axios, addressed to that URL
    and built from the record it stored and answered with; a submission that
    is answered otherwise hands over none. Neither writes to the console. *)
Theorem contact_posts_one_notification (u : string) (req : request) (w w' : world)
    (r : response) :
  DISCORD_WEBHOOK_URL process_env = Some u -> u <> "" ->
  route req = Some POST_api_contact ->
  serve req w = (Ok r, w') ->
  console w' = console w /\
  (status r = 200 ->
     exists d t, json r = VObj (obj [("message", VStr "Message sent successfully");
                                     ("contact", VObj d)]) /\
       contacts (db w') = contacts (db w) ++ [d] /\
       outbox w' = outbox w ++ [(u, embed d t)]) /\
  (status r <> 200 -> outbox w' = outbox w).
Proof.
  intros Hu Hne Hroute H. unfold serve, run in H. rewrite Hroute in H. simpl in H.
  unfold mbind, M_bind in H.
  destruct (post_api_contact_run req w) as [(d & w0 & p & w1 & Hc & Hn & Hp)
                                            | (err & w0 & Hc & Hp)];
    rewrite Hp in H; inversion H; subst; clear H.
  - destruct (sendDiscordNotification_posts u d w0 Hu Hne) as (w2 & Hn' & Hob & Hdb & Hco).
    rewrite Hn in Hn'. inversion Hn'; subst p w2. clear Hn'.
    apply Model_create_Ok in Hc.
    destruct Hc as (Hdb0 & _ & _ & Hco0 & Hob0 & _). simpl in Hdb0, Hco0, Hob0.
    split; [congruence|]. split; [|intros Hs; contradiction Hs; reflexivity].
    intros _. exists d, (clock w0 (ticks w0)). split; [reflexivity|].
    split; [rewrite Hdb, Hdb0; reflexivity|]. congruence.
  - apply Model_create_Throw in Hc. simpl in Hc. destruct Hc as (_ & Hco & Hob).
    split; [exact Hco|]. split; [intros Hs; discriminate|]. intros _. exact Hob.
Qed.

(** ** Seeding again *)

Lemma seedDatabase_empty (w : world) :
  answers w (ops w) = true -> answers w (S (ops w)) = true -> settings (db w) = [] ->
  exists w', seedDatabase w = (Ok tt, w') /\ settings (db w') = [seed_document] /\
    answers w' = answers w.
Proof.
  intros Ha0 Ha1 Hs. unfold seedDatabase, try_catch, mbind, M_bind, Model_countDocuments.
  fold seed_document. unfold store at 1. rewrite Ha0. cbn [collection]. rewrite Hs.
  cbn [length]. rewrite bool_decide_eq_true_2 by reflexivity.
  rewrite create_seed_document. unfold store. cbn [answers ops]. rewrite Ha1.
  eexists. split; [reflexivity|]. simpl. rewrite Hs. auto.
Qed.

Lemma seedDatabase_kept (w : world) :
  answers w (ops w) = true -> settings (db w) <> [] ->
  exists w', seedDatabase w = (Ok tt, w') /\ db w' = db w /\ answers w' = answers w.
Proof.
  intros Ha Hs. unfold seedDatabase, try_catch, mbind, M_bind, Model_countDocuments, store.
  rewrite Ha. cbn [collection]. destruct (settings (db w)); [contradiction|].
  cbn [length]. rewrite bool_decide_eq_false_2 by discriminate.
  eexists. split; [reflexivity|]. auto.
Qed.

(** X11. On a store that answers, seeding leaves at least one Settings
    record, and seeding a second time changes nothing. *)
Theorem seeding_twice (w : world) :
  (forall n, answers w n = true) ->
  settings (db (seedDatabase w).2) <> [] /\
  db (seedDatabase (seedDatabase w).2).2 = db (seedDatabase w).2.
Proof.
  intros Ha.
  assert (H1 : exists w1, seedDatabase w = (Ok tt, w1) /\ settings (db w1) <> [] /\
                 answers w1 = answers w).
  { destruct (settings (db w)) as [|old rest] eqn:Hs.
    - destruct (seedDatabase_empty w (Ha _) (Ha _) Hs) as (w1 & Hr & Hs1 & Ha1).
      exists w1. rewrite Hs1. split; [exact Hr|]. split; [discriminate|exact Ha1].
    - destruct (seedDatabase_kept w (Ha _)) as (w1 & Hr & Hdb & Ha1);
        [rewrite Hs; discriminate|].
      exists w1. rewrite Hdb, Hs. split; [exact Hr|]. split; [discriminate|exact Ha1]. }
  destruct H1 as (w1 & Hr & Hs1 & Ha1). rewrite Hr. simpl.
  split; [exact Hs1|].
  destruct (seedDatabase_kept w1) as (w2 & Hr2 & Hdb & _);
    [rewrite Ha1; apply Ha | exact Hs1 |].
  rewrite Hr2. exact Hdb.
Qed.

(** ** Reading back what was written *)

Lemma get_api_data_run (req : request) (w w1 w2 w3 : world) (v1 : value)
    (v2 v3 : list object) :
  Model_findOne Settings w = (Ok v1, w1) ->
  Model_find Project w1 = (Ok v2, w2) ->
  Model_find_sort_date_desc Blog w2 = (Ok v3, w3) ->
  get_api_data req w =
    (Ok (res_json (VObj (obj [("settings", v1); ("projects", documents v2);
                              ("blogs", documents v3)]))), w3).
Proof.
  intros H1 H2 H3. unfold get_api_data, try_catch, mbind, M_bind.
  rewrite H1, H2, H3. reflexivity.
Qed.

(** X12. When the store answers its three reads, GET /api/data answers 200
    with the first Settings record (or null when there is none), the
    Projects in stored order and the Blogs newest first, each record as a
    read hands it out, and changes nothing. *)
Theorem data_snapshot (req : request) (w : world) :
  route req = Some GET_api_data ->
  answers w (ops w) = true -> answers w (S (ops w)) = true ->
  answers w (S (S (ops w))) = true ->
  exists r w', serve req w = (Ok r, w') /\ status r = 200 /\ db w' = db w /\
    console w' = console w /\
    (exists v, answer_field r "settings" = Some v /\
       match head (settings (db w)) with
       | Some d => exists shown, v = VObj shown /\ handed_out Settings w w' d shown
       | None => v = VNull
       end) /\
    (exists shown, answer_field r "projects" = Some (documents shown) /\
       Forall2 (handed_out Project w w') (projects (db w)) shown) /\
    (exists shown, answer_field r "blogs" = Some (documents shown) /\
       listed Blog w w' (blogs (db w)) shown).
Proof.
  intros Hroute H0 H1 H2. unfold serve, run. rewrite Hroute. cbn [protected handler].
  destruct (findOne_run Settings w H0) as (v1 & w1 & Hr1 & Ho1 & _ & Hv1).
  pose proof Ho1 as (Hdb1 & Hcl1 & Han1 & Hops1 & Hco1 & _ & Hti1).
  destruct (find_run Project w1) as (v2 & w2 & Hr2 & Ho2 & Hv2);
    [rewrite Han1, Hops1; exact H1|].
  pose proof Ho2 as (Hdb2 & Hcl2 & Han2 & Hops2 & Hco2 & _ & Hti2).
  destruct (listing_run Blog w2) as (v3 & w3 & Hr3 & Ho3 & (l & Hl & Hv3));
    [rewrite Han2, Hops2, Han1, Hops1; exact H2|].
  pose proof Ho3 as (Hdb3 & Hcl3 & Han3 & Hops3 & Hco3 & _ & Hti3).
  eexists _, w3. split; [apply (get_api_data_run req w w1 w2 w3); eassumption|].
  split; [reflexivity|]. split; [congruence|]. split; [congruence|].
  split; [|split].
  - exists v1. split; [reflexivity|]. cbn [collection] in Hv1.
    destruct (head (settings (db w))); [|exact Hv1].
    destruct Hv1 as (shown & -> & Hh). exists shown. split; [reflexivity|].
    apply (handed_out_mono Settings w w1 w w3); [reflexivity|apply Nat.le_refl|lia|exact Hh].
  - exists v2. split; [reflexivity|]. cbn [collection] in Hv2. rewrite Hdb1 in Hv2.
    eapply Forall2_impl; [exact Hv2|]. intros x y Hxy.
    apply (handed_out_mono Project w1 w2 w w3); [exact Hcl1|exact Hti1|lia|exact Hxy].
  - exists v3. split; [reflexivity|]. exists l. cbn [collection] in Hl.
    rewrite Hdb2, Hdb1 in Hl. split; [exact Hl|].
    eapply Forall2_impl; [exact Hv3|]. intros x y Hxy.
    apply (handed_out_mono Blog w2 w3 w w3); [congruence|lia|apply Nat.le_refl|exact Hxy].
Qed.

(** Defaults that do not read the clock leave the world as it is. *)
Lemma apply_defaults_pure (raw : object) (sch : schema) :
  (forall p s, (p, s) ∈ sch -> default_of s <> DefaultNow) ->
  exists dflt, forall w, apply_defaults raw sch w = (Ok dflt, w).
Proof.
  induction sch as [|[q t] rest IH]; intros Hno.
  - exists ∅. reflexivity.
  - destruct IH as (ds & Hds); [intros p s Hps; apply (Hno p s); right; exact Hps|].
    assert (Hq : exists o, forall w, default_for raw q t w = (Ok o, w)).
    { unfold default_for. destruct (unset raw q); [|exists None; reflexivity].
      destruct (default_of t) as [|v|] eqn:Hd.
      - exists None. reflexivity.
      - exists (Some v). reflexivity.
      - exfalso. apply (Hno q t); [left|exact Hd]. }
    destruct Hq as (o & Ho). eexists. intros w. cbn [apply_defaults].
    unfold mbind, M_bind. rewrite Ho, Hds. reflexivity.
Qed.

(** The defaults of Settings do not read the clock: a Settings record is
    handed out the same whenever it is read. *)
Lemma hydrate_settings (d : object) :
  exists shown, forall w, hydrate Settings d w = (Ok shown, w).
Proof.
  destruct (apply_defaults_pure d (schema_of Settings)) as (dflt & Hd).
  - intros p s Hps. cbn [schema_of] in Hps.
    repeat (apply elem_of_cons in Hps; destruct Hps as [Hps|Hps];
            [inversion Hps; subst; discriminate|]).
    apply elem_of_nil in Hps. contradiction.
  - eexists. intros w. unfold hydrate, mbind, M_bind. rewrite Hd. reflexivity.
Qed.

(** What the upsert of Settings returns when it returns: the record now at
    the head of the collection, handed out. *)
Lemma settings_update_Ok (update : option object) (w w' : world) (v : value) :
  Model_findOneAndUpdate Settings Q_all update {| new := true; upsert := true |} w
    = (Ok v, w') ->
  exists d shown, v = VObj shown /\ head (settings (db w')) = Some d /\
    forall w0, hydrate Settings d w0 = (Ok shown, w0).
Proof.
  intros H. unfold Model_findOneAndUpdate in H. destruct update as [u|]; [|discriminate].
  assert (Ha : answers w (ops w) = true).
  { destruct (answers w (ops w)) eqn:Ha; [reflexivity|].
    destruct (Query_findOneAndUpdate_Throw Settings Q_all u {| new := true; upsert := true |} w)
      as (o & w2 & Hrun & _ & Hd).
    destruct (Hd Ha) as (e & ->). congruence. }
  assert (Hfin : forall d w1, hydrate_one Settings (Some d) w1 = (Ok v, w') ->
            head (settings (db w1)) = Some d ->
            exists d shown, v = VObj shown /\ head (settings (db w')) = Some d /\
              forall w0, hydrate Settings d w0 = (Ok shown, w0)).
  { intros d w1 Hh Hhd. destruct (hydrate_settings d) as (shown & Hs).
    cbn [hydrate_one] in Hh. unfold mbind, M_bind in Hh. rewrite Hs in Hh.
    inversion Hh; subst. eauto. }
  pose proof H as H0.
  unfold Query_findOneAndUpdate in H. cbn [cast_query] in H.
  destruct (plain u) eqn:Hp.
  - destruct (cast_doc (schema_of Settings) u) as [upd|] eqn:Hc; [|discriminate].
    clear H.
    destruct (Query_plain_run Settings Q_all Q_all u upd {| new := true; upsert := true |} w
                eq_refl Hp Hc Ha)
      as (ins & o & w0 & w1 & v' & w'' & _ & _ & Hst & _ & _ & _ & _ & _ & _ & Hh & Hrun & _).
    rewrite Hrun in H0. inversion H0; subst v' w''. clear H0.
    cbn [collection upsert new] in Hst.
    destruct (settings (db w)) as [|old rest]; cbn [update_first matches] in Hst;
      destruct Hst as [-> Hdb1]; apply (Hfin _ w1 Hh); rewrite Hdb1; reflexivity.
  - clear H0. destruct (castOperators (schema_of Settings) u); [|discriminate].
    rewrite store_try_then in H by exact Ha. cbn [collection upsert new] in H.
    destruct (settings (db w)) as [|old rest] eqn:Hold; cbn [split_first matches] in H.
    + destruct (applyOperators (schema_of Settings) u None) as [ins|];
        cbn [mbind option_bind] in H; [|discriminate].
      apply (Hfin ins _ H). reflexivity.
    + destruct (applyOperators (schema_of Settings) u (Some old)) as [new_doc|];
        cbn [mbind option_bind] in H; [|discriminate].
      apply (Hfin new_doc _ H). reflexivity.
Qed.

Lemma put_api_settings_Ok (req : request) (w w' : world) (r : response) :
  put_api_settings req w = (Ok r, w') -> status r = 200 ->
  exists d shown,
    json r = VObj (obj [("message", VStr "Settings updated"); ("settings", VObj shown)]) /\
    head (settings (db w')) = Some d /\
    forall w0, hydrate Settings d w0 = (Ok shown, w0).
Proof.
  intros H Hs. unfold put_api_settings, try_catch, mbind, M_bind in H.
  destruct (Model_findOneAndUpdate _ _ _ _ w) as [[v|err] w1] eqn:Hu;
    [|inversion H; subst; discriminate].
  inversion H; subst. clear H.
  destruct (settings_update_Ok _ _ _ _ Hu) as (d & shown & -> & Hhd & Hh).
  exists d, shown. split; [reflexivity|]. split; assumption.
Qed.

(** X13. The Settings record that a successful PUT /api/settings answers
    with is the one that GET /api/data serves next. *)
Theorem settings_round_trip (put get : request) (w w1 : world) (r : response) :
  route put = Some PUT_api_settings ->
  serve put w = (Ok r, w1) -> status r = 200 ->
  route get = Some GET_api_data ->
  answers w1 (ops w1) = true -> answers w1 (S (ops w1)) = true ->
  answers w1 (S (S (ops w1))) = true ->
  exists d r2 w2,
    answer_field r "settings" = Some (VObj d) /\
    serve get w1 = (Ok r2, w2) /\ status r2 = 200 /\
    answer_field r2 "settings" = Some (VObj d).
Proof.
  intros Hput H Hs Hget H0 H1 H2.
  apply (serve_200 _ _ _ _ _ Hput) in H; [|exact Hs]. cbn [handler] in H.
  destruct (put_api_settings_Ok put w w1 r H Hs) as (d & shown & Hj & Hhd & Hh).
  exists shown. unfold serve, run. rewrite Hget. cbn [protected handler].
  destruct (findOne_run Settings w1 H0) as (v1 & w2 & Hr1 & Ho1 & (w1' & _ & Hk) & _).
  pose proof Ho1 as (Hdb1 & Hcl1 & Han1 & Hops1 & Hco1 & _ & Hti1).
  cbn [collection] in Hk. rewrite Hhd in Hk. cbn [hydrate_one] in Hk.
  unfold mbind, M_bind in Hk. rewrite Hh in Hk. inversion Hk; subst v1 w1'. clear Hk.
  destruct (find_run Project w2) as (v2 & w3 & Hr2 & Ho2 & _);
    [rewrite Han1, Hops1; exact H1|].
  pose proof Ho2 as (Hdb2 & Hcl2 & Han2 & Hops2 & Hco2 & _ & Hti2).
  destruct (listing_run Blog w3) as (v3 & w4 & Hr3 & _);
    [rewrite Han2, Hops2, Han1, Hops1; exact H2|].
  eexists _, w4. split; [unfold answer_field; rewrite Hj; reflexivity|].
  split; [apply (get_api_data_run get w1 w2 w3 w4); eassumption|].
  split; reflexivity.
Qed.

(** X14. A Blog that was just created is among the records that
    GET /api/blogs lists next, and the list has grown by that one record. *)
Theorem created_blog_is_listed (post get : request) (w w1 : world) (r : response) :
  route post = Some POST_api_blogs ->
  serve post w = (Ok r, w1) -> status r = 200 ->
  route get = Some GET_api_blogs -> answers w1 (ops w1) = true ->
  exists d l w2,
    answer_field r "blog" = Some (VObj d) /\
    serve get w1 = (Ok (res_json (documents l)), w2) /\
    d ∈ l /\ length l = S (length (blogs (db w))).
Proof.
  intros Hpost H Hs Hget Ha.
  apply (serve_200 _ _ _ _ _ Hpost) in H; [|exact Hs].
  destruct (created_record POST_api_blogs Blog "blog" post w w1 r eq_refl H Hs)
    as (d & (o & Hj & Ho) & Hdb & _ & _ & _ & _ & _ & _ & Hcomplete).
  destruct (listing_run Blog w1 Ha) as (shown & w2 & Hrun & _ & (l & (Hperm & _) & Hf)).
  exists d, shown, w2.
  split; [unfold answer_field; rewrite Hj; exact Ho|].
  split.
  { unfold serve, run. rewrite Hget. cbn [protected handler].
    unfold get_api_blogs, try_catch, mbind, M_bind. rewrite Hrun. reflexivity. }
  rewrite Hdb, collection_with_collection in Hperm. cbn [collection] in Hperm.
  split.
  - assert (Hin : d ∈ l) by (rewrite Hperm; apply elem_of_app; right; left).
    apply list_elem_of_lookup in Hin. destruct Hin as (i & Hi).
    destruct (Forall2_lookup_l _ _ _ _ _ Hf Hi) as (d' & Hi' & Hh).
    rewrite (handed_out_complete _ _ _ _ _ Hcomplete Hh) in Hi'.
    eapply list_elem_of_lookup_2. exact Hi'.
  - rewrite <- (Forall2_length _ _ _ Hf), Hperm, length_app. cbn [length]. lia.
Qed.

Lemma with_collection_twice (m : model) (l l' : list object) (base : database) :
  with_collection m l (with_collection m l' base) = with_collection m l base.
Proof. destruct m; reflexivity. Qed.

Lemma with_collection_same (m : model) (base : database) :
  with_collection m (collection m base) base = base.
Proof. destruct m, base; reflexivity. Qed.

(** X15. Creating a Project and then deleting it by its id gives back the
    store as it was, provided the id is new to the collection and the path
    parameter reads as that id. *)
Theorem create_then_delete (post del : request) (id : string) (w w1 : world)
    (r : response) :
  route post = Some POST_api_projects ->
  serve post w = (Ok r, w1) -> status r = 200 ->
  spread (body post) !! "id" = None ->
  absent (clock w (ticks w)) (projects (db w)) ->
  id <> "" -> StringToNumber id = Some (clock w (ticks w)) ->
  route del = Some (DELETE_api_projects_id id) ->
  headers del !! "password" = ADMIN_PASSWORD process_env ->
  answers w1 (ops w1) = true ->
  exists w2, serve del w1 = (Ok (res_json (message "Project deleted")), w2) /\
    db w2 = db w.
Proof.
  intros Hpost H Hs Hnoid Habs Hne Hn Hdel Hpw Ha.
  apply (serve_200 _ _ _ _ _ Hpost) in H; [|exact Hs].
  destruct (created_record POST_api_projects Project "project" post w w1 r eq_refl H Hs)
    as (d & _ & Hdb & _ & _ & Hid & _).
  specialize (Hid Hnoid).
  assert (Hl : collection Project (db w1) = projects (db w) ++ d :: [])
    by (rewrite Hdb; reflexivity).
  destruct (delete_found Project id _ w1 _ [] d (or_introl eq_refl) Hne Hn Ha Hl Habs Hid)
    as (v & w2 & Hrun & Hdb2).
  exists w2. rewrite (serve_authorized _ del w1 Hdel Hpw). cbn [handler].
  unfold delete_api_projects_id, try_catch, mbind, M_bind. rewrite Hrun.
  split; [reflexivity|]. rewrite Hdb2, Hdb, with_collection_twice, app_nil_r.
  apply (with_collection_same Project).
Qed.

(** ** The allow-list of origins *)

(** X16. The origins handed to [cors] are the three fixed ones and, when
    FRONTEND_URL is set and not empty, that URL; an unset or empty
    FRONTEND_URL leaves no [undefined] or empty entry in the list. *)
Theorem cors_origin_entries (FRONTEND_URL : option string) (v : value) :
  In v (cors_origin FRONTEND_URL) <->
  exists s, v = VStr s /\
    (s = "http://localhost:5173" \/ s = "http://127.0.0.1:5173" \/
     s = "https://portfolio-frontend-self-six.vercel.app" \/
     (FRONTEND_URL = Some s /\ s <> "")).
Proof.
  unfold cors_origin. rewrite filter_In. split.
  - intros [Hin Ht]. simpl in Hin.
    destruct Hin as [<-|[<-|[<-|[<-|[]]]]]; eauto 6.
    destruct FRONTEND_URL as [s|]; simpl in Ht; [|discriminate].
    exists s. split; [reflexivity|]. do 3 right. split; [reflexivity|].
    intros ->. discriminate.
  - intros (s & -> & [->|[->|[->|[-> Hne]]]]); simpl; (split; [auto 6|]);
      try reflexivity.
    rewrite bool_decide_eq_false_2 by exact Hne. reflexivity.
Qed.

(** ** The store holds conforming records only *)

Lemma cast_doc_conforms (m : model) (raw d : object) :
  cast_doc (schema_of m) raw = Some d -> conforms m d.
Proof.
  intros Hc p v Hp. destruct (cast_doc_lookup _ _ _ Hc) as [Hout Hin].
  destruct (decide (p ∈ (schema_of m).*1)) as [Hel|Hnel];
    [|rewrite (Hout p Hnel) in Hp; discriminate].
  apply list_elem_of_fmap in Hel. destruct Hel as ([p' s] & Heq & Hps).
  simpl in Heq. subst p'. exists s. split; [exact Hps|].
  specialize (Hin (NoDup_schema m) p s Hps).
  destruct (unset raw p) eqn:Hu; [congruence|].
  destruct Hin as (v0 & v' & Hv0 & Hcast & Hd).
  assert (v' = v) by congruence. subst v'.
  apply (cast_stored (ptype s) v0 v); [|exact Hcast].
  intros ->. unfold unset in Hu. rewrite Hv0 in Hu. discriminate.
Qed.

Lemma cast_each_conforms (m : model) (raw : object) :
  conforms m (cast_each (schema_of m) raw).
Proof.
  intros p v Hp. destruct (cast_each_lookup (schema_of m) raw) as [Hout Hin].
  destruct (decide (p ∈ (schema_of m).*1)) as [Hel|Hnel];
    [|rewrite (Hout p Hnel) in Hp; discriminate].
  apply list_elem_of_fmap in Hel. destruct Hel as ([p' s] & Heq & Hps).
  simpl in Heq. subst p'. exists s. split; [exact Hps|].
  rewrite (Hin (NoDup_schema m) p s Hps) in Hp.
  destruct (raw !! p) as [x|]; [|discriminate]. simpl in Hp.
  apply (cast_stored (ptype s) x v); [intros ->; discriminate|].
  destruct x; try exact Hp. discriminate.
Qed.

Lemma conforms_union (m : model) (a b : object) :
  conforms m a -> conforms m b -> conforms m (a ∪ b).
Proof.
  intros Ha Hb p v Hp. apply lookup_union_Some_raw in Hp.
  destruct Hp as [Hp|[_ Hp]]; eauto.
Qed.

Lemma collection_with_other (m m0 : model) (l : list object) (base : database) :
  m0 <> m -> collection m0 (with_collection m l base) = collection m0 base.
Proof. destruct m, m0; intros H; try contradiction; reflexivity. Qed.

Lemma well_stored_with (m : model) (l : list object) (base : database) :
  well_stored base -> (m <> Contact -> forall d, d ∈ l -> conforms m d) ->
  well_stored (with_collection m l base).
Proof.
  intros Hb Hl m0 d Hm0 Hd.
  assert (He : m0 = m \/ m0 <> m)
    by (destruct m, m0; (left; reflexivity) || (right; discriminate)).
  destruct He as [->|Hne].
  - rewrite collection_with_collection in Hd. auto.
  - rewrite (collection_with_other _ _ _ _ Hne) in Hd. apply Hb; assumption.
Qed.

Lemma update_first_elements (q : query) (f : object -> object) (l l' : list object)
    (old nw : object) :
  update_first q f l = Some (old, nw, l') ->
  forall x, x ∈ l' -> x ∈ l \/ exists y, y ∈ l /\ x = f y.
Proof.
  revert l' old nw. induction l as [|d l IH]; intros l' old nw H x Hx; [discriminate|].
  cbn [update_first] in H. destruct (matches q d).
  - inversion H; subst. apply elem_of_cons in Hx. destruct Hx as [->|Hx].
    + right. eexists. split; [left|reflexivity].
    + left. right. exact Hx.
  - destruct (update_first q f l) as [[[o n] r]|] eqn:Hu; [|discriminate].
    simpl in H. inversion H; subst. apply elem_of_cons in Hx. destruct Hx as [->|Hx].
    + left. left.
    + destruct (IH _ _ _ eq_refl x Hx) as [Hin|(y & Hy & ->)].
      * left. right. exact Hin.
      * right. exists y. split; [right; exact Hy|reflexivity].
Qed.

Lemma delete_first_elements (q : query) (l l' : list object) (old : object) :
  delete_first q l = Some (old, l') -> forall x, x ∈ l' -> x ∈ l.
Proof.
  revert l' old. induction l as [|d l IH]; intros l' old H x Hx; [discriminate|].
  cbn [delete_first] in H. destruct (matches q d).
  - inversion H; subst. right. exact Hx.
  - destruct (delete_first q l) as [[o r]|] eqn:Hu; [|discriminate].
    simpl in H. inversion H; subst. apply elem_of_cons in Hx. destruct Hx as [->|Hx].
    + left.
    + right. eapply IH; [reflexivity|exact Hx].
Qed.

Lemma Model_create_well_stored (m : model) (raw : object) (w : world) :
  well_stored (db w) -> well_stored (db (Model_create m raw w).2).
Proof.
  intros Hw. unfold Model_create.
  destruct (apply_defaults_run raw (schema_of m) w) as (dflt & w1 & Hd & (Hdb & _) & _).
  unfold mbind, M_bind. rewrite Hd.
  destruct (cast_doc (schema_of m) (dflt ∪ raw)) as [d|] eqn:Hc;
    [|unfold throw; cbn [snd db]; rewrite Hdb; exact Hw].
  destruct (validate (schema_of m) d && bookkeeping_accepted raw);
    [|unfold throw; cbn [snd db]; rewrite Hdb; exact Hw].
  cbv zeta. unfold store. destruct (answers w1 (ops w1)); cbn [snd db]; rewrite Hdb;
    [|exact Hw].
  apply well_stored_with; [exact Hw|]. intros Hm x Hx.
  apply elem_of_app in Hx. destruct Hx as [Hx|Hx]; [apply (Hw m); assumption|].
  apply list_elem_of_singleton in Hx. subst x.
  destruct m; try contradiction; cbn [strict_of]; eapply cast_doc_conforms; eassumption.
Qed.

Lemma Query_findOneAndUpdate_well_stored (m : model) (q : query) (u : object)
    (opts : update_options) (w : world) :
  plain u = true -> well_stored (db w) ->
  well_stored (db (Query_findOneAndUpdate m q u opts w).2).
Proof.
  intros Hp Hw.
  destruct (Query_findOneAndUpdate_Throw m q u opts w) as (o & w' & Hrun & Hf & Hd).
  destruct o as [v|e]; [|rewrite Hrun; cbn [snd]; rewrite (proj1 (Hf e eq_refl)); exact Hw].
  assert (Ha : answers w (ops w) = true).
  { destruct (answers w (ops w)); [reflexivity|]. destruct (Hd eq_refl). discriminate. }
  destruct (cast_query m q) as [q'|] eqn:Hq;
    [|rewrite Query_findOneAndUpdate_rejects in Hrun by (left; exact Hq); discriminate].
  destruct (cast_doc (schema_of m) u) as [upd|] eqn:Hc;
    [|rewrite Query_findOneAndUpdate_rejects in Hrun
        by (right; unfold update_accepted; rewrite Hp, Hc; reflexivity); discriminate].
  pose proof (cast_doc_conforms m _ _ Hc) as Hcu.
  destruct (Query_plain_run m q q' u upd opts w Hq Hp Hc Ha)
    as (ins & o & w0 & w1 & v' & w'' & Hins & _ & Hst & _ & _ & _ & _ & _ & _ & _ & Hrun' &
        (Hdb' & _) & _).
  rewrite Hrun'. cbn [snd]. rewrite Hdb'.
  assert (Hci : conforms m ins).
  { destruct (upsert opts).
    - destruct Hins as (dflt & _ & ->).
      apply conforms_union; [exact Hcu|apply cast_each_conforms].
    - destruct Hins as [_ ->]. exact Hcu. }
  destruct (update_first q' _ (collection m (db w))) as [[[old nw] l]|] eqn:Hu.
  - destruct Hst as [_ ->]. apply well_stored_with; [exact Hw|]. intros Hm x Hx.
    destruct (update_first_elements _ _ _ _ _ _ Hu x Hx) as [Hin|(y & Hy & ->)].
    + apply (Hw m); assumption.
    + apply conforms_union; [exact Hcu|apply (Hw m); assumption].
  - destruct (upsert opts); destruct Hst as [_ ->]; [|exact Hw].
    apply well_stored_with; [exact Hw|]. intros Hm x Hx.
    apply elem_of_app in Hx. destruct Hx as [Hx|Hx]; [apply (Hw m); assumption|].
    apply list_elem_of_singleton in Hx. subst x. exact Hci.
Qed.

Lemma Model_findOneAndUpdate_well_stored (m : model) (q : query) (update : option object)
    (opts : update_options) (w : world) :
  plain (spread update) = true -> well_stored (db w) ->
  well_stored (db (Model_findOneAndUpdate m q update opts w).2).
Proof.
  intros Hp Hw. unfold Model_findOneAndUpdate. destruct update as [u|].
  - apply Query_findOneAndUpdate_well_stored; assumption.
  - destruct (upsert opts); [exact Hw|].
    apply Query_findOneAndUpdate_well_stored; assumption.
Qed.

Lemma Model_findOneAndDelete_well_stored (m : model) (q : query) (w : world) :
  well_stored (db w) -> well_stored (db (Model_findOneAndDelete m q w).2).
Proof.
  intros Hw. unfold Model_findOneAndDelete.
  destruct (cast_query m q) as [q'|]; [|exact Hw].
  destruct (answers w (ops w)) eqn:Ha.
  - rewrite store_then by exact Ha.
    match goal with
    | |- context [hydrate_one m ?o ?w1] =>
        destruct (hydrate_one_ticks m o w1) as (v & w2 & Hh & (Hdb & _))
    end.
    rewrite Hh. cbn [snd]. rewrite Hdb. cbn [db].
    destruct (delete_first q' (collection m (db w))) as [[old l]|] eqn:Hd; cbn [snd];
      [|exact Hw].
    apply well_stored_with; [exact Hw|]. intros Hm x Hx.
    apply (Hw m); [exact Hm|]. eapply delete_first_elements; eassumption.
  - rewrite store_fails by exact Ha. exact Hw.
Qed.

Lemma handler_well_stored (e : endpoint) (req : request) (w : world) :
  (updating e = true -> plain (spread (body req)) = true) ->
  well_stored (db w) -> well_stored (db (handler e req w).2).
Proof.
  intros Hp Hw. destruct e; cbn [handler].
  - destruct (get_api_data_db req w) as [Hdb _]. rewrite Hdb. exact Hw.
  - pose proof (Model_findOneAndUpdate_well_stored Settings Q_all (body req)
                  {| new := true; upsert := true |} w (Hp eq_refl) Hw) as H.
    unfold put_api_settings, try_catch, mbind, M_bind.
    destruct (Model_findOneAndUpdate _ _ _ _ w) as [[v|err] w1]; exact H.
  - pose proof (Model_create_well_stored Project
                  (spread (body req) ∪ {["id" := VNum (clock w (ticks w))]}) (tick w) Hw) as H.
    unfold post_api_projects, try_catch, mbind, M_bind, Date_now.
    destruct (Model_create _ _ (tick w)) as [[v|err] w1]; exact H.
  - pose proof (Model_findOneAndUpdate_well_stored Project (Q_id (VStr id)) (body req)
                  {| new := false; upsert := false |} w (Hp eq_refl) Hw) as H.
    unfold put_api_projects_id, try_catch, mbind, M_bind.
    destruct (Model_findOneAndUpdate _ _ _ _ w) as [[v|err] w1]; exact H.
  - pose proof (Model_findOneAndDelete_well_stored Project (Q_id (VStr id)) w Hw) as H.
    unfold delete_api_projects_id, try_catch, mbind, M_bind.
    destruct (Model_findOneAndDelete _ _ w) as [[v|err] w1]; exact H.
  - pose proof (sorted_listing_db Blog w) as Hdb.
    unfold get_api_blogs, try_catch, mbind, M_bind.
    destruct (Model_find_sort_date_desc Blog w) as [[v|err] w1];
      unfold mret, M_ret; cbn [snd] in *; rewrite Hdb; exact Hw.
  - pose proof (Model_create_well_stored Blog
                  (spread (body req) ∪ {["id" := VNum (clock w (ticks w))]}) (tick w) Hw) as H.
    unfold post_api_blogs, try_catch, mbind, M_bind, Date_now.
    destruct (Model_create _ _ (tick w)) as [[v|err] w1]; exact H.
  - pose proof (Model_findOneAndDelete_well_stored Blog (Q_id (VStr id)) w Hw) as H.
    unfold delete_api_blogs_id, try_catch, mbind, M_bind.
    destruct (Model_findOneAndDelete _ _ w) as [[v|err] w1]; exact H.
  - pose proof (Model_create_well_stored Contact
                  (spread (body req) ∪ {["id" := VNum (clock w (ticks w))]}) (tick w) Hw) as H.
    unfold mbind, M_bind.
    destruct (post_api_contact_run req w) as [(d & w0 & p & w1 & Hc & Hn & Hp')
                                              | (err & w0 & Hc & Hp')];
      rewrite Hp'; rewrite Hc in H; unfold mret, M_ret; cbn [fst snd] in *; [|exact H].
    destruct (sendDiscordNotification_frame d w0) as (p' & w1' & Hn' & Hdb & _).
    rewrite Hn in Hn'. inversion Hn'; subst. rewrite Hdb. exact H.
  - pose proof (sorted_listing_db Contact w) as Hdb.
    unfold get_api_contact, try_catch, mbind, M_bind.
    destruct (Model_find_sort_date_desc Contact w) as [[v|err] w1];
      unfold mret, M_ret; cbn [snd] in *; rewrite Hdb; exact Hw.
  - unfold post_api_login. destruct (body req); [|exact Hw].
    destruct (strict_equals _ _); exact Hw.
Qed.

(** X17. The records of Settings, Projects and Blogs stay conforming: if
    every one of them has declared paths only, each holding a value of its
    declared type or null, then so it is after any request whose body, where
    the route hands it on as an update, is plain; after seeding; and after a
    contact submission with its notification. *)
Theorem store_stays_well_stored (req : request) (w : world) :
  well_stored (db w) ->
  (forall e, route req = Some e -> updating e = true ->
     plain (spread (body req)) = true) ->
  well_stored (db (serve req w).2) /\
  well_stored (db (seedDatabase w).2) /\
  forall dlv, well_stored (db (contact_submission req dlv w).2).
Proof.
  intros Hw Hplain. split; [|split].
  - unfold serve, run. destruct (route req) as [e|]; [|exact Hw].
    specialize (Hplain e eq_refl).
    destruct (protected e); [|apply handler_well_stored; assumption].
    destruct (auth req); [apply handler_well_stored; assumption|exact Hw].
  - unfold seedDatabase, try_catch, mbind, M_bind, Model_countDocuments.
    unfold store at 1. destruct (answers w (ops w)); [|exact Hw].
    destruct (bool_decide _); [|exact Hw].
    match goal with
    | |- context [Model_create Settings ?raw ?w0] =>
        pose proof (Model_create_well_stored Settings raw w0 Hw) as H;
        destruct (Model_create Settings raw w0) as [[v|err] w1]; exact H
    end.
  - intros dlv.
    pose proof (handler_well_stored POST_api_contact req w (fun H => False_ind _ (Bool.diff_false_true H)) Hw) as H.
    cbn [handler] in H. unfold contact_submission, mbind, M_bind in *.
    destruct (post_api_contact req w) as [[[r p]|err] w1]; cbn [fst snd] in *; [|exact H].
    destruct p; [exact H|]. unfold sendDiscordNotification_resume.
    destruct (rejected dlv); exact H.
Qed.

(** ** An update that names no declared field *)

Lemma cast_doc_nothing (sch : schema) (raw : object) :
  (forall p, p ∈ sch.*1 -> unset raw p = true) -> cast_doc sch raw = Some ∅.
Proof.
  induction sch as [|[q t] rest IH]; intros H; [reflexivity|].
  cbn [cast_doc]. rewrite IH by (intros p Hp; apply H; right; exact Hp). simpl.
  specialize (H q (list_elem_of_here _ _)). unfold unset in H.
  destruct (raw !! q) as [[]|]; try discriminate; reflexivity.
Qed.

Lemma update_first_same (q : query) (f : object -> object) (l l' : list object)
    (old nw : object) :
  (forall d, f d = d) -> update_first q f l = Some (old, nw, l') -> l' = l.
Proof.
  intros Hf. revert l' old nw. induction l as [|d l IH]; intros l' old nw H; [discriminate|].
  cbn [update_first] in H. destruct (matches q d).
  - inversion H; subst. rewrite Hf. reflexivity.
  - destruct (update_first q f l) as [[[o n] r]|] eqn:Hu; [|discriminate].
    simpl in H. inversion H; subst. f_equal. eapply IH. reflexivity.
Qed.

(** X19. Updating a Project with no body, or with a plain body that names
    no declared field, answers the success message and changes nothing,
    whether or not a record has the id. *)
Theorem update_without_fields (id : string) (n : Z) (req : request) (w : world) :
  id <> "" -> StringToNumber id = Some n ->
  headers req !! "password" = ADMIN_PASSWORD process_env ->
  answers w (ops w) = true ->
  route req = Some (PUT_api_projects_id id) ->
  plain (spread (body req)) = true ->
  (forall p, p ∈ ProjectSchema.*1 -> unset (spread (body req)) p = true) ->
  exists w', serve req w = (Ok (res_json (message "Project updated")), w') /\
    db w' = db w.
Proof.
  intros Hne Hn Hpw Ha Hroute Hplain Hnone.
  rewrite (serve_authorized _ req w Hroute Hpw). cbn [handler].
  destruct (proj1 (update_handler id n req w Hne Hn Ha) ∅ Hplain (cast_doc_nothing _ _ Hnone))
    as (w' & Hrun & Hdb).
  exists w'. split; [exact Hrun|]. rewrite Hdb.
  destruct (update_first (Q_id (VNum n)) _ (projects (db w))) as [[[old nw] l]|] eqn:Hu;
    [|reflexivity].
  apply update_first_same in Hu; [|intros d; apply (left_id ∅ (∪))].
  subst l. apply (with_collection_same Project).
Qed.

(** ** An update of the settings that is refused *)

(** X20. PUT /api/settings past the gate without a body, or with a body
    that Mongoose does not accept (a field that does not cast), is answered
    500 with the message of the route, and the world is left as it was:
    nothing is read, written or created. *)
Theorem settings_update_refused (req : request) (w : world) :
  route req = Some PUT_api_settings ->
  headers req !! "password" = ADMIN_PASSWORD process_env ->
  body req = None \/
    (exists b, body req = Some b /\ update_accepted SettingsSchema b = false) ->
  serve req w = (Ok (res_status_json 500 (message "Error updating settings")), w).
Proof.
  intros Hroute Hpw Hbody. rewrite (serve_authorized _ req w Hroute Hpw). cbn [handler].
  unfold put_api_settings, try_catch, mbind, M_bind, Model_findOneAndUpdate.
  destruct Hbody as [->|(b & -> & Hrej)]; [reflexivity|].
  rewrite Query_findOneAndUpdate_rejects; [reflexivity|]. right. exact Hrej.
Qed.

End WithRuntime.
(** * The statements at concrete requests *)

Ltac evaluate := vm_compute; first [reflexivity | discriminate].

(** A run that answered 200 did not throw. *)
Lemma answered (x : outcome response * world) :
  status (answer_of x) = 200 -> x = (Ok (answer_of x), x.2).
Proof. destruct x as [[r|e] w]; [reflexivity|discriminate]. Qed.

(** A DELETE with a wrong password is turned away and the world is as before;
    with the right one it reaches the handler. *)
Lemma auth_gate_witness :
  serve (rt := example_runtime) example_env
    (request_of DELETE ["api"; "projects"; "7"] (Some "guess") None) fresh_world
  = (Ok (res_status_json 401 (message "Unauthorized")), fresh_world) /\
  serve (rt := example_runtime) example_env
    (request_of DELETE ["api"; "projects"; "7"] secret None) fresh_world
  = handler (rt := example_runtime) example_env (DELETE_api_projects_id "7")
      (request_of DELETE ["api"; "projects"; "7"] secret None) fresh_world.
Proof.
  split.
  - apply (auth_gate (rt := example_runtime) example_env (DELETE_api_projects_id "7"));
      [evaluate | evaluate | evaluate].
  - apply (auth_gate (rt := example_runtime) example_env (DELETE_api_projects_id "7"));
      evaluate.
Defined.

(** With no secret configured, a POST /api/projects without header reaches
    its handler and a login with an empty body succeeds. *)
Lemma unset_secret_admits_witness :
  ADMIN_PASSWORD unconfigured_env = None /\
  serve (rt := example_runtime) unconfigured_env
    (request_of POST ["api"; "projects"] None (Some (obj [("title", VStr "x")]))) fresh_world
  = handler (rt := example_runtime) unconfigured_env POST_api_projects
      (request_of POST ["api"; "projects"] None (Some (obj [("title", VStr "x")]))) fresh_world.
Proof.
  split; [reflexivity|].
  apply (unset_secret_admits (rt := example_runtime) unconfigured_env
           (request_of POST ["api"; "projects"] None (Some (obj [("title", VStr "x")])))
           fresh_world eq_refl); evaluate.
Defined.

(** A blog posted with a title and a content only. *)
Lemma create_assigns_witness :
  exists d : object,
    blogs (db (serve (rt := example_runtime) example_env
                 (post_blog [("title", VStr "Hello"); ("content", VStr "World")])
                 fresh_world).2) = [d] /\
    d !! "id" = Some (VNum 1700000000000).
Proof.
  destruct (create_assigns (rt := example_runtime) example_env POST_api_blogs Blog "blog"
              (post_blog [("title", VStr "Hello"); ("content", VStr "World")])
              fresh_world
              (serve (rt := example_runtime) example_env
                 (post_blog [("title", VStr "Hello"); ("content", VStr "World")])
                 fresh_world).2
              (answer_of (serve (rt := example_runtime) example_env
                 (post_blog [("title", VStr "Hello"); ("content", VStr "World")])
                 fresh_world))
              eq_refl eq_refl)
    as (d & _ & Hstored & Hid & _).
  - apply answered. evaluate.
  - evaluate.
  - exists d. split; [exact Hstored | apply Hid; evaluate].
Defined.

(** C3 fails as stated. A project, a blog and a contact posted with their
    own id are stored under that id, not under the time of creation; a
    title given as a number is stored as a string; and a key that the schema
    of a Project or of a Blog does not declare is not stored. *)
Lemma create_keeps_supplied_id :
  clock fresh_world (ticks fresh_world) = 1700000000000 /\
  (let x := serve (rt := example_runtime) example_env
              (post_project [("id", VNum 5); ("title", VNum 7); ("stack", VStr "js")])
              fresh_world in
   status (answer_of x) = 200 /\
   length (projects (db x.2)) = 1%nat /\
   field (projects (db x.2)) 0 "id" = Some (VNum 5) /\
   field (projects (db x.2)) 0 "title" = Some (VStr "7") /\
   field (projects (db x.2)) 0 "stack" = None) /\
  (let x := serve (rt := example_runtime) example_env
              (post_blog [("id", VNum 5); ("title", VStr "t"); ("content", VStr "c");
                          ("mood", VStr "fine")])
              fresh_world in
   status (answer_of x) = 200 /\
   length (blogs (db x.2)) = 1%nat /\
   field (blogs (db x.2)) 0 "id" = Some (VNum 5) /\
   field (blogs (db x.2)) 0 "mood" = None) /\
  (let x := serve (rt := example_runtime) example_env
              (post_contact [("id", VNum 5); ("name", VStr "Ada")])
              fresh_world in
   status (answer_of x) = 200 /\
   length (contacts (db x.2)) = 1%nat /\
   field (contacts (db x.2)) 0 "id" = Some (VNum 5) /\
   field (contacts (db x.2)) 0 "name" = Some (VStr "Ada")).
Proof. cbv zeta. repeat split; evaluate. Qed.

(** C4 fails as stated. Two projects posted one after the other within the
    same millisecond get the same id, and so do two projects posted with
    the same id in their bodies while the clock advances. *)
Lemma consecutive_creates_share_id :
  (let x1 := serve (rt := example_runtime) example_env
               (post_project [("title", VStr "a")]) frozen_world in
   let x2 := serve (rt := example_runtime) example_env
               (post_project [("title", VStr "b")]) x1.2 in
   status (answer_of x1) = 200 /\ status (answer_of x2) = 200 /\
   length (projects (db x2.2)) = 2%nat /\
   field (projects (db x2.2)) 0 "id" = Some (VNum 1700000000000) /\
   field (projects (db x2.2)) 1 "id" = Some (VNum 1700000000000)) /\
  (let x1 := serve (rt := example_runtime) example_env
               (post_project [("id", VNum 7); ("title", VStr "a")]) fresh_world in
   let x2 := serve (rt := example_runtime) example_env
               (post_project [("id", VNum 7); ("title", VStr "b")]) x1.2 in
   status (answer_of x1) = 200 /\ status (answer_of x2) = 200 /\
   length (projects (db x2.2)) = 2%nat /\
   field (projects (db x2.2)) 0 "id" = Some (VNum 7) /\
   field (projects (db x2.2)) 1 "id" = Some (VNum 7)).
Proof. cbv zeta. repeat split; evaluate. Qed.

(** Two projects posted one after the other while the clock advances. *)
Lemma distinct_ids_witness :
  exists d1 d2 : object,
    projects (db (serve (rt := example_runtime) example_env
                    (post_project [("title", VStr "b")])
                    (serve (rt := example_runtime) example_env
                       (post_project [("title", VStr "a")]) fresh_world).2).2)
      = [d1; d2] /\
    d1 !! "id" <> d2 !! "id".
Proof.
  destruct (distinct_ids (rt := example_runtime) example_env POST_api_projects Project
              "project"
              (post_project [("title", VStr "a")]) (post_project [("title", VStr "b")])
              fresh_world
              (serve (rt := example_runtime) example_env
                 (post_project [("title", VStr "a")]) fresh_world).2
              (serve (rt := example_runtime) example_env
                 (post_project [("title", VStr "b")])
                 (serve (rt := example_runtime) example_env
                    (post_project [("title", VStr "a")]) fresh_world).2).2
              (answer_of (serve (rt := example_runtime) example_env
                 (post_project [("title", VStr "a")]) fresh_world))
              (answer_of (serve (rt := example_runtime) example_env
                 (post_project [("title", VStr "b")])
                 (serve (rt := example_runtime) example_env
                    (post_project [("title", VStr "a")]) fresh_world).2))
              eq_refl eq_refl eq_refl)
    as (d1 & d2 & Hstored & _ & _ & Hne).
  - apply answered. evaluate.
  - evaluate.
  - apply answered. evaluate.
  - evaluate.
  - evaluate.
  - evaluate.
  - evaluate.
  - exists d1, d2. split; [exact Hstored | exact Hne].
Defined.

(** C5 fails as stated. Deleting the project or the blog [abc], which no
    record has as its id, answers 500: the id does not cast to a number. So
    does updating project 12, which no record has, with a title that is not
    a string. *)
Lemma missing_target_errors :
  (let r := answer_of (serve (rt := example_runtime) example_env
              (request_of DELETE ["api"; "projects"; "abc"] secret None) fresh_world) in
   status r = 500 /\
   answer_field r "message" = Some (VStr "Error deleting project")) /\
  (let r := answer_of (serve (rt := example_runtime) example_env
              (request_of DELETE ["api"; "blogs"; "abc"] secret None) fresh_world) in
   status r = 500 /\
   answer_field r "message" = Some (VStr "Error deleting blog")) /\
  (let r := answer_of (serve (rt := example_runtime) example_env
              (request_of PUT ["api"; "projects"; "12"] secret
                 (Some (obj [("title", VArr [VStr "a"; VStr "b"])]))) fresh_world) in
   status r = 500 /\
   answer_field r "message" = Some (VStr "Error updating project")) /\
  projects (db fresh_world) = [] /\ blogs (db fresh_world) = [].
Proof. cbv zeta. repeat split; evaluate. Qed.

(** Deleting project 12 from an empty store, and deleting project [abc]. *)
Lemma missing_target_succeeds_witness :
  (exists w',
     serve (rt := example_runtime) example_env
       (request_of DELETE ["api"; "projects"; "12"] secret None) fresh_world
     = (Ok (res_json (message "Project deleted")), w') /\
     db w' = db fresh_world) /\
  serve (rt := example_runtime) example_env
    (request_of DELETE ["api"; "projects"; "abc"] secret None) fresh_world
  = (Ok (res_status_json 500 (message "Error deleting project")), fresh_world).
Proof.
  split.
  - destruct (missing_target_succeeds (rt := example_runtime) example_env "12"
                (request_of DELETE ["api"; "projects"; "12"] secret None) fresh_world)
      as [Hnum _].
    + discriminate.
    + evaluate.
    + evaluate.
    + assert (Hn : StringToNumber (Runtime := example_runtime) "12" = Some 12) by evaluate.
      destruct (Hnum 12 Hn) as [Hdelete _].
      destruct (Hdelete eq_refl) as (w' & Hserve & Hdb).
      exists w'. split; [exact Hserve|]. apply Hdb.
      intros d Hd. destruct (not_elem_of_nil d Hd).
  - destruct (missing_target_succeeds (rt := example_runtime) example_env "abc"
                (request_of DELETE ["api"; "projects"; "abc"] secret None) fresh_world)
      as (_ & Hnan & _).
    + discriminate.
    + evaluate.
    + evaluate.
    + assert (Hn : StringToNumber (Runtime := example_runtime) "abc" = None) by evaluate.
      apply (Hnan Hn (DELETE_api_projects_id "abc") eq_refl). left. reflexivity.
Defined.

(** Three blogs stored second, third, first are listed third, second, first. *)
Lemma lists_newest_first_witness :
  exists shown w',
    serve (rt := example_runtime) example_env
      (request_of GET ["api"; "blogs"] None None) (world_of three_blogs 0 1)
    = (Ok (res_json (documents shown)), w') /\
    date_of <$> shown = [Some 3000; Some 2000; Some 1000].
Proof.
  destruct (lists_newest_first (rt := example_runtime) example_env
              (request_of GET ["api"; "blogs"] None None) (world_of three_blogs 0 1) eq_refl)
    as [Hblogs _].
  destruct (Hblogs eq_refl) as (shown & w' & Hserve & _ & _ & _ & Hthree).
  exists shown, w'. split; [exact Hserve|].
  apply (Hthree (dated "first" 1000) (dated "second" 2000) (dated "third" 3000)
           1000 2000 3000); try evaluate; [lia|].
  exact (Permutation_sym
           (Permutation_cons_append [dated "second" 2000; dated "third" 3000]
              (dated "first" 1000))).
Defined.

Lemma cast_result (x : option object) :
  match x with Some _ => true | None => false end = true -> x = Some (default ∅ x).
Proof. destruct x; [reflexivity|discriminate]. Qed.

(** Updating the bio alone keeps the stored name and email; on an empty
    store it creates the record, with the default name. *)
Lemma settings_upsert_merges_witness :
  (exists (d shown : object) (w' : world),
     serve (rt := example_runtime) example_env
       (put_settings [("bio", VStr "new bio")]) (world_of seeded 0 1)
     = (Ok (res_json (VObj (obj [("message", VStr "Settings updated");
                                 ("settings", VObj shown)]))), w') /\
     settings (db w') = [d] /\
     d !! "bio" = Some (VStr "new bio") /\
     d !! "name" = Some (VStr "Vaibhav Kumar") /\
     d !! "email" = Some (VStr "me@example.org")) /\
  (exists (d shown : object) (w' : world),
     serve (rt := example_runtime) example_env
       (put_settings [("bio", VStr "new bio")]) fresh_world
     = (Ok (res_json (VObj (obj [("message", VStr "Settings updated");
                                 ("settings", VObj shown)]))), w') /\
     settings (db w') = [d] /\
     d !! "bio" = Some (VStr "new bio") /\
     d !! "name" = Some (VStr "Vaibhav Kumar") /\
     d !! "email" = None).
Proof.
  split.
  - destruct (settings_upsert_merges (rt := example_runtime) example_env
                (put_settings [("bio", VStr "new bio")])
                (obj [("bio", VStr "new bio")])
                (default ∅ (cast_doc (rt := example_runtime) SettingsSchema
                              (obj [("bio", VStr "new bio")])))
                (world_of seeded 0 1))
      as (d & shown & w' & Hserve & _ & [Hstored Hkept] & Hset & _).
    + evaluate.
    + evaluate.
    + reflexivity.
    + evaluate.
    + apply cast_result. evaluate.
    + evaluate.
    + exists d, shown, w'. split; [exact Hserve|]. split; [exact Hstored|].
      split; [|split].
      * destruct (Hset "bio" (path TString) (VStr "new bio")) as (v' & Hcast & Hd);
          [do 1 right; left | evaluate | discriminate |].
        inversion Hcast; subst v'. exact Hd.
      * rewrite (Hkept "name"); evaluate.
      * rewrite (Hkept "email"); evaluate.
  - destruct (settings_upsert_merges (rt := example_runtime) example_env
                (put_settings [("bio", VStr "new bio")])
                (obj [("bio", VStr "new bio")])
                (default ∅ (cast_doc (rt := example_runtime) SettingsSchema
                              (obj [("bio", VStr "new bio")])))
                fresh_world)
      as (d & shown & w' & Hserve & _ & [Hstored Hnew] & Hset & _).
    + evaluate.
    + evaluate.
    + reflexivity.
    + evaluate.
    + apply cast_result. evaluate.
    + evaluate.
    + exists d, shown, w'. split; [exact Hserve|]. split; [exact Hstored|].
      split; [|split].
      * destruct (Hset "bio" (path TString) (VStr "new bio")) as (v' & Hcast & Hd);
          [do 1 right; left | evaluate | discriminate |].
        inversion Hcast; subst v'. exact Hd.
      * rewrite (Hnew "name"); evaluate.
      * rewrite (Hnew "email"); evaluate.
Defined.

(** A contact submitted while no webhook is configured. *)
Lemma unconfigured_webhook_is_silent_witness :
  DISCORD_WEBHOOK_URL example_env = None /\
  forall data w0,
    sendDiscordNotification (rt := example_runtime) example_env data w0 = (Ok Settled, w0).
Proof.
  split; [reflexivity|].
  apply (unconfigured_webhook_is_silent (rt := example_runtime) example_env
           (post_contact [("name", VStr "Ada"); ("email", VStr "ada@example.org");
                          ("message", VStr "hello")])
           fresh_world (or_introl eq_refl)).
Defined.

(** A run that gave a result did not throw. *)
Lemma ran (x : outcome object * world) :
  match x.1 with Ok _ => true | Throw _ => false end = true ->
  x = (Ok (match x.1 with Ok d => d | Throw _ => ∅ end), x.2).
Proof. destruct x as [[d|e] w]; [reflexivity|discriminate]. Qed.

(** A contact submitted while a webhook is configured that never answers:
    the submission is answered 200 and the failure is one line on the
    console. *)
Lemma delivery_failure_is_swallowed_witness :
  exists r w2,
    contact_submission (rt := example_runtime) webhook_env
      (post_contact [("name", VStr "Ada"); ("message", VStr "hello")]) NoAnswer fresh_world
    = (Ok r, w2) /\
    status r = 200 /\
    console w2 = [Err "Discord Webhook Error:" AxiosError].
Proof.
  destruct (delivery_failure_is_swallowed (rt := example_runtime) webhook_env
              (post_contact [("name", VStr "Ada"); ("message", VStr "hello")])
              NoAnswer fresh_world)
    as (r & p & w1 & w2 & _ & Hsub & _ & _ & _ & _ & _ & Hcreated).
  assert (Hc : match (Model_create (rt := example_runtime) Contact
                      (spread (body (post_contact [("name", VStr "Ada");
                                                   ("message", VStr "hello")]))
                         ∪ {["id" := VNum (clock fresh_world (ticks fresh_world))]})
                      (tick fresh_world)).1 with Ok _ => true | Throw _ => false end = true) by evaluate.
  pose proof (ran (Model_create (rt := example_runtime) Contact
                      (spread (body (post_contact [("name", VStr "Ada");
                                                   ("message", VStr "hello")]))
                         ∪ {["id" := VNum (clock fresh_world (ticks fresh_world))]})
                      (tick fresh_world)) Hc) as Hran.
  destruct (Hcreated _ _ Hran) as (Hr & Hsent).
  destruct (Hsent "https://discord.example/api/webhooks/1"%string eq_refl
              ltac:(discriminate))
    as (_ & _ & Hlogged & _).
  exists r, w2. split; [exact Hsub|]. split; [rewrite Hr; reflexivity|].
  exact (Hlogged eq_refl).
Defined.


(** * The further properties at concrete requests *)

(** A run that answered with a status did not throw. *)
Lemma answered_with (x : outcome response * world) :
  status (answer_of x) <> 0 -> x = (Ok (answer_of x), x.2).
Proof. destruct x as [[r|e] w]; [reflexivity|]. intros H. contradiction H. reflexivity. Qed.

Lemma nothing_stored (d : object) : d ∉ @nil object.
Proof. apply not_elem_of_nil. Qed.

Lemma empty_database_well_stored : well_stored empty_database.
Proof. intros m d _ Hd. destruct m; inversion Hd. Qed.

(** A project posted without a title is refused and nothing is stored. *)
Lemma failure_changes_nothing_witness :
  status (answer_of (serve (rt := example_runtime) example_env
                       (post_project [("category", VStr "x")]) fresh_world)) = 500 /\
  db (serve (rt := example_runtime) example_env
        (post_project [("category", VStr "x")]) fresh_world).2 = db fresh_world.
Proof.
  split; [evaluate|].
  apply (failure_changes_nothing (rt := example_runtime) example_env
           (post_project [("category", VStr "x")]) fresh_world _
           (answer_of (serve (rt := example_runtime) example_env
              (post_project [("category", VStr "x")]) fresh_world))).
  - apply answered_with. evaluate.
  - evaluate.
Defined.

(** A login sent without a body. *)
Lemma only_login_throws_witness :
  serve (rt := example_runtime) example_env
    (request_of POST ["api"; "login"] None None) fresh_world = (Throw TypeError, fresh_world) /\
  body (request_of POST ["api"; "login"] None None) = None.
Proof.
  assert (H : serve (rt := example_runtime) example_env
                (request_of POST ["api"; "login"] None None) fresh_world
              = (Throw TypeError, fresh_world)) by reflexivity.
  split; [exact H|].
  apply (only_login_throws (rt := example_runtime) example_env _ _ _ _ H).
Defined.

(** While the store is out of reach: listing the messages with the right
    password, and listing the blogs without any. *)
Lemma store_down_answers_500_witness :
  (exists w',
     serve (rt := example_runtime) example_env
       (request_of GET ["api"; "contact"] secret None) (offline fresh_world)
     = (Ok (res_status_json 500 (message "Error fetching messages")), w') /\
     db w' = db (offline fresh_world)) /\
  (exists w',
     serve (rt := example_runtime) example_env (get_of ["api"; "blogs"]) (offline fresh_world)
     = (Ok (res_status_json 500 (message "Error fetching blogs")), w') /\
     db w' = db (offline fresh_world)).
Proof.
  split.
  - apply (store_down_answers_500 (rt := example_runtime) example_env GET_api_contact
             (request_of GET ["api"; "contact"] secret None) (offline fresh_world));
      [evaluate | evaluate | discriminate | intros _; evaluate].
  - apply (store_down_answers_500 (rt := example_runtime) example_env GET_api_blogs
             (get_of ["api"; "blogs"]) (offline fresh_world));
      [evaluate | evaluate | discriminate | discriminate].
Defined.

(** A login with the configured secret, and one with a number. *)
Lemma login_checks_password_witness :
  serve (rt := example_runtime) example_env
    (request_of POST ["api"; "login"] None (Some (obj [("password", VStr "s3cret")])))
    fresh_world
  = (Ok (res_json (VObj (obj [("success", VBool true); ("token", VStr "admin-token")]))),
     fresh_world) /\
  serve (rt := example_runtime) example_env
    (request_of POST ["api"; "login"] None (Some (obj [("password", VNum 7)])))
    fresh_world
  = (Ok (res_status_json 401
           (VObj (obj [("success", VBool false); ("message", VStr "Invalid password")]))),
     fresh_world).
Proof.
  split.
  - apply (login_checks_password (rt := example_runtime) example_env
             (request_of POST ["api"; "login"] None (Some (obj [("password", VStr "s3cret")])))
             (obj [("password", VStr "s3cret")]) "s3cret" fresh_world);
      evaluate.
  - apply (login_checks_password (rt := example_runtime) example_env
             (request_of POST ["api"; "login"] None (Some (obj [("password", VNum 7)])))
             (obj [("password", VNum 7)]) "s3cret" fresh_world);
      evaluate.
Defined.

(** Reading the data of a store with three blogs. *)
Lemma get_reads_only_witness :
  db (serve (rt := example_runtime) example_env (get_of ["api"; "data"])
        (world_of three_blogs 0 1)).2 = three_blogs.
Proof.
  apply (get_reads_only (rt := example_runtime) example_env (get_of ["api"; "data"])
           (world_of three_blogs 0 1)).
  reflexivity.
Defined.

(** A contact submitted with a password nobody asked for. *)
Lemma public_routes_ignore_headers_witness :
  serve (rt := example_runtime) example_env
    (with_headers {["password" := "nonsense"]} (post_contact [("name", VStr "Ada")]))
    fresh_world
  = serve (rt := example_runtime) example_env (post_contact [("name", VStr "Ada")])
      fresh_world.
Proof.
  apply (public_routes_ignore_headers (rt := example_runtime) example_env POST_api_contact);
    evaluate.
Defined.

(** Deleting project 11 from a store that holds projects 11 and 12. *)
Lemma delete_removes_first_witness :
  exists w',
    serve (rt := example_runtime) example_env (delete_project "11")
      (world_of two_projects 0 1)
    = (Ok (res_json (message "Project deleted")), w') /\
    projects (db w') = [project_of 12 "two"].
Proof.
  destruct (delete_removes_first (rt := example_runtime) example_env "11" 11
              (delete_project "11") (world_of two_projects 0 1)
              [] [project_of 12 "two"] (project_of 11 "one"))
    as [Hdelete _].
  - discriminate.
  - evaluate.
  - evaluate.
  - evaluate.
  - intros d Hd. destruct (nothing_stored d Hd).
  - evaluate.
  - destruct (Hdelete eq_refl eq_refl) as (w' & Hserve & Hprojects & _).
    exists w'. split; [exact Hserve | exact Hprojects].
Defined.

(** Renaming project 12 in a store that holds projects 11 and 12. *)
Lemma update_rewrites_first_witness :
  exists w',
    serve (rt := example_runtime) example_env
      (put_project "12" (Some (obj [("title", VStr "new")]))) (world_of two_projects 0 1)
    = (Ok (res_json (message "Project updated")), w') /\
    field (projects (db w')) 1 "title" = Some (VStr "new") /\
    field (projects (db w')) 1 "category" = Some (VStr "web") /\
    field (projects (db w')) 0 "title" = Some (VStr "one").
Proof.
  destruct (update_rewrites_first (rt := example_runtime) example_env "12" 12
              (put_project "12" (Some (obj [("title", VStr "new")])))
              (world_of two_projects 0 1)
              [project_of 11 "one"] [] (project_of 12 "two")
              (default ∅ (cast_doc (rt := example_runtime) ProjectSchema
                            (obj [("title", VStr "new")]))))
    as (w' & Hserve & Hprojects & _).
  - discriminate.
  - evaluate.
  - evaluate.
  - evaluate.
  - evaluate.
  - evaluate.
  - apply cast_result. evaluate.
  - reflexivity.
  - intros d Hd. apply list_elem_of_singleton in Hd. subst d. evaluate.
  - evaluate.
  - exists w'. split; [exact Hserve|]. rewrite Hprojects. repeat split; evaluate.
Defined.

(** A project posted without its title. *)
Lemma create_needs_required_witness :
  exists w',
    serve (rt := example_runtime) example_env (post_project [("category", VStr "x")])
      fresh_world
    = (Ok (res_status_json 500 (message "Error adding project")), w') /\
    db w' = db fresh_world.
Proof.
  apply (create_needs_required (rt := example_runtime) example_env POST_api_projects
           Project "project" "title" (path_required TString)
           (post_project [("category", VStr "x")]) fresh_world);
    [evaluate | reflexivity | evaluate | do 1 right; left | reflexivity
    | discriminate | evaluate].
Defined.

(** A contact submitted while a webhook is configured. *)
Lemma contact_posts_one_notification_witness :
  exists d t,
    outbox (serve (rt := example_runtime) webhook_env
              (post_contact [("name", VStr "Ada"); ("message", VStr "hello")])
              fresh_world).2
    = [("https://discord.example/api/webhooks/1"%string, embed d t)].
Proof.
  destruct (contact_posts_one_notification (rt := example_runtime) webhook_env
              "https://discord.example/api/webhooks/1"
              (post_contact [("name", VStr "Ada"); ("message", VStr "hello")])
              fresh_world
              (serve (rt := example_runtime) webhook_env
                 (post_contact [("name", VStr "Ada"); ("message", VStr "hello")])
                 fresh_world).2
              (answer_of (serve (rt := example_runtime) webhook_env
                 (post_contact [("name", VStr "Ada"); ("message", VStr "hello")])
                 fresh_world)))
    as (_ & Hsent & _).
  - reflexivity.
  - discriminate.
  - evaluate.
  - apply answered. evaluate.
  - destruct Hsent as (d & t & _ & _ & Hout); [evaluate|].
    exists d, t. exact Hout.
Defined.

(** Seeding an empty store twice. *)
Lemma seeding_twice_witness :
  settings (db (seedDatabase (rt := example_runtime) fresh_world).2) <> [] /\
  db (seedDatabase (rt := example_runtime)
        (seedDatabase (rt := example_runtime) fresh_world).2).2
  = db (seedDatabase (rt := example_runtime) fresh_world).2.
Proof.
  apply (seeding_twice (rt := example_runtime) fresh_world).
  intros n. reflexivity.
Defined.

(** The data of a store that holds one Settings record. *)
Lemma data_snapshot_witness :
  exists r w',
    serve (rt := example_runtime) example_env (get_of ["api"; "data"]) (world_of seeded 0 1)
    = (Ok r, w') /\
    status r = 200 /\
    answer_field r "projects" = Some (VArr []).
Proof.
  destruct (data_snapshot (rt := example_runtime) example_env (get_of ["api"; "data"])
              (world_of seeded 0 1))
    as (r & w' & Hserve & Hstatus & _ & _ & _ & (shown & Hprojects & Hshown) & _).
  - evaluate.
  - evaluate.
  - evaluate.
  - evaluate.
  - exists r, w'. split; [exact Hserve|]. split; [exact Hstatus|].
    rewrite Hprojects. inversion Hshown. reflexivity.
Defined.

(** Updating the bio, then reading the data. *)
Lemma settings_round_trip_witness :
  exists d r2 w2,
    answer_field (answer_of (serve (rt := example_runtime) example_env
                    (put_settings [("bio", VStr "new bio")]) (world_of seeded 0 1)))
      "settings" = Some (VObj d) /\
    serve (rt := example_runtime) example_env (get_of ["api"; "data"])
      (serve (rt := example_runtime) example_env
         (put_settings [("bio", VStr "new bio")]) (world_of seeded 0 1)).2
    = (Ok r2, w2) /\
    answer_field r2 "settings" = Some (VObj d).
Proof.
  destruct (settings_round_trip (rt := example_runtime) example_env
              (put_settings [("bio", VStr "new bio")]) (get_of ["api"; "data"])
              (world_of seeded 0 1)
              (serve (rt := example_runtime) example_env
                 (put_settings [("bio", VStr "new bio")]) (world_of seeded 0 1)).2
              (answer_of (serve (rt := example_runtime) example_env
                 (put_settings [("bio", VStr "new bio")]) (world_of seeded 0 1))))
    as (d & r2 & w2 & Hput & Hget & _ & Hsame).
  - evaluate.
  - apply answered. evaluate.
  - evaluate.
  - evaluate.
  - evaluate.
  - evaluate.
  - evaluate.
  - exists d, r2, w2. split; [exact Hput|]. split; [exact Hget | exact Hsame].
Defined.

(** Posting a blog, then listing the blogs. *)
Lemma created_blog_is_listed_witness :
  exists d l w2,
    serve (rt := example_runtime) example_env (get_of ["api"; "blogs"])
      (serve (rt := example_runtime) example_env
         (post_blog [("title", VStr "Hello"); ("content", VStr "World")])
         (world_of three_blogs 5000 1)).2
    = (Ok (res_json (documents l)), w2) /\
    d ∈ l /\ length l = 4%nat.
Proof.
  destruct (created_blog_is_listed (rt := example_runtime) example_env
              (post_blog [("title", VStr "Hello"); ("content", VStr "World")])
              (get_of ["api"; "blogs"]) (world_of three_blogs 5000 1)
              (serve (rt := example_runtime) example_env
                 (post_blog [("title", VStr "Hello"); ("content", VStr "World")])
                 (world_of three_blogs 5000 1)).2
              (answer_of (serve (rt := example_runtime) example_env
                 (post_blog [("title", VStr "Hello"); ("content", VStr "World")])
                 (world_of three_blogs 5000 1))))
    as (d & l & w2 & _ & Hget & Hin & Hlen).
  - evaluate.
  - apply answered. evaluate.
  - evaluate.
  - evaluate.
  - evaluate.
  - exists d, l, w2. split; [exact Hget|]. split; [exact Hin | exact Hlen].
Defined.

(** Posting a project at time 1700000000000, then deleting project
    1700000000000. *)
Lemma create_then_delete_witness :
  exists w2,
    serve (rt := example_runtime) example_env (delete_project "1700000000000")
      (serve (rt := example_runtime) example_env (post_project [("title", VStr "a")])
         fresh_world).2
    = (Ok (res_json (message "Project deleted")), w2) /\
    db w2 = db fresh_world.
Proof.
  apply (create_then_delete (rt := example_runtime) example_env
           (post_project [("title", VStr "a")]) (delete_project "1700000000000")
           "1700000000000" fresh_world
           (serve (rt := example_runtime) example_env (post_project [("title", VStr "a")])
              fresh_world).2
           (answer_of (serve (rt := example_runtime) example_env
              (post_project [("title", VStr "a")]) fresh_world))).
  - evaluate.
  - apply answered. evaluate.
  - evaluate.
  - evaluate.
  - intros d Hd. destruct (nothing_stored d Hd).
  - discriminate.
  - evaluate.
  - evaluate.
  - evaluate.
  - evaluate.
Defined.

(** Updating the bio of the seeded record. *)
Lemma store_stays_well_stored_witness :
  well_stored
    (db (serve (rt := example_runtime) example_env
           (put_settings [("bio", VStr "new bio"); ("views", VNum 3)])
           fresh_world).2).
Proof.
  refine (proj1 (store_stays_well_stored (rt := example_runtime) example_env
           (put_settings [("bio", VStr "new bio"); ("views", VNum 3)])
           fresh_world empty_database_well_stored _)).
  intros e _ _. evaluate.
Defined.

(** Updating project 12 without a body. *)
Lemma update_without_fields_witness :
  exists w',
    serve (rt := example_runtime) example_env (put_project "12" None)
      (world_of two_projects 0 1)
    = (Ok (res_json (message "Project updated")), w') /\
    db w' = two_projects.
Proof.
  apply (update_without_fields (rt := example_runtime) example_env "12" 12
           (put_project "12" None) (world_of two_projects 0 1)).
  - discriminate.
  - evaluate.
  - evaluate.
  - evaluate.
  - evaluate.
  - evaluate.
  - intros p _. reflexivity.
Defined.

(** Updating the settings without a body, and with a name that is a list. *)
Lemma settings_update_refused_witness :
  serve (rt := example_runtime) example_env
    (request_of PUT ["api"; "settings"] secret None) (world_of seeded 0 1)
  = (Ok (res_status_json 500 (message "Error updating settings")), world_of seeded 0 1) /\
  serve (rt := example_runtime) example_env
    (put_settings [("name", VArr [VStr "a"; VStr "b"])]) (world_of seeded 0 1)
  = (Ok (res_status_json 500 (message "Error updating settings")), world_of seeded 0 1).
Proof.
  split.
  - apply (settings_update_refused (rt := example_runtime) example_env
             (request_of PUT ["api"; "settings"] secret None) (world_of seeded 0 1));
      [evaluate | evaluate | left; reflexivity].
  - apply (settings_update_refused (rt := example_runtime) example_env
             (put_settings [("name", VArr [VStr "a"; VStr "b"])]) (world_of seeded 0 1));
      [evaluate | evaluate |].
    right. exists (obj [("name", VArr [VStr "a"; VStr "b"])]).
    split; [reflexivity | evaluate].
Defined.
